(** * Position health and transaction orchestration of the lending dashboard

    A shallow embedding of the core of the [Dashboard] component
    (health-factor engine, position accounting, transaction orchestrator,
    liquidation sizer) and the properties its specification states.

    - [bigint] values are [Z]; [/] on bigints is truncating division and
      raises [RangeError] on a zero divisor.
    - JavaScript [number]s are IEEE 754 binary64 values, modelled by the
      rationals they denote together with the rounding function [rnd]
      (round to nearest, ties to even, 53-bit significand, gradual
      underflow, overflow to infinity).
    - The component state is one record; event handlers and effects are
      written in a small state/exception/output monad whose output is the
      list of transactions handed to [writeContract]. *)

From Stdlib Require Import ZArith QArith Qround Qpower Qabs Qreduction.
From Stdlib Require Import SpecFloat String Ascii List Bool Lia Lqa.
Import ListNotations.

(** ** JavaScript numbers *)

Module JsNumber.

Local Open Scope Q_scope.

Inductive number : Type :=
| NaN
| PosInf
| NegInf
| Fin (q : Q).

Definition two : Q := 2 # 1.

(** [floor_log2 q] is the binary exponent of a positive rational:
    [2 ^ floor_log2 q <= q < 2 ^ (floor_log2 q + 1)]. *)
Definition floor_log2 (q : Q) : Z :=
  let e0 := (Z.log2 (Qnum q) - Z.log2 (Zpos (Qden q)))%Z in
  if Qle_bool (two ^ e0) q then e0 else (e0 - 1)%Z.

(** Nearest integer, ties to the even one. *)
Definition round_half_even (q : Q) : Z :=
  let f := Qfloor q in
  match Qcompare (q - inject_Z f) (1 # 2) with
  | Lt => f
  | Gt => (f + 1)%Z
  | Eq => if Z.even f then f else (f + 1)%Z
  end.

(** Exponent of the unit in the last place: 53 significant bits, and never
    below the subnormal spacing [2 ^ -1074]. *)
Definition ulp_exp (q : Q) : Z := Z.max (floor_log2 q - 52) (-1074).

Definition rnd_pos_value (q : Q) : Q :=
  let k := ulp_exp q in
  inject_Z (round_half_even (q / two ^ k)) * two ^ k.

Definition overflow_threshold : Q := two ^ 1024.

(** Rounding of a positive rational: [None] is overflow. *)
Definition rnd_pos (q : Q) : option Q :=
  let v := rnd_pos_value q in
  if Qle_bool overflow_threshold v then None else Some (Qred v).

(** Rounding of an exact result to binary64.  The sign of a zero is not
    tracked: the program never divides by a [number] variable. *)
Definition rnd (q : Q) : number :=
  match Qcompare q 0 with
  | Eq => Fin 0
  | Gt => match rnd_pos q with Some v => Fin v | None => PosInf end
  | Lt => match rnd_pos (- q) with Some v => Fin (- v) | None => NegInf end
  end.

(** [Number(b)] for a bigint [b]. *)
Definition Number (b : Z) : number := rnd (inject_Z b).

Definition isFinite (x : number) : bool :=
  match x with Fin _ => true | _ => false end.

Definition isNaN (x : number) : bool :=
  match x with NaN => true | _ => false end.

(** [x < y]; every comparison with [NaN] is false. *)
Definition num_ltb (x y : number) : bool :=
  match x, y with
  | NaN, _ | _, NaN => false
  | _, NegInf => false
  | NegInf, _ => true
  | PosInf, _ => false
  | _, PosInf => true
  | Fin a, Fin b => negb (Qle_bool b a)
  end.

Definition num_leb (x y : number) : bool :=
  match x, y with
  | NaN, _ | _, NaN => false
  | NegInf, _ => true
  | _, NegInf => false
  | _, PosInf => true
  | PosInf, _ => false
  | Fin a, Fin b => Qle_bool a b
  end.

Definition num_gtb (x y : number) : bool := num_ltb y x.
Definition num_geb (x y : number) : bool := num_leb y x.

Definition num_eqb (x y : number) : bool :=
  match x, y with
  | PosInf, PosInf | NegInf, NegInf => true
  | Fin a, Fin b => Qeq_bool a b
  | _, _ => false
  end.

(** [x / y]. *)
Definition num_div (x y : number) : number :=
  match x, y with
  | NaN, _ | _, NaN => NaN
  | Fin a, Fin b =>
      match Qcompare b 0 with
      | Eq => match Qcompare a 0 with Eq => NaN | Gt => PosInf | Lt => NegInf end
      | _ => rnd (a / b)
      end
  | Fin _, _ => Fin 0
  | PosInf, Fin b => if Qle_bool 0 b then PosInf else NegInf
  | NegInf, Fin b => if Qle_bool 0 b then NegInf else PosInf
  | _, _ => NaN
  end.

(** [x * y]. *)
Definition num_mul (x y : number) : number :=
  match x, y with
  | NaN, _ | _, NaN => NaN
  | Fin a, Fin b => rnd (a * b)
  | Fin a, PosInf | PosInf, Fin a =>
      match Qcompare a 0 with Eq => NaN | Gt => PosInf | Lt => NegInf end
  | Fin a, NegInf | NegInf, Fin a =>
      match Qcompare a 0 with Eq => NaN | Gt => NegInf | Lt => PosInf end
  | PosInf, PosInf | NegInf, NegInf => PosInf
  | PosInf, NegInf | NegInf, PosInf => NegInf
  end.

(** Integer literals ([0], [1000], [1e18]) are exact. *)
Definition lit (z : Z) : number := Number z.

(** [Math.round]: the nearest integer, ties towards [+Infinity]. *)
Definition Math_round (x : number) : number :=
  match x with
  | Fin q => Fin (inject_Z (Qfloor (q + (1 # 2))))
  | _ => x
  end.

(** The number denoted by a value of the Standard Library's executable
    specification of IEEE 754 arithmetic; [rnd] is compared with that
    specification at binary64 below. *)
Definition of_spec_float (f : spec_float) : number :=
  match f with
  | S754_zero _ => Fin 0
  | S754_infinity false => PosInf
  | S754_infinity true => NegInf
  | S754_nan => NaN
  | S754_finite sign m e =>
      let v := Qred (inject_Z (Zpos m) * two ^ e) in
      Fin (if sign then - v else v)
  end.

Definition binary64_of_Z (z : Z) : spec_float := binary_normalize 53 1024 z 0 false.

Definition binary64_div (x y : spec_float) : spec_float := SFdiv 53 1024 x y.

End JsNumber.

(** ** Exceptions *)

(** A computation that may throw.  The program never inspects the
    exception it catches, so one [Throw] stands for all of them. *)
Inductive result (A : Type) : Type :=
| Ok (a : A)
| Throw.

Arguments Ok {A} a.
Arguments Throw {A}.

Definition result_bind {A B : Type} (r : result A) (k : A -> result B) : result B :=
  match r with
  | Ok a => k a
  | Throw => Throw
  end.

Declare Scope result_scope.
Delimit Scope result_scope with result.
Notation "x <- r ;; k" := (result_bind r (fun x => k))
  (at level 61, r at next level, right associativity) : result_scope.

(** ** bigint *)

Module BigInt.

Local Open Scope Z_scope.

Definition bigint : Type := Z.

(** [a / b] on bigints truncates towards zero; a zero divisor raises
    [RangeError]. *)
Definition div (a b : bigint) : result bigint :=
  if b =? 0 then Throw else Ok (Z.quot a b).

(** Truthiness of an optional bigint: [undefined] and [0n] are falsy. *)
Definition truthy (x : option bigint) : bool :=
  match x with
  | Some v => negb (v =? 0)
  | None => false
  end.

End BigInt.

(** ** Strings: decimal text of bigints and numbers *)

Module JsString.

Import JsNumber.
Local Open Scope string_scope.

Definition is_digit (c : ascii) : bool :=
  (48 <=? nat_of_ascii c)%nat && (nat_of_ascii c <=? 57)%nat.

Definition digit_val (c : ascii) : Z := (Z.of_nat (nat_of_ascii c) - 48)%Z.

Definition digit_char (d : Z) : ascii := ascii_of_nat (Z.to_nat (d + 48)).

(** Text made of decimal digits only. *)
Fixpoint all_digits (s : string) : Prop :=
  match s with
  | EmptyString => True
  | String c r => is_digit c = true /\ all_digits r
  end.

Fixpoint digits_value (acc : Z) (s : string) : Z :=
  match s with
  | EmptyString => acc
  | String c r => digits_value (acc * 10 + digit_val c)%Z r
  end.

(** Longest prefix of decimal digits, and the rest. *)
Fixpoint span_digits (s : string) : string * string :=
  match s with
  | EmptyString => (EmptyString, EmptyString)
  | String c r =>
      if is_digit c
      then let '(d, rest) := span_digits r in (String c d, rest)
      else (EmptyString, s)
  end.

Fixpoint zeros (n : nat) : string :=
  match n with
  | O => EmptyString
  | S m => String "0" (zeros m)
  end.

Definition padStart0 (s : string) (n : nat) : string :=
  zeros (n - String.length s) ++ s.

Definition padEnd0 (s : string) (n : nat) : string :=
  s ++ zeros (n - String.length s).

(** [s.slice(from, to)] for [0 <= from <= to]. *)
Definition slice (s : string) (from to : nat) : string :=
  substring from (to - from) s.

(** [s.slice(from)]. *)
Definition slice_from (s : string) (from : nat) : string :=
  substring from (String.length s - from) s.

(** [s.replace(/(0+)$/, '')]. *)
Fixpoint strip_trailing_zeros (s : string) : string :=
  match s with
  | EmptyString => EmptyString
  | String c r =>
      match strip_trailing_zeros r with
      | EmptyString => if Ascii.eqb c "0" then EmptyString else String c EmptyString
      | r' => String c r'
      end
  end.

Fixpoint digits_of (fuel : nat) (n : Z) (acc : string) : string :=
  match fuel with
  | O => acc
  | S f =>
      let acc' := String (digit_char (n mod 10)) acc in
      if (n <? 10)%Z then acc' else digits_of f (n / 10)%Z acc'
  end.

(** Decimal text of a bigint, as produced by a template literal. *)
Definition string_of_bigint (n : Z) : string :=
  let digits m := digits_of (S (Z.to_nat (Z.log2 m))) m EmptyString in
  if (n <? 0)%Z then String "-" (digits (- n)%Z) else digits n.

(** [BigInt(s)] for decimal text with an optional minus sign; the empty
    string is [0n], anything else is a [SyntaxError]. *)
Definition BigInt_of_string (s : string) : result Z :=
  let '(neg, body) :=
    match s with
    | String "-" r => (true, r)
    | _ => (false, s)
    end in
  match span_digits body with
  | (d, EmptyString) =>
      if neg && (String.length d =? 0)%nat then Throw
      else Ok (if neg then - digits_value 0 d else digits_value 0 d)%Z
  | _ => Throw
  end.

Definition ten : Q := 10 # 1.

(** The number denoted by the decimal digits [ip.fp] times [10 ^ ex]. *)
Definition decimal_value (ip fp : string) (ex : Z) : Q :=
  (inject_Z (digits_value 0 (ip ++ fp)) * ten ^ (ex - Z.of_nat (String.length fp)))%Q.

Fixpoint skip_white (s : string) : string :=
  match s with
  | String c r =>
      if Ascii.eqb c " " || Ascii.eqb c "009" || Ascii.eqb c "010" || Ascii.eqb c "013"
      then skip_white r else s
  | EmptyString => s
  end.

(** Exponent part of a decimal literal: [e], an optional sign and at least
    one digit; anything else contributes no exponent. *)
Definition exponent_part (s : string) : Z :=
  match s with
  | String c r =>
      if Ascii.eqb c "e" || Ascii.eqb c "E" then
        let '(neg, body) :=
          match r with
          | String "-" r' => (true, r')
          | String "+" r' => (false, r')
          | _ => (false, r)
          end in
        let '(d, _) := span_digits body in
        if (String.length d =? 0)%nat then 0%Z
        else if neg then (- digits_value 0 d)%Z else digits_value 0 d
      else 0%Z
  | EmptyString => 0%Z
  end.

(** [parseFloat(s)]: the longest prefix of [s] that is a decimal literal,
    correctly rounded; [NaN] when there is none. *)
Definition parseFloat (s : string) : number :=
  let s0 := skip_white s in
  let '(neg, s1) :=
    match s0 with
    | String "-" r => (true, r)
    | String "+" r => (false, r)
    | _ => (false, s0)
    end in
  if prefix "Infinity" s1 then (if neg then NegInf else PosInf) else
  let '(ip, r1) := span_digits s1 in
  let '(fp, r2) :=
    match r1 with
    | String "." r => span_digits r
    | _ => (EmptyString, r1)
    end in
  if (String.length ip + String.length fp =? 0)%nat then NaN
  else
    let v := decimal_value ip fp (exponent_part r2) in
    rnd (if neg then - v else v)%Q.

(** [Number(s)] for text of the shape [digits.digits]; used on the digits
    that [parseUnits] rounds away. *)
Definition Number_of_string (s : string) : number :=
  let '(ip, r1) := span_digits s in
  match r1 with
  | EmptyString => if (String.length ip =? 0)%nat then lit 0 else rnd (decimal_value ip EmptyString 0)
  | String "." r =>
      match span_digits r with
      | (fp, EmptyString) =>
          if (String.length ip + String.length fp =? 0)%nat then NaN
          else rnd (decimal_value ip fp 0)
      | _ => NaN
      end
  | _ => NaN
  end.

(** Decimal exponent of a positive rational:
    [10 ^ e <= q < 10 ^ (e + 1)]. *)
Fixpoint adjust_log10 (fuel : nat) (q : Q) (e : Z) : Z :=
  match fuel with
  | O => e
  | S f =>
      if Qle_bool (ten ^ (e + 1)) q then adjust_log10 f q (e + 1)%Z
      else if Qle_bool (ten ^ e) q then e
      else adjust_log10 f q (e - 1)%Z
  end.

Definition floor_log10 (q : Q) : Z :=
  adjust_log10 4 q (floor_log2 q * 30103 / 100000)%Z.

(** The shortest decimal significand that reads back as [q]: the digits
    [s], their count [k] and the position [n] of the decimal point, as in
    Number::toString. *)
Fixpoint shortest_digits (fuel : nat) (k : nat) (q : Q) (n : Z) : Z * Z :=
  match fuel with
  | O => (0%Z, n)
  | S f =>
      let scale := (ten ^ (n - Z.of_nat k))%Q in
      let lo := Qfloor (q / scale) in
      let hi := (lo + 1)%Z in
      let reads_back s := num_eqb (rnd (inject_Z s * scale)) (Fin q) in
      let pick s :=
        if (s =? 10 ^ Z.of_nat k)%Z then (10 ^ (Z.of_nat k - 1), n + 1)%Z else (s, n) in
      match reads_back lo, reads_back hi with
      | true, true =>
          match Qcompare (q - inject_Z lo * scale) (inject_Z hi * scale - q) with
          | Lt => pick lo
          | Gt => pick hi
          | Eq => if Z.even lo then pick lo else pick hi
          end
      | true, false => pick lo
      | false, true => pick hi
      | false, false => shortest_digits f (S k) q n
      end
  end.

Definition exponent_text (e : Z) : string :=
  if (e <? 0)%Z then "e-" ++ string_of_bigint (- e) else "e+" ++ string_of_bigint e.

Definition toString_pos (q : Q) : string :=
  let '(s, n) := shortest_digits 17 1 q (floor_log10 q + 1) in
  let d := string_of_bigint s in
  let k := Z.of_nat (String.length d) in
  if ((k <=? n) && (n <=? 21))%Z then d ++ zeros (Z.to_nat (n - k))
  else if ((0 <? n) && (n <=? 21))%Z then
    slice d 0 (Z.to_nat n) ++ "." ++ slice_from d (Z.to_nat n)
  else if ((-6 <? n) && (n <=? 0))%Z then "0." ++ zeros (Z.to_nat (- n)) ++ d
  else if (k =? 1)%Z then d ++ exponent_text (n - 1)
  else slice d 0 1 ++ "." ++ slice_from d 1 ++ exponent_text (n - 1).

(** [x.toString()]. *)
Definition toString (x : number) : string :=
  match x with
  | NaN => "NaN"
  | PosInf => "Infinity"
  | NegInf => "-Infinity"
  | Fin q =>
      match Qcompare q 0 with
      | Eq => "0"
      | Gt => toString_pos q
      | Lt => "-" ++ toString_pos (- q)
      end
  end.

(** [x.toFixed(f)]: fixed notation below [1e21], ties away from zero on
    the exact value of [x]. *)
Definition toFixed (x : number) (f : nat) : string :=
  match x with
  | Fin q =>
      let neg := match Qcompare q 0 with Lt => true | _ => false end in
      let a := Qabs q in
      let body :=
        if Qle_bool (ten ^ 21) a then toString_pos a
        else
          let n := Qfloor (a * ten ^ Z.of_nat f + (1 # 2)) in
          let m := padStart0 (string_of_bigint n) (S f) in
          let k := String.length m in
          if (f =? 0)%nat then m
          else slice m 0 (k - f) ++ "." ++ slice_from m (k - f) in
      if neg then "-" ++ body else body
  | _ => toString x
  end.

End JsString.

(** ** viem: [parseUnits] *)

Module Viem.

Import JsNumber JsString.
Local Open Scope string_scope.
Local Open Scope result_scope.

(** The format test of [parseUnits] (an optional minus sign, digits, an
    optional dot, digits) followed by the split at the dot: the sign, the
    integer digits and the fraction digits ([None] when there is no dot). *)
Definition split_decimal (value : string) : option (bool * string * option string) :=
  let '(neg, body) :=
    match value with
    | String "-" r => (true, r)
    | _ => (false, value)
    end in
  let '(ip, r1) := span_digits body in
  match r1 with
  | EmptyString => Some (neg, ip, None)
  | String "." r =>
      match span_digits r with
      | (fp, EmptyString) => Some (neg, ip, Some fp)
      | _ => None
      end
  | _ => None
  end.

Definition bigint_of_number (x : number) : Z :=
  match x with
  | Fin q => Qfloor q
  | _ => 0%Z
  end.

(** [parseUnits(value, decimals)]: the decimal text [value] as an integer
    number of [10 ^ -decimals] units; digits beyond [decimals] are rounded
    off; text that is not a decimal number throws.  The integer digits
    stay the text that was entered unless the rounding carries into them,
    so a sign with no digit behind it reaches the final conversion as it
    is and throws there. *)
Definition parseUnits (value : string) (decimals : nat) : result Z :=
  match split_decimal value with
  | None => Throw
  | Some (negative, integer, frac) =>
      let fraction := strip_trailing_zeros (match frac with Some f => f | None => "0" end) in
      int0 <- BigInt_of_string integer ;;
      let '(integer1, fraction1) :=
        if (decimals =? 0)%nat then
          (if num_eqb (Math_round (Number_of_string ("." ++ fraction))) (lit 1)
           then string_of_bigint (int0 + 1) else integer, EmptyString)
        else if (decimals <? String.length fraction)%nat then
          let left := slice fraction 0 (decimals - 1) in
          let unit := slice fraction (decimals - 1) decimals in
          let right := slice_from fraction decimals in
          let rounded := bigint_of_number (Math_round (Number_of_string (unit ++ "." ++ right))) in
          let fraction' :=
            if (9 <? rounded)%Z
            then padStart0 (string_of_bigint (digits_value 0 left + 1) ++ "0") (String.length left + 1)
            else left ++ string_of_bigint rounded in
          if (decimals <? String.length fraction')%nat
          then (string_of_bigint (int0 + 1), slice (slice_from fraction' 1) 0 decimals)
          else (integer, slice fraction' 0 decimals)
        else (integer, padEnd0 fraction decimals) in
      BigInt_of_string ((if negative then "-" else "") ++ integer1 ++ fraction1)
  end.

(** [formatUnits(value, decimals)]: the integer [value] of
    [10 ^ -decimals] units as decimal text, without trailing zeros in the
    fraction and without a dot when the fraction is empty. *)
Definition formatUnits (value : Z) (decimals : nat) : string :=
  let display := string_of_bigint value in
  let negative := match display with String "-" _ => true | _ => false end in
  let display := if negative then slice_from display 1 else display in
  let display := padStart0 display decimals in
  let integer := slice display 0 (String.length display - decimals) in
  let fraction := slice_from display (String.length display - decimals) in
  let fraction := strip_trailing_zeros fraction in
  (if negative then "-" else "")
  ++ (if String.eqb integer "" then "0" else integer)
  ++ (if String.eqb fraction "" then "" else "." ++ fraction).

End Viem.

(** ** The [Dashboard] component *)

Module Dashboard.

Import JsNumber JsString Viem.
Local Open Scope string_scope.
Local Open Scope Z_scope.

(** *** Types *)

Inductive Market : Type := UPETH | UPKRW | UPETH_BORROW.

Definition MarketSelection : Type := option Market.

Inductive ActionMode : Type := supply | withdraw.

Inductive TxStep : Type :=
| idle
| approving
| approved
| supplying_collateral
| collateral_supplied
| borrowing
| executing.

(** The three values of [executionStatus]. *)
Inductive ExecutionStatus : Type :=
| status_idle
| status_broadcasting
| status_confirmed.

(** The four values of [liquidateTxStep]. *)
Inductive LiquidateTxStep : Type :=
| liq_idle
| liq_approving
| liq_liquidating
| liq_success.

Record UserPosition : Type := mkUserPosition {
  supplyShares : Z;
  borrowShares : Z;
  collateral : Z;
  supplyAssets : number;
  borrowAssets : number
}.

Record LiquidatablePosition : Type := mkLiquidatablePosition {
  lp_borrower : string;
  lp_collateral : Z;
  lp_borrowShares : Z;
  lp_borrowAssets : number;
  lp_healthFactor : number;
  lp_maxSeizable : Z;
  lp_liquidationIncentive : number
}.

(** The tuple returned by [market(id)]. *)
Record MarketData : Type := mkMarketData {
  totalSupplyAssets : Z;
  totalSupplyShares : Z;
  totalBorrowAssets : Z;
  totalBorrowShares : Z;
  lastUpdate : Z;
  fee : Z
}.

(** *** Constants *)

Definition ORACLE_PRICE_SCALE : Z := 10 ^ 36.
Definition WAD : Z := 10 ^ 18.

(** [marketParams.lltv], from the contract configuration. *)
Definition LLTV : Z := 920000000000000000.

(** The addresses the component uses, from the contract configuration it
    imports. *)
Module ADDRESSES.
Definition MORPHO : string := "0x6593314304ccc16ff64136123810Dd1e3EFa880a".
Definition UPETH : string := "0xc05bAe1723bd929306B0ab8125062Efc111fb338".
Definition UPKRW : string := "0x159C54accF62C14C117474B67D2E3De8215F5A72".
End ADDRESSES.

(** Number literals of the component. *)
Definition num_0 : number := lit 0.
Definition num_1 : number := lit 1.
Definition num_1000 : number := lit 1000.
Definition num_1e18 : number := lit (10 ^ 18).
Definition num_1_05 : number := parseFloat "1.05".

(** *** Transactions handed to the wallet *)

(** The contract function of a [writeContract] request with its
    arguments; the constant [marketParams] and the empty call data are
    left out. *)
Inductive ContractCall : Type :=
| fn_approve (spender : string) (amount : Z)
| fn_supply (assets shares : Z) (onBehalf : string)
| fn_supplyCollateral (assets : Z) (onBehalf : string)
| fn_withdraw (assets shares : Z) (onBehalf receiver : string)
| fn_withdrawCollateral (assets : Z) (onBehalf receiver : string)
| fn_borrow (assets shares : Z) (onBehalf receiver : string)
| fn_repay (assets shares : Z) (onBehalf : string)
| fn_liquidate (borrower : string) (seizedAssets repaidShares : Z).

Record WriteRequest : Type := mkWrite {
  wr_address : string;
  wr_call : ContractCall
}.

(** The outcome of an awaited [readContract]. *)
Inductive ChainRead (A : Type) : Type :=
| Resolves (a : A)
| Rejects.

Arguments Resolves {A} a.
Arguments Rejects {A}.

(** *** Component state

    The [useState] cells, the three [useRef] cells and the values the
    wagmi hooks deliver to a render. *)

Record State : Type := mkState {
  isConnected : bool;
  address : option string;
  publicClient : bool;
  marketData : option MarketData;
  oraclePrice : option Z;
  positionData : option (Z * Z * Z);
  txHash : option string;
  writeError : option string;
  isTxPending : bool;
  isTxSuccess : bool;
  isTxError : bool;
  selection : MarketSelection;
  actionMode : ActionMode;
  inputAmount : string;
  collateralAmount : string;
  simulatedHF : option number;
  executionStatus : ExecutionStatus;
  txStep : TxStep;
  approvedCollateralRef : Z;
  borrowAmountRef : Z;
  isFullRepayRef : bool;
  upethBalance : number;
  upkrwBalance : number;
  userPosition : UserPosition;
  currentHF : option number;
  liquidatablePositions : list LiquidatablePosition;
  borrowerToCheck : string;
  isLoadingPositions : bool;
  selectedBorrower : option LiquidatablePosition;
  liquidateAmount : string;
  liquidateTxStep : LiquidateTxStep;
  errorMessage : option string
}.

Definition setSelection (v : MarketSelection) (s : State) : State :=
  mkState
    (isConnected s) (address s) (publicClient s) (marketData s)
    (oraclePrice s) (positionData s) (txHash s) (writeError s)
    (isTxPending s) (isTxSuccess s) (isTxError s) v (actionMode s)
    (inputAmount s) (collateralAmount s) (simulatedHF s) (executionStatus s)
    (txStep s) (approvedCollateralRef s) (borrowAmountRef s)
    (isFullRepayRef s) (upethBalance s) (upkrwBalance s) (userPosition s)
    (currentHF s) (liquidatablePositions s) (borrowerToCheck s)
    (isLoadingPositions s) (selectedBorrower s) (liquidateAmount s)
    (liquidateTxStep s) (errorMessage s).

Definition setActionMode (v : ActionMode) (s : State) : State :=
  mkState
    (isConnected s) (address s) (publicClient s) (marketData s)
    (oraclePrice s) (positionData s) (txHash s) (writeError s)
    (isTxPending s) (isTxSuccess s) (isTxError s) (selection s) v
    (inputAmount s) (collateralAmount s) (simulatedHF s) (executionStatus s)
    (txStep s) (approvedCollateralRef s) (borrowAmountRef s)
    (isFullRepayRef s) (upethBalance s) (upkrwBalance s) (userPosition s)
    (currentHF s) (liquidatablePositions s) (borrowerToCheck s)
    (isLoadingPositions s) (selectedBorrower s) (liquidateAmount s)
    (liquidateTxStep s) (errorMessage s).

Definition setInputAmount (v : string) (s : State) : State :=
  mkState
    (isConnected s) (address s) (publicClient s) (marketData s)
    (oraclePrice s) (positionData s) (txHash s) (writeError s)
    (isTxPending s) (isTxSuccess s) (isTxError s) (selection s)
    (actionMode s) v (collateralAmount s) (simulatedHF s) (executionStatus s)
    (txStep s) (approvedCollateralRef s) (borrowAmountRef s)
    (isFullRepayRef s) (upethBalance s) (upkrwBalance s) (userPosition s)
    (currentHF s) (liquidatablePositions s) (borrowerToCheck s)
    (isLoadingPositions s) (selectedBorrower s) (liquidateAmount s)
    (liquidateTxStep s) (errorMessage s).

Definition setCollateralAmount (v : string) (s : State) : State :=
  mkState
    (isConnected s) (address s) (publicClient s) (marketData s)
    (oraclePrice s) (positionData s) (txHash s) (writeError s)
    (isTxPending s) (isTxSuccess s) (isTxError s) (selection s)
    (actionMode s) (inputAmount s) v (simulatedHF s) (executionStatus s)
    (txStep s) (approvedCollateralRef s) (borrowAmountRef s)
    (isFullRepayRef s) (upethBalance s) (upkrwBalance s) (userPosition s)
    (currentHF s) (liquidatablePositions s) (borrowerToCheck s)
    (isLoadingPositions s) (selectedBorrower s) (liquidateAmount s)
    (liquidateTxStep s) (errorMessage s).

Definition setSimulatedHF (v : option number) (s : State) : State :=
  mkState
    (isConnected s) (address s) (publicClient s) (marketData s)
    (oraclePrice s) (positionData s) (txHash s) (writeError s)
    (isTxPending s) (isTxSuccess s) (isTxError s) (selection s)
    (actionMode s) (inputAmount s) (collateralAmount s) v (executionStatus s)
    (txStep s) (approvedCollateralRef s) (borrowAmountRef s)
    (isFullRepayRef s) (upethBalance s) (upkrwBalance s) (userPosition s)
    (currentHF s) (liquidatablePositions s) (borrowerToCheck s)
    (isLoadingPositions s) (selectedBorrower s) (liquidateAmount s)
    (liquidateTxStep s) (errorMessage s).

Definition setExecutionStatus (v : ExecutionStatus) (s : State) : State :=
  mkState
    (isConnected s) (address s) (publicClient s) (marketData s)
    (oraclePrice s) (positionData s) (txHash s) (writeError s)
    (isTxPending s) (isTxSuccess s) (isTxError s) (selection s)
    (actionMode s) (inputAmount s) (collateralAmount s) (simulatedHF s) v
    (txStep s) (approvedCollateralRef s) (borrowAmountRef s)
    (isFullRepayRef s) (upethBalance s) (upkrwBalance s) (userPosition s)
    (currentHF s) (liquidatablePositions s) (borrowerToCheck s)
    (isLoadingPositions s) (selectedBorrower s) (liquidateAmount s)
    (liquidateTxStep s) (errorMessage s).

Definition setTxStep (v : TxStep) (s : State) : State :=
  mkState
    (isConnected s) (address s) (publicClient s) (marketData s)
    (oraclePrice s) (positionData s) (txHash s) (writeError s)
    (isTxPending s) (isTxSuccess s) (isTxError s) (selection s)
    (actionMode s) (inputAmount s) (collateralAmount s) (simulatedHF s)
    (executionStatus s) v (approvedCollateralRef s) (borrowAmountRef s)
    (isFullRepayRef s) (upethBalance s) (upkrwBalance s) (userPosition s)
    (currentHF s) (liquidatablePositions s) (borrowerToCheck s)
    (isLoadingPositions s) (selectedBorrower s) (liquidateAmount s)
    (liquidateTxStep s) (errorMessage s).

Definition set_approvedCollateralRef (v : Z) (s : State) : State :=
  mkState
    (isConnected s) (address s) (publicClient s) (marketData s)
    (oraclePrice s) (positionData s) (txHash s) (writeError s)
    (isTxPending s) (isTxSuccess s) (isTxError s) (selection s)
    (actionMode s) (inputAmount s) (collateralAmount s) (simulatedHF s)
    (executionStatus s) (txStep s) v (borrowAmountRef s) (isFullRepayRef s)
    (upethBalance s) (upkrwBalance s) (userPosition s) (currentHF s)
    (liquidatablePositions s) (borrowerToCheck s) (isLoadingPositions s)
    (selectedBorrower s) (liquidateAmount s) (liquidateTxStep s)
    (errorMessage s).

Definition set_borrowAmountRef (v : Z) (s : State) : State :=
  mkState
    (isConnected s) (address s) (publicClient s) (marketData s)
    (oraclePrice s) (positionData s) (txHash s) (writeError s)
    (isTxPending s) (isTxSuccess s) (isTxError s) (selection s)
    (actionMode s) (inputAmount s) (collateralAmount s) (simulatedHF s)
    (executionStatus s) (txStep s) (approvedCollateralRef s) v
    (isFullRepayRef s) (upethBalance s) (upkrwBalance s) (userPosition s)
    (currentHF s) (liquidatablePositions s) (borrowerToCheck s)
    (isLoadingPositions s) (selectedBorrower s) (liquidateAmount s)
    (liquidateTxStep s) (errorMessage s).

Definition set_isFullRepayRef (v : bool) (s : State) : State :=
  mkState
    (isConnected s) (address s) (publicClient s) (marketData s)
    (oraclePrice s) (positionData s) (txHash s) (writeError s)
    (isTxPending s) (isTxSuccess s) (isTxError s) (selection s)
    (actionMode s) (inputAmount s) (collateralAmount s) (simulatedHF s)
    (executionStatus s) (txStep s) (approvedCollateralRef s)
    (borrowAmountRef s) v (upethBalance s) (upkrwBalance s) (userPosition s)
    (currentHF s) (liquidatablePositions s) (borrowerToCheck s)
    (isLoadingPositions s) (selectedBorrower s) (liquidateAmount s)
    (liquidateTxStep s) (errorMessage s).

Definition setUserPosition (v : UserPosition) (s : State) : State :=
  mkState
    (isConnected s) (address s) (publicClient s) (marketData s)
    (oraclePrice s) (positionData s) (txHash s) (writeError s)
    (isTxPending s) (isTxSuccess s) (isTxError s) (selection s)
    (actionMode s) (inputAmount s) (collateralAmount s) (simulatedHF s)
    (executionStatus s) (txStep s) (approvedCollateralRef s)
    (borrowAmountRef s) (isFullRepayRef s) (upethBalance s) (upkrwBalance s)
    v (currentHF s) (liquidatablePositions s) (borrowerToCheck s)
    (isLoadingPositions s) (selectedBorrower s) (liquidateAmount s)
    (liquidateTxStep s) (errorMessage s).

Definition setCurrentHF (v : option number) (s : State) : State :=
  mkState
    (isConnected s) (address s) (publicClient s) (marketData s)
    (oraclePrice s) (positionData s) (txHash s) (writeError s)
    (isTxPending s) (isTxSuccess s) (isTxError s) (selection s)
    (actionMode s) (inputAmount s) (collateralAmount s) (simulatedHF s)
    (executionStatus s) (txStep s) (approvedCollateralRef s)
    (borrowAmountRef s) (isFullRepayRef s) (upethBalance s) (upkrwBalance s)
    (userPosition s) v (liquidatablePositions s) (borrowerToCheck s)
    (isLoadingPositions s) (selectedBorrower s) (liquidateAmount s)
    (liquidateTxStep s) (errorMessage s).

Definition setLiquidatablePositions (v : list LiquidatablePosition) (s : State) : State :=
  mkState
    (isConnected s) (address s) (publicClient s) (marketData s)
    (oraclePrice s) (positionData s) (txHash s) (writeError s)
    (isTxPending s) (isTxSuccess s) (isTxError s) (selection s)
    (actionMode s) (inputAmount s) (collateralAmount s) (simulatedHF s)
    (executionStatus s) (txStep s) (approvedCollateralRef s)
    (borrowAmountRef s) (isFullRepayRef s) (upethBalance s) (upkrwBalance s)
    (userPosition s) (currentHF s) v (borrowerToCheck s)
    (isLoadingPositions s) (selectedBorrower s) (liquidateAmount s)
    (liquidateTxStep s) (errorMessage s).

Definition setBorrowerToCheck (v : string) (s : State) : State :=
  mkState
    (isConnected s) (address s) (publicClient s) (marketData s)
    (oraclePrice s) (positionData s) (txHash s) (writeError s)
    (isTxPending s) (isTxSuccess s) (isTxError s) (selection s)
    (actionMode s) (inputAmount s) (collateralAmount s) (simulatedHF s)
    (executionStatus s) (txStep s) (approvedCollateralRef s)
    (borrowAmountRef s) (isFullRepayRef s) (upethBalance s) (upkrwBalance s)
    (userPosition s) (currentHF s) (liquidatablePositions s) v
    (isLoadingPositions s) (selectedBorrower s) (liquidateAmount s)
    (liquidateTxStep s) (errorMessage s).

Definition setIsLoadingPositions (v : bool) (s : State) : State :=
  mkState
    (isConnected s) (address s) (publicClient s) (marketData s)
    (oraclePrice s) (positionData s) (txHash s) (writeError s)
    (isTxPending s) (isTxSuccess s) (isTxError s) (selection s)
    (actionMode s) (inputAmount s) (collateralAmount s) (simulatedHF s)
    (executionStatus s) (txStep s) (approvedCollateralRef s)
    (borrowAmountRef s) (isFullRepayRef s) (upethBalance s) (upkrwBalance s)
    (userPosition s) (currentHF s) (liquidatablePositions s)
    (borrowerToCheck s) v (selectedBorrower s) (liquidateAmount s)
    (liquidateTxStep s) (errorMessage s).

Definition setSelectedBorrower (v : option LiquidatablePosition) (s : State) : State :=
  mkState
    (isConnected s) (address s) (publicClient s) (marketData s)
    (oraclePrice s) (positionData s) (txHash s) (writeError s)
    (isTxPending s) (isTxSuccess s) (isTxError s) (selection s)
    (actionMode s) (inputAmount s) (collateralAmount s) (simulatedHF s)
    (executionStatus s) (txStep s) (approvedCollateralRef s)
    (borrowAmountRef s) (isFullRepayRef s) (upethBalance s) (upkrwBalance s)
    (userPosition s) (currentHF s) (liquidatablePositions s)
    (borrowerToCheck s) (isLoadingPositions s) v (liquidateAmount s)
    (liquidateTxStep s) (errorMessage s).

Definition setLiquidateAmount (v : string) (s : State) : State :=
  mkState
    (isConnected s) (address s) (publicClient s) (marketData s)
    (oraclePrice s) (positionData s) (txHash s) (writeError s)
    (isTxPending s) (isTxSuccess s) (isTxError s) (selection s)
    (actionMode s) (inputAmount s) (collateralAmount s) (simulatedHF s)
    (executionStatus s) (txStep s) (approvedCollateralRef s)
    (borrowAmountRef s) (isFullRepayRef s) (upethBalance s) (upkrwBalance s)
    (userPosition s) (currentHF s) (liquidatablePositions s)
    (borrowerToCheck s) (isLoadingPositions s) (selectedBorrower s) v
    (liquidateTxStep s) (errorMessage s).

Definition setLiquidateTxStep (v : LiquidateTxStep) (s : State) : State :=
  mkState
    (isConnected s) (address s) (publicClient s) (marketData s)
    (oraclePrice s) (positionData s) (txHash s) (writeError s)
    (isTxPending s) (isTxSuccess s) (isTxError s) (selection s)
    (actionMode s) (inputAmount s) (collateralAmount s) (simulatedHF s)
    (executionStatus s) (txStep s) (approvedCollateralRef s)
    (borrowAmountRef s) (isFullRepayRef s) (upethBalance s) (upkrwBalance s)
    (userPosition s) (currentHF s) (liquidatablePositions s)
    (borrowerToCheck s) (isLoadingPositions s) (selectedBorrower s)
    (liquidateAmount s) v (errorMessage s).

Definition setErrorMessage (v : option string) (s : State) : State :=
  mkState
    (isConnected s) (address s) (publicClient s) (marketData s)
    (oraclePrice s) (positionData s) (txHash s) (writeError s)
    (isTxPending s) (isTxSuccess s) (isTxError s) (selection s)
    (actionMode s) (inputAmount s) (collateralAmount s) (simulatedHF s)
    (executionStatus s) (txStep s) (approvedCollateralRef s)
    (borrowAmountRef s) (isFullRepayRef s) (upethBalance s) (upkrwBalance s)
    (userPosition s) (currentHF s) (liquidatablePositions s)
    (borrowerToCheck s) (isLoadingPositions s) (selectedBorrower s)
    (liquidateAmount s) (liquidateTxStep s) v.

(** [resetWrite()]: the write hook forgets its transaction hash and error,
    and the receipt hook, left without a hash, reports nothing. *)
Definition resetWrite (s : State) : State :=
  mkState
    (isConnected s) (address s) (publicClient s) (marketData s)
    (oraclePrice s) (positionData s) None None false false false
    (selection s) (actionMode s) (inputAmount s) (collateralAmount s)
    (simulatedHF s) (executionStatus s) (txStep s) (approvedCollateralRef s)
    (borrowAmountRef s) (isFullRepayRef s) (upethBalance s) (upkrwBalance s)
    (userPosition s) (currentHF s) (liquidatablePositions s)
    (borrowerToCheck s) (isLoadingPositions s) (selectedBorrower s)
    (liquidateAmount s) (liquidateTxStep s) (errorMessage s).

(** *** The wallet layer

    What the write and receipt hooks report between renders. *)

(** The wallet accepted a request and broadcast it under [hash]. *)
Definition walletSubmitted (hash : string) (s : State) : State :=
  mkState
    (isConnected s) (address s) (publicClient s) (marketData s)
    (oraclePrice s) (positionData s) (Some hash) None true false false
    (selection s) (actionMode s) (inputAmount s) (collateralAmount s)
    (simulatedHF s) (executionStatus s) (txStep s) (approvedCollateralRef s)
    (borrowAmountRef s) (isFullRepayRef s) (upethBalance s) (upkrwBalance s)
    (userPosition s) (currentHF s) (liquidatablePositions s)
    (borrowerToCheck s) (isLoadingPositions s) (selectedBorrower s)
    (liquidateAmount s) (liquidateTxStep s) (errorMessage s).

(** The wallet refused a request with [message]. *)
Definition walletRejected (message : string) (s : State) : State :=
  mkState
    (isConnected s) (address s) (publicClient s) (marketData s)
    (oraclePrice s) (positionData s) (txHash s) (Some message)
    (isTxPending s) (isTxSuccess s) (isTxError s) (selection s)
    (actionMode s) (inputAmount s) (collateralAmount s) (simulatedHF s)
    (executionStatus s) (txStep s) (approvedCollateralRef s)
    (borrowAmountRef s) (isFullRepayRef s) (upethBalance s) (upkrwBalance s)
    (userPosition s) (currentHF s) (liquidatablePositions s)
    (borrowerToCheck s) (isLoadingPositions s) (selectedBorrower s)
    (liquidateAmount s) (liquidateTxStep s) (errorMessage s).

(** The receipt of the broadcast transaction reports success. *)
Definition receiptConfirmed (s : State) : State :=
  mkState
    (isConnected s) (address s) (publicClient s) (marketData s)
    (oraclePrice s) (positionData s) (txHash s) (writeError s) false true
    false (selection s) (actionMode s) (inputAmount s) (collateralAmount s)
    (simulatedHF s) (executionStatus s) (txStep s) (approvedCollateralRef s)
    (borrowAmountRef s) (isFullRepayRef s) (upethBalance s) (upkrwBalance s)
    (userPosition s) (currentHF s) (liquidatablePositions s)
    (borrowerToCheck s) (isLoadingPositions s) (selectedBorrower s)
    (liquidateAmount s) (liquidateTxStep s) (errorMessage s).

(** The receipt of the broadcast transaction reports a revert. *)
Definition receiptFailed (s : State) : State :=
  mkState
    (isConnected s) (address s) (publicClient s) (marketData s)
    (oraclePrice s) (positionData s) (txHash s) (writeError s) false false
    true (selection s) (actionMode s) (inputAmount s) (collateralAmount s)
    (simulatedHF s) (executionStatus s) (txStep s) (approvedCollateralRef s)
    (borrowAmountRef s) (isFullRepayRef s) (upethBalance s) (upkrwBalance s)
    (userPosition s) (currentHF s) (liquidatablePositions s)
    (borrowerToCheck s) (isLoadingPositions s) (selectedBorrower s)
    (liquidateAmount s) (liquidateTxStep s) (errorMessage s).

(** *** The oracle read

    The oracle price is read again every ten seconds; from the next render
    on the component sees the [price] the read reports. *)
Definition oraclePriceRead (price : option Z) (s : State) : State :=
  mkState
    (isConnected s) (address s) (publicClient s) (marketData s)
    price (positionData s) (txHash s) (writeError s)
    (isTxPending s) (isTxSuccess s) (isTxError s) (selection s)
    (actionMode s) (inputAmount s) (collateralAmount s) (simulatedHF s)
    (executionStatus s) (txStep s) (approvedCollateralRef s)
    (borrowAmountRef s) (isFullRepayRef s) (upethBalance s) (upkrwBalance s)
    (userPosition s) (currentHF s) (liquidatablePositions s)
    (borrowerToCheck s) (isLoadingPositions s) (selectedBorrower s)
    (liquidateAmount s) (liquidateTxStep s) (errorMessage s).

(** *** Handlers as actions

    A handler runs on the state of the render that created it ([s], its
    closure) and produces state updates and [writeContract] requests; it
    may end by an uncaught exception.  Updates made before a throw stay. *)

Definition Action (A : Type) : Type :=
  State -> list WriteRequest -> result A * State * list WriteRequest.

Definition ret {A : Type} (a : A) : Action A :=
  fun st out => (Ok a, st, out).

Definition bind {A B : Type} (c : Action A) (k : A -> Action B) : Action B :=
  fun st out =>
    match c st out with
    | (Ok a, st', out') => k a st' out'
    | (Throw, st', out') => (Throw, st', out')
    end.

(** A state update ([setX(v)] or [ref.current = v]). *)
Definition update (f : State -> State) : Action unit :=
  fun st out => (Ok tt, f st, out).

(** Reading a [useRef] cell: the current value, not the closure's. *)
Definition current {A : Type} (f : State -> A) : Action A :=
  fun st out => (Ok (f st), st, out).

Definition writeContract (address : string) (call : ContractCall) : Action unit :=
  fun st out => (Ok tt, st, (out ++ [mkWrite address call])%list).

Definition lift {A : Type} (r : result A) : Action A :=
  fun st out => (r, st, out).

(** [try { body } catch { handler }]. *)
Definition try_catch (body handler : Action unit) : Action unit :=
  fun st out =>
    match body st out with
    | (Ok a, st', out') => (Ok a, st', out')
    | (Throw, st', out') => handler st' out'
    end.

Declare Scope action_scope.
Delimit Scope action_scope with action.
Notation "x <- c ;; k" := (bind c (fun x => k))
  (at level 61, c at next level, right associativity) : action_scope.
Notation "c ;; k" := (bind c (fun _ => k))
  (at level 61, right associativity) : action_scope.

(** Running a handler created by the render of state [s]. *)
Definition run (h : State -> Action unit) (s : State) : State * list WriteRequest :=
  let '(_, s', out) := h s s [] in (s', out).

Definition completes (h : State -> Action unit) (s : State) : bool :=
  match h s s [] with
  | (Ok _, _, _) => true
  | (Throw, _, _) => false
  end.

Definition await {A : Type} (r : ChainRead A) : Action A :=
  lift (match r with Resolves a => Ok a | Rejects => Throw end).

Local Open Scope action_scope.

(** *** Small helpers for JavaScript idioms *)

Definition is_empty (s : string) : bool := String.eqb s "".

Definition includes (needle hay : string) : bool :=
  match String.index 0 needle hay with
  | Some _ => true
  | None => false
  end.

Definition lower_char (c : ascii) : ascii :=
  let n := nat_of_ascii c in
  if ((65 <=? n) && (n <=? 90))%nat then ascii_of_nat (n + 32) else c.

Fixpoint toLowerCase (s : string) : string :=
  match s with
  | EmptyString => EmptyString
  | String c r => String (lower_char c) (toLowerCase r)
  end.

Definition Market_eqb (a b : Market) : bool :=
  match a, b with
  | UPETH, UPETH | UPKRW, UPKRW | UPETH_BORROW, UPETH_BORROW => true
  | _, _ => false
  end.

Definition ActionMode_eqb (a b : ActionMode) : bool :=
  match a, b with
  | supply, supply | withdraw, withdraw => true
  | _, _ => false
  end.

Definition TxStep_eqb (a b : TxStep) : bool :=
  match a, b with
  | idle, idle | approving, approving | approved, approved
  | supplying_collateral, supplying_collateral
  | collateral_supplied, collateral_supplied
  | borrowing, borrowing | executing, executing => true
  | _, _ => false
  end.

Definition ExecutionStatus_eqb (a b : ExecutionStatus) : bool :=
  match a, b with
  | status_idle, status_idle | status_broadcasting, status_broadcasting
  | status_confirmed, status_confirmed => true
  | _, _ => false
  end.

Definition LiquidateTxStep_eqb (a b : LiquidateTxStep) : bool :=
  match a, b with
  | liq_idle, liq_idle | liq_approving, liq_approving
  | liq_liquidating, liq_liquidating | liq_success, liq_success => true
  | _, _ => false
  end.

Definition is_selected (m : Market) (sel : MarketSelection) : bool :=
  match sel with
  | Some m' => Market_eqb m m'
  | None => false
  end.

Definition is_some {A : Type} (o : option A) : bool :=
  match o with
  | Some _ => true
  | None => false
  end.

(** *** Effects *)

(** Write errors (the wallet rejected the request).  The timer that later
    clears the message is not modelled. *)
Definition writeErrorEffect (s : State) : Action unit :=
  match writeError s with
  | Some message =>
      update (setTxStep idle) ;;
      update (setExecutionStatus status_idle) ;;
      update (setLiquidateTxStep liq_idle) ;;
      update (set_approvedCollateralRef 0) ;;
      update (set_borrowAmountRef 0) ;;
      update (set_isFullRepayRef false) ;;
      update resetWrite ;;
      let errorMsg :=
        if includes "User rejected" message
        then "Transaction cancelled"
        else "Transaction failed" in
      update (setErrorMessage (Some errorMsg))
  | None => ret tt
  end.

(** Transaction errors (the receipt reports a failure after submission). *)
Definition txErrorEffect (s : State) : Action unit :=
  if isTxError s && is_some (txHash s) then
    update (setTxStep idle) ;;
    update (setExecutionStatus status_idle) ;;
    update (setLiquidateTxStep liq_idle) ;;
    update (setErrorMessage (Some "Transaction failed on chain")) ;;
    update resetWrite
  else ret tt.

(** The reset that the success effect schedules once the refetches have
    resolved. *)
Definition resetAfterRefetch : Action unit :=
  update (setExecutionStatus status_idle) ;;
  update (setTxStep idle) ;;
  update (setInputAmount "") ;;
  update (setCollateralAmount "") ;;
  update (setSimulatedHF None) ;;
  update (set_approvedCollateralRef 0) ;;
  update (set_borrowAmountRef 0) ;;
  update (set_isFullRepayRef false) ;;
  update resetWrite.

(** A confirmed receipt advances the step.  These are the state writes
    the effect makes when it runs; the refetches and the reset it
    schedules in the steps [borrowing] and [executing] happen later and
    are [resetAfterRefetch] above, and the faucet branch, which is taken
    in none of the four steps, is outside the modelled state. *)
Definition txSuccessEffect (s : State) : Action unit :=
  if isTxSuccess s then
    match txStep s with
    | approving => update (setTxStep approved) ;; update resetWrite
    | supplying_collateral => update (setTxStep collateral_supplied) ;; update resetWrite
    | borrowing | executing => update (setExecutionStatus status_confirmed)
    | _ => ret tt
    end
  else ret tt.

(** Position accounting: shares to assets. *)
Definition positionEffect (s : State) : Action unit :=
  match positionData s, marketData s with
  | Some (supplyShares, borrowShares, collateral), Some m =>
      let totalSupplyAssets := totalSupplyAssets m in
      let totalSupplyShares := totalSupplyShares m in
      let totalBorrowAssets := totalBorrowAssets m in
      let totalBorrowShares := totalBorrowShares m in
      supplyAssets <-
        (if totalSupplyShares >? 0 then
           q <- lift (BigInt.div (supplyShares * totalSupplyAssets) totalSupplyShares) ;;
           ret (num_div (Number q) num_1e18)
         else ret num_0) ;;
      borrowAssets <-
        (if totalBorrowShares >? 0 then
           q <- lift (BigInt.div (borrowShares * totalBorrowAssets) totalBorrowShares) ;;
           ret (num_div (Number q) num_1e18)
         else ret num_0) ;;
      update (setUserPosition
                (mkUserPosition supplyShares borrowShares collateral supplyAssets borrowAssets))
  | _, _ => ret tt
  end.

(** Health factor of the existing position, for display. *)
Definition currentHFEffect (s : State) : Action unit :=
  match oraclePrice s with
  | Some oraclePrice =>
      if negb (oraclePrice =? 0)
         && (collateral (userPosition s) >? 0)
         && num_gtb (borrowAssets (userPosition s)) num_0
      then
        let collateral := collateral (userPosition s) in
        borrowAssetsBigInt <-
          lift (parseUnits (toFixed (borrowAssets (userPosition s)) 18) 18) ;;
        if borrowAssetsBigInt >? 0 then
          let lltv := LLTV in
          maxBorrow <- lift (BigInt.div (collateral * oraclePrice * lltv) (ORACLE_PRICE_SCALE * WAD)) ;;
          hfScaled <- lift (BigInt.div (maxBorrow * WAD) borrowAssetsBigInt) ;;
          let hf := num_div (Number hfScaled) num_1e18 in
          let hf := if negb (isFinite hf) || num_gtb hf num_1000 then num_1000 else hf in
          let hf := if num_ltb hf num_0 then num_0 else hf in
          update (setCurrentHF (Some hf))
        else update (setCurrentHF None)
      else update (setCurrentHF None)
  | None => update (setCurrentHF None)
  end.

(** *** Liquidation functions *)

(** [checkBorrowerPosition(borrowerAddress)]; [read] is the outcome of the
    awaited [position] read.  Every exception is caught and yields
    [null]. *)
Definition checkBorrowerPosition (s : State) (borrowerAddress : string)
    (read : ChainRead (Z * Z * Z)) : option LiquidatablePosition :=
  match oraclePrice s, marketData s with
  | Some oraclePrice, Some marketData =>
      if negb (publicClient s) || (oraclePrice =? 0) || is_empty borrowerAddress then None
      else
        let attempt : result (option LiquidatablePosition) :=
          (position <- match read with Resolves a => Ok a | Rejects => Throw end ;;
           let '(_, borrowShares, collateral) := position in
           let totalBorrowAssets := totalBorrowAssets marketData in
           let totalBorrowShares := totalBorrowShares marketData in
           if borrowShares =? 0 then Ok None
           else
             q <- BigInt.div (borrowShares * totalBorrowAssets) totalBorrowShares ;;
             let borrowAssets := num_div (Number q) num_1e18 in
             borrowAssetsBigInt <- BigInt.div (borrowShares * totalBorrowAssets) totalBorrowShares ;;
             let lltv := LLTV in
             maxBorrow <- BigInt.div (collateral * oraclePrice * lltv) (ORACLE_PRICE_SCALE * WAD) ;;
             hfScaled <-
               (if borrowAssetsBigInt >? 0
                then BigInt.div (maxBorrow * WAD) borrowAssetsBigInt
                else Ok 0) ;;
             let healthFactor := num_div (Number hfScaled) num_1e18 in
             let liquidationIncentive := num_1_05 in
             let maxSeizable := collateral in
             Ok (Some (mkLiquidatablePosition borrowerAddress collateral borrowShares
                         borrowAssets healthFactor maxSeizable liquidationIncentive)))%result in
        match attempt with
        | Ok r => r
        | Throw => None
        end
  | _, _ => None
  end.

Definition same_borrower (a b : LiquidatablePosition) : bool :=
  String.eqb (toLowerCase (lp_borrower a)) (toLowerCase (lp_borrower b)).

Definition handleCheckBorrower (read : ChainRead (Z * Z * Z)) (s : State) : Action unit :=
  if is_empty (borrowerToCheck s) then ret tt
  else
    update (setIsLoadingPositions true) ;;
    (match checkBorrowerPosition s (borrowerToCheck s) read with
     | Some position =>
         match List.find (fun p => same_borrower p position) (liquidatablePositions s) with
         | None =>
             update (fun st => setLiquidatablePositions (liquidatablePositions st ++ [position])%list st)
         | Some _ =>
             update (fun st =>
                       setLiquidatablePositions
                         (List.map (fun p => if same_borrower p position then position else p)
                                   (liquidatablePositions st)) st)
         end
     | None => ret tt
     end) ;;
    update (setBorrowerToCheck "") ;;
    update (setIsLoadingPositions false).

Definition executeLiquidation (s : State) : Action unit :=
  match selectedBorrower s, oraclePrice s with
  | Some selectedBorrower, Some oraclePrice =>
      if is_empty (liquidateAmount s) || negb (isConnected s) || (oraclePrice =? 0) then ret tt
      else
        repayAmount <- lift (parseUnits (liquidateAmount s) 18) ;;
        maxDebt <- lift (parseUnits (toString (lp_borrowAssets selectedBorrower)) 18) ;;
        let approveAmount :=
          if repayAmount >? maxDebt
          then maxDebt + Z.quot maxDebt 100
          else repayAmount + Z.quot repayAmount 100 in
        update (setLiquidateTxStep liq_approving) ;;
        writeContract ADDRESSES.UPETH (fn_approve ADDRESSES.MORPHO approveAmount)
  | _, _ => ret tt
  end.

Definition executeLiquidationAfterApprove (read : ChainRead (Z * Z * Z)) (s : State)
    : Action unit :=
  match selectedBorrower s, oraclePrice s with
  | Some selectedBorrower, Some oraclePrice =>
      if is_empty (liquidateAmount s) || (oraclePrice =? 0) then ret tt
      else
        match checkBorrowerPosition s (lp_borrower selectedBorrower) read with
        | None =>
            update (setErrorMessage (Some "Failed to fetch position data")) ;;
            update (setLiquidateTxStep liq_idle)
        | Some freshPosition =>
            repayAmount <- lift (parseUnits (liquidateAmount s) 18) ;;
            maxRepayAmount <-
              lift (parseUnits (toString (lp_borrowAssets freshPosition)) 18) ;;
            let repayAmount :=
              if repayAmount >? maxRepayAmount then maxRepayAmount else repayAmount in
            let liquidationIncentive := 105 in
            seizeAmount <-
              lift (BigInt.div (repayAmount * ORACLE_PRICE_SCALE * liquidationIncentive)
                               (oraclePrice * 100)) ;;
            let seizeAmount :=
              if seizeAmount >? lp_collateral freshPosition
              then lp_collateral freshPosition else seizeAmount in
            if seizeAmount =? 0 then
              update (setErrorMessage (Some "No collateral to seize")) ;;
              update (setLiquidateTxStep liq_idle)
            else
              let seizeAmount := Z.quot (seizeAmount * 95) 100 in
              update (setLiquidateTxStep liq_liquidating) ;;
              writeContract ADDRESSES.MORPHO
                (fn_liquidate (lp_borrower selectedBorrower) seizeAmount 0)
        end
  | _, _ => ret tt
  end.

(** The refresh of the liquidated borrower once a liquidation is
    confirmed and the refetches have resolved. *)
Definition refreshLiquidated (read : ChainRead (Z * Z * Z)) (s : State) : Action unit :=
  match selectedBorrower s with
  | Some selected =>
      match checkBorrowerPosition s (lp_borrower selected) read with
      | Some pos =>
          update (fun st =>
                    setLiquidatablePositions
                      (List.map (fun p => if String.eqb (lp_borrower p) (lp_borrower pos)
                                          then pos else p)
                                (liquidatablePositions st)) st)
      | None => ret tt
      end
  | None => ret tt
  end.

(** Liquidation transaction success. *)
Definition liquidationSuccessEffect (read : ChainRead (Z * Z * Z)) (s : State)
    : Action unit :=
  if isTxSuccess s && LiquidateTxStep_eqb (liquidateTxStep s) liq_approving then
    executeLiquidationAfterApprove read s
  else if isTxSuccess s && LiquidateTxStep_eqb (liquidateTxStep s) liq_liquidating then
    update (setLiquidateTxStep liq_success) ;;
    update (setSelectedBorrower None) ;;
    update (setLiquidateAmount "")
  else ret tt.

(** *** Health factor engine *)

Definition calculateHealthFactor (s : State) (newBorrowETH newCollateralKRW : number)
    : result (option number) :=
  (match oraclePrice s with
   | None => Ok None
   | Some oraclePrice =>
       if oraclePrice =? 0 then Ok None
       else
         let existingCollateral := collateral (userPosition s) in
         existingBorrowBigInt <- parseUnits (toFixed (borrowAssets (userPosition s)) 18) 18 ;;
         newCollateralBigInt <- parseUnits (toFixed newCollateralKRW 18) 18 ;;
         newBorrowBigInt <- parseUnits (toFixed newBorrowETH 18) 18 ;;
         let totalCollateral := existingCollateral + newCollateralBigInt in
         let totalBorrow := existingBorrowBigInt + newBorrowBigInt in
         if totalBorrow <=? 0 then Ok None
         else if totalCollateral <=? 0 then Ok None
         else
           let lltv := LLTV in
           maxBorrow <- BigInt.div (totalCollateral * oraclePrice * lltv) (ORACLE_PRICE_SCALE * WAD) ;;
           hfScaled <- BigInt.div (maxBorrow * WAD) totalBorrow ;;
           let hf := num_div (Number hfScaled) num_1e18 in
           if negb (isFinite hf) || num_gtb hf num_1000 then Ok (Some num_1000)
           else if num_ltb hf num_0 then Ok (Some num_0)
           else Ok (Some hf)
   end)%result.

(** [parseFloat(text) || 0]. *)
Definition parseFloat_or_0 (text : string) : number :=
  let x := parseFloat text in
  if isNaN x || num_eqb x num_0 then num_0 else x.

Definition simulate (value : string) (s : State) : Action unit :=
  update (setInputAmount value) ;;
  if is_empty value || num_eqb (parseFloat value) num_0 then
    update (setSimulatedHF None)
  else if is_selected UPETH_BORROW (selection s) then
    let borrowAmount := parseFloat value in
    let collateral := parseFloat_or_0 (collateralAmount s) in
    hf <- lift (calculateHealthFactor s borrowAmount collateral) ;;
    update (setSimulatedHF hf)
  else update (setSimulatedHF None).

(** The change handler of the collateral input; the widget passes on only
    text made of digits and at most one dot. *)
Definition collateralInputChange (v : string) (s : State) : Action unit :=
  update (setCollateralAmount v) ;;
  if negb (is_empty (inputAmount s)) then
    hf <- lift (calculateHealthFactor s (parseFloat (inputAmount s)) (parseFloat_or_0 v)) ;;
    update (setSimulatedHF hf)
  else ret tt.

Definition selectMarket (marketId : MarketSelection) (s : State) : Action unit :=
  update (setSelection marketId) ;;
  update (setActionMode supply) ;;
  update (setInputAmount "") ;;
  update (setCollateralAmount "") ;;
  update (setSimulatedHF None) ;;
  update (setTxStep idle) ;;
  update (setExecutionStatus status_idle) ;;
  update (set_approvedCollateralRef 0) ;;
  update (set_borrowAmountRef 0) ;;
  update (set_isFullRepayRef false).

(** The two mode buttons of the panel. *)
Definition switchMode (mode : ActionMode) (s : State) : Action unit :=
  update (setActionMode mode) ;;
  update (setInputAmount "") ;;
  update (setTxStep idle) ;;
  update (setSimulatedHF None).

(** *** Transaction orchestrator *)

Definition hasNewCollateral (s : State) : bool :=
  negb (is_empty (collateralAmount s)) && num_gtb (parseFloat (collateralAmount s)) num_0.

Definition hasExistingCollateral (s : State) : bool :=
  collateral (userPosition s) >? 0.

(** Execute supply flow. *)
Definition executeSupply (s : State) : Action unit :=
  match selection s, address s with
  | Some sel, Some address =>
      if negb (isConnected s) || is_empty (inputAmount s) then ret tt
      else
        try_catch
          (amount <- lift (parseUnits (inputAmount s) 18) ;;
           let isBorrow := Market_eqb sel UPETH_BORROW in
           if isBorrow then
             if negb (hasExistingCollateral s) && negb (hasNewCollateral s) then
               update (setErrorMessage (Some "담보 금액을 입력하세요"))
             else
               update (set_borrowAmountRef amount) ;;
               if hasNewCollateral s then
                 collateralAmt <- lift (parseUnits (collateralAmount s) 18) ;;
                 update (set_approvedCollateralRef collateralAmt) ;;
                 update (setTxStep approving) ;;
                 writeContract ADDRESSES.UPKRW (fn_approve ADDRESSES.MORPHO collateralAmt)
               else
                 update (setTxStep borrowing) ;;
                 writeContract ADDRESSES.MORPHO (fn_borrow amount 0 address address)
           else
             let token := if Market_eqb sel UPKRW then ADDRESSES.UPKRW else ADDRESSES.UPETH in
             update (set_approvedCollateralRef amount) ;;
             update (setTxStep approving) ;;
             writeContract token (fn_approve ADDRESSES.MORPHO amount))
          (update (setTxStep idle))
  | _, _ => ret tt
  end.

(** Execute withdraw flow; [fresh] is the outcome of the [position] read
    awaited by the collateral branch. *)
Definition executeWithdraw (fresh : ChainRead (Z * Z * Z)) (s : State) : Action unit :=
  match selection s, address s with
  | Some sel, Some address =>
      if negb (isConnected s) || is_empty (inputAmount s) then ret tt
      else
        try_catch
          (amount <- lift (parseUnits (inputAmount s) 18) ;;
           match sel with
           | UPETH =>
               update (setTxStep executing) ;;
               writeContract ADDRESSES.MORPHO (fn_withdraw amount 0 address address)
           | UPKRW =>
               update (setTxStep executing) ;;
               freshPosition <-
                 (if publicClient s then (p <- await fresh ;; ret (Some p)) else ret None) ;;
               match freshPosition with
               | None =>
                   update (setErrorMessage (Some "Failed to fetch position")) ;;
                   update (setTxStep idle)
               | Some (_, freshBorrowShares, freshCollateral) =>
                   let withdrawAmount := amount in
                   if (freshBorrowShares >? 0) && (withdrawAmount >=? freshCollateral) then
                     update (setErrorMessage
                               (Some "부채가 남아있어서 담보를 전부 뺄 수 없습니다. 먼저 부채를 전액 상환하세요.")) ;;
                     update (setTxStep idle)
                   else
                     let withdrawAmount :=
                       if withdrawAmount >? freshCollateral then freshCollateral
                       else withdrawAmount in
                     if withdrawAmount =? 0 then
                       update (setErrorMessage (Some "No collateral to withdraw")) ;;
                       update (setTxStep idle)
                     else
                       let submit :=
                         writeContract ADDRESSES.MORPHO
                           (fn_withdrawCollateral withdrawAmount address address) in
                       match oraclePrice s, marketData s with
                       | Some oraclePrice, Some marketData =>
                           if (freshBorrowShares >? 0) && negb (oraclePrice =? 0) then
                             let totalBorrowAssets := totalBorrowAssets marketData in
                             let totalBorrowShares := totalBorrowShares marketData in
                             borrowAssets <-
                               lift (BigInt.div (freshBorrowShares * totalBorrowAssets)
                                                totalBorrowShares) ;;
                             dust <- lift (parseUnits "0.0001" 18) ;;
                             if borrowAssets >? dust then
                               let remainingCollateral := freshCollateral - withdrawAmount in
                               let lltv := LLTV in
                               maxBorrow <-
                                 lift (BigInt.div (remainingCollateral * oraclePrice * lltv)
                                                  (ORACLE_PRICE_SCALE * WAD)) ;;
                               if borrowAssets >? maxBorrow then
                                 update (setErrorMessage
                                           (Some "Health Factor가 1 미만이 됩니다. 먼저 대출을 상환하세요.")) ;;
                                 update (setTxStep idle)
                               else submit
                             else submit
                           else submit
                       | _, _ => submit
                       end
               end
           | UPETH_BORROW =>
               borrowAssetsWei <-
                 lift (parseUnits (toFixed (borrowAssets (userPosition s)) 18) 18) ;;
               update (set_isFullRepayRef (amount >=? borrowAssetsWei)) ;;
               isFullRepay <- current isFullRepayRef ;;
               let approveAmount :=
                 if isFullRepay then amount + Z.quot amount 100 else amount in
               update (set_approvedCollateralRef amount) ;;
               update (setTxStep approving) ;;
               writeContract ADDRESSES.UPETH (fn_approve ADDRESSES.MORPHO approveAmount)
           end)
          (update (setTxStep idle))
  | _, _ => ret tt
  end.

Definition executeAfterApprove (s : State) : Action unit :=
  match selection s, address s with
  | Some sel, Some address =>
      if negb (isConnected s) then ret tt
      else
        amount <- current approvedCollateralRef ;;
        if amount =? 0 then ret tt
        else
          try_catch
            (if ActionMode_eqb (actionMode s) withdraw && Market_eqb sel UPETH_BORROW then
               update (setTxStep executing) ;;
               isFullRepay <- current isFullRepayRef ;;
               if isFullRepay then
                 writeContract ADDRESSES.MORPHO
                   (fn_repay 0 (borrowShares (userPosition s)) address)
               else
                 writeContract ADDRESSES.MORPHO (fn_repay amount 0 address)
             else
               match sel with
               | UPETH =>
                   update (setTxStep executing) ;;
                   writeContract ADDRESSES.MORPHO (fn_supply amount 0 address)
               | UPKRW =>
                   update (setTxStep executing) ;;
                   writeContract ADDRESSES.MORPHO (fn_supplyCollateral amount address)
               | UPETH_BORROW =>
                   update (setTxStep supplying_collateral) ;;
                   writeContract ADDRESSES.MORPHO (fn_supplyCollateral amount address)
               end)
            (update (setTxStep idle) ;; update (setExecutionStatus status_idle))
  | _, _ => ret tt
  end.

Definition executeBorrow (s : State) : Action unit :=
  match address s with
  | Some address =>
      if negb (isConnected s) || negb (is_selected UPETH_BORROW (selection s)) then ret tt
      else
        borrowAmount <- current borrowAmountRef ;;
        if borrowAmount =? 0 then ret tt
        else
          update (setTxStep borrowing) ;;
          try_catch
            (writeContract ADDRESSES.MORPHO (fn_borrow borrowAmount 0 address address))
            (update (setTxStep idle) ;; update (setExecutionStatus status_idle))
  | None => ret tt
  end.

Definition handleButtonClick (fresh : ChainRead (Z * Z * Z)) (s : State) : Action unit :=
  match actionMode s with
  | withdraw =>
      match txStep s with
      | approved => executeAfterApprove s
      | idle => executeWithdraw fresh s
      | _ => ret tt
      end
  | supply =>
      match txStep s with
      | approved => executeAfterApprove s
      | collateral_supplied => executeBorrow s
      | idle => executeSupply s
      | _ => ret tt
      end
  end.

Definition getMaxAmount (s : State) : number :=
  match actionMode s, selection s with
  | withdraw, Some UPETH => supplyAssets (userPosition s)
  | withdraw, Some UPKRW => num_div (Number (collateral (userPosition s))) num_1e18
  | withdraw, Some UPETH_BORROW => borrowAssets (userPosition s)
  | supply, Some UPETH | supply, Some UPETH_BORROW => upethBalance s
  | supply, Some UPKRW => upkrwBalance s
  | _, None => num_0
  end.

Definition isButtonDisabled (s : State) : bool :=
  if negb (isConnected s) then true
  else if isTxPending s then true
  else if TxStep_eqb (txStep s) approving || TxStep_eqb (txStep s) supplying_collateral
          || TxStep_eqb (txStep s) borrowing || TxStep_eqb (txStep s) executing then true
  else if ExecutionStatus_eqb (executionStatus s) status_confirmed then true
  else if is_empty (inputAmount s) || num_leb (parseFloat (inputAmount s)) num_0 then true
  else
    let amount := parseFloat (inputAmount s) in
    let maxAmount := getMaxAmount s in
    if num_gtb amount maxAmount then true
    else if is_selected UPETH_BORROW (selection s) && ActionMode_eqb (actionMode s) supply then
      if match simulatedHF s with
         | Some hf => num_ltb hf num_1
         | None => false
         end
      then true
      else if negb (hasExistingCollateral s) && negb (hasNewCollateral s) then true
      else false
    else false.

(** A press on the submit button: a disabled button delivers no click. *)
Definition pressSubmit (fresh : ChainRead (Z * Z * Z)) (s : State) : Action unit :=
  if isButtonDisabled s then ret tt else handleButtonClick fresh s.

(** *** Setters of the balances *)

Definition setUpethBalance (v : number) (s : State) : State :=
  mkState
    (isConnected s) (address s) (publicClient s) (marketData s)
    (oraclePrice s) (positionData s) (txHash s) (writeError s)
    (isTxPending s) (isTxSuccess s) (isTxError s) (selection s)
    (actionMode s) (inputAmount s) (collateralAmount s) (simulatedHF s)
    (executionStatus s) (txStep s) (approvedCollateralRef s)
    (borrowAmountRef s) (isFullRepayRef s) v (upkrwBalance s)
    (userPosition s) (currentHF s) (liquidatablePositions s)
    (borrowerToCheck s) (isLoadingPositions s) (selectedBorrower s)
    (liquidateAmount s) (liquidateTxStep s) (errorMessage s).

Definition setUpkrwBalance (v : number) (s : State) : State :=
  mkState
    (isConnected s) (address s) (publicClient s) (marketData s)
    (oraclePrice s) (positionData s) (txHash s) (writeError s)
    (isTxPending s) (isTxSuccess s) (isTxError s) (selection s)
    (actionMode s) (inputAmount s) (collateralAmount s) (simulatedHF s)
    (executionStatus s) (txStep s) (approvedCollateralRef s)
    (borrowAmountRef s) (isFullRepayRef s) (upethBalance s) v
    (userPosition s) (currentHF s) (liquidatablePositions s)
    (borrowerToCheck s) (isLoadingPositions s) (selectedBorrower s)
    (liquidateAmount s) (liquidateTxStep s) (errorMessage s).

(** *** Wallet balances *)

(** The balance effect; [upethBalanceData] and [upkrwBalanceData] are the
    results of the two [balanceOf] reads ([uint256], so never negative).
    A result of [0n] is falsy, like a missing one. *)
Definition balanceEffect (upethBalanceData upkrwBalanceData : option Z) (s : State)
    : Action unit :=
  (match upethBalanceData with
   | Some b =>
       if negb (b =? 0) then update (setUpethBalance (Number_of_string (formatUnits b 18)))
       else ret tt
   | None => ret tt
   end) ;;
  (match upkrwBalanceData with
   | Some b =>
       if negb (b =? 0) then update (setUpkrwBalance (Number_of_string (formatUnits b 18)))
       else ret tt
   | None => ret tt
   end).

(** *** Computed values *)

Definition utilization (s : State) : number :=
  match marketData s with
  | Some m =>
      if totalSupplyAssets m >? 0
      then num_mul (num_div (Number (totalBorrowAssets m)) (Number (totalSupplyAssets m)))
                   (lit 100)
      else num_0
  | None => num_0
  end.

(** *** Text of the panel *)

(** Compact number formatting for large values. *)
Definition fmtCompact (n : number) : string :=
  if num_geb n (lit (10 ^ 12)) then toFixed (num_div n (lit (10 ^ 12))) 1 ++ "T"
  else if num_geb n (lit (10 ^ 9)) then toFixed (num_div n (lit (10 ^ 9))) 1 ++ "B"
  else if num_geb n (lit (10 ^ 6)) then toFixed (num_div n (lit (10 ^ 6))) 1 ++ "M"
  else if num_geb n (lit (10 ^ 3)) then toFixed (num_div n (lit (10 ^ 3))) 1 ++ "K"
  else if num_geb n (lit 100) then toFixed n 0
  else if num_geb n (lit 1) then toFixed n 2
  else toFixed n 4.

(** Get reason why button is disabled. *)
Definition getDisabledReason (s : State) : option string :=
  if negb (isConnected s) then None
  else if isTxPending s || negb (TxStep_eqb (txStep s) idle) then None
  else if is_empty (inputAmount s) || num_leb (parseFloat (inputAmount s)) num_0 then
    Some "Enter amount"
  else
    let amount := parseFloat (inputAmount s) in
    let maxAmount := getMaxAmount s in
    if num_gtb amount maxAmount then
      Some ("Insufficient balance (Max: " ++ fmtCompact maxAmount ++ ")")
    else if is_selected UPETH_BORROW (selection s) && ActionMode_eqb (actionMode s) supply then
      match simulatedHF s with
      | Some hf =>
          if num_ltb hf num_1 then
            Some ("Health Factor " ++ toFixed hf 2
                  ++ " is below 1.0 - Position would be liquidatable")
          else if negb (hasExistingCollateral s) && negb (hasNewCollateral s) then
            Some "Enter collateral amount"
          else None
      | None =>
          if negb (hasExistingCollateral s) && negb (hasNewCollateral s) then
            Some "Enter collateral amount"
          else None
      end
    else None.

(** *** The remaining controls *)

(** The test of the amount inputs: empty text, or digits with at most one
    dot. *)
Definition is_decimal_text (v : string) : bool :=
  let '(_, r1) := span_digits v in
  match r1 with
  | EmptyString => true
  | String "." r =>
      match span_digits r with
      | (_, EmptyString) => true
      | _ => false
      end
  | _ => false
  end.

(** The change handler of the amount input. *)
Definition inputAmountChange (v : string) (s : State) : Action unit :=
  if is_empty v || is_decimal_text v then simulate v s else ret tt.

(** The MAX button of the amount input. *)
Definition pressMax (s : State) : Action unit :=
  if num_eqb (getMaxAmount s) num_0 || negb (isConnected s) then ret tt
  else simulate (toString (getMaxAmount s)) s.

(** The MAX button of the collateral input of the borrow panel. *)
Definition collateralMax (s : State) : Action unit :=
  if num_eqb (upkrwBalance s) num_0 || negb (isConnected s) then ret tt
  else
    update (setCollateralAmount (toString (upkrwBalance s))) ;;
    if negb (is_empty (inputAmount s)) then
      hf <- lift (calculateHealthFactor s (parseFloat (inputAmount s)) (upkrwBalance s)) ;;
      update (setSimulatedHF hf)
    else ret tt.

(** The change handler of the liquidation amount input. *)
Definition liquidateAmountChange (v : string) (s : State) : Action unit :=
  if is_empty v || is_decimal_text v then update (setLiquidateAmount v) else ret tt.

(** The MAX button of the liquidation panel, which is rendered for a
    selected borrower. *)
Definition liquidateMax (s : State) : Action unit :=
  match selectedBorrower s with
  | Some selectedBorrower =>
      update (setLiquidateAmount (toFixed (lp_borrowAssets selectedBorrower) 6))
  | None => ret tt
  end.

(** The lower-cased borrower addresses of a list of positions. *)
Definition borrowers (l : list LiquidatablePosition) : list string :=
  List.map (fun p => toLowerCase (lp_borrower p)) l.

(** The steps during which a request is with the wallet or the chain. *)
Definition in_flight (step : TxStep) : bool :=
  TxStep_eqb step approving || TxStep_eqb step supplying_collateral
  || TxStep_eqb step borrowing || TxStep_eqb step executing.

(** What a run of the success effect leaves scheduled besides the state
    it writes: in the steps [borrowing] and [executing], the four
    refetches and, once they have resolved and 1.5 s have passed,
    [resetAfterRefetch]. *)
Definition scheduledBySuccess (s : State) : option (Action unit) :=
  if isTxSuccess s then
    match txStep s with
    | borrowing | executing => Some resetAfterRefetch
    | _ => None
    end
  else None.

End Dashboard.

(** ** The specification's formulas

    The quantities of the specification, written after its words; the
    theorems below relate them to what the component computes. *)

Module Spec.

Import JsNumber JsString Dashboard.
Local Open Scope Z_scope.

(** [maxBorrow = totalCollateral * oraclePrice * lltv / (ORACLE_SCALE * WAD)]. *)
Definition maxBorrow (totalCollateral oraclePrice : Z) : Z :=
  Z.quot (totalCollateral * oraclePrice * LLTV) (ORACLE_PRICE_SCALE * WAD).

(** [maxBorrow * WAD / totalBorrow]: the health factor in WAD units. *)
Definition hfScaled (totalCollateral totalBorrow oraclePrice : Z) : Z :=
  Z.quot (maxBorrow totalCollateral oraclePrice * WAD) totalBorrow.

(** Non-finite results and results above 1000 become 1000, negative
    results become 0. *)
Definition clamp (hf : number) : number :=
  if negb (isFinite hf) || num_gtb hf num_1000 then num_1000
  else if num_ltb hf num_0 then num_0
  else hf.

Definition healthFactor (totalCollateral totalBorrow oraclePrice : Z) : number :=
  clamp (num_div (Number (hfScaled totalCollateral totalBorrow oraclePrice)) num_1e18).

(** Amounts are non-negative numbers below [1e21], the range in which
    [toFixed] prints fixed notation. *)
Definition num_1e21 : number := lit (10 ^ 21).

Definition is_amount (x : number) : Prop :=
  num_leb num_0 x = true /\ num_ltb x num_1e21 = true.

(** A collateral withdrawal refused with the message [msg]: the step is
    back to [idle] and nothing was handed to the wallet. *)
Definition rejected (msg : string) (s : State) : result unit * State * list WriteRequest :=
  (Ok tt, setTxStep idle (setErrorMessage (Some msg) (setTxStep executing s)), []).

(** [seizeAmount = repayAmount * ORACLE_SCALE * 105 / (oraclePrice * 100)]. *)
Definition seizeAmount (repayAmount oraclePrice : Z) : Z :=
  Z.quot (repayAmount * ORACLE_PRICE_SCALE * 105) (oraclePrice * 100).

(** The simulated health factor of the combined position: the existing
    position together with the amounts in the borrow input and in the
    collateral input, at the current oracle price. *)
Definition combinedHF (s : State) : result (option number) :=
  calculateHealthFactor s (parseFloat (inputAmount s))
    (parseFloat_or_0 (collateralAmount s)).

End Spec.

(** ** Scenarios

    Concrete sessions, built by running the handlers on an initial state;
    the oracle quotes one UPETH at 4,566,000 UPKRW. *)

Module Scenarios.

Import JsNumber Dashboard.
Local Open Scope string_scope.
Local Open Scope Z_scope.

Definition user : string := "0x00000000000000000000000000000000000000a1".
Definition borrowerX : string := "0x00000000000000000000000000000000000000B2".

Definition ether (n : Z) : Z := n * 10 ^ 18.

Definition price : Z := Z.quot ORACLE_PRICE_SCALE 4566000.

(** A market with 100 UPETH supplied and 40 UPETH borrowed, one million
    shares per unit of asset. *)
Definition market : MarketData :=
  mkMarketData (ether 100) (ether 100 * 10 ^ 6) (ether 40) (ether 40 * 10 ^ 6) 0 0.

(** The state of a connected session before any user action. *)
Definition session (oracle : option Z) (position : Z * Z * Z) : State :=
  mkState true (Some user) true (Some market) oracle (Some position)
    None None false false false
    None supply "" "" None status_idle idle
    0 0 false
    (lit 100) (lit 100000000)
    (mkUserPosition 0 0 0 num_0 num_0) None
    [] "" false None "" liq_idle None.

Definition after (h : State -> Action unit) (s : State) : State := fst (run h s).

(** The effects that follow the arrival of position and oracle data. *)
Definition rendered (s : State) : State :=
  after currentHFEffect (after positionEffect s).

(** 50,000,000 UPKRW of collateral and no debt. *)
Definition collateralOnly (oracle : option Z) : State :=
  rendered (session oracle (0, 0, ether 50000000)).

Definition borrowPanel (oracle : option Z) (amount : string) : State :=
  after (simulate amount) (after (selectMarket (Some UPETH_BORROW)) (collateralOnly oracle)).

(** The same collateral with a debt of 3 UPETH. *)
Definition debtor : State :=
  rendered (session (Some price) (0, ether 3 * 10 ^ 6, ether 50000000)).

Definition repayPanel (amount : string) : State :=
  after (simulate amount)
    (after (switchMode withdraw) (after (selectMarket (Some UPETH_BORROW)) debtor)).

Definition withdrawCollateralPanel (s : State) (amount : string) : State :=
  after (simulate amount)
    (after (switchMode withdraw) (after (selectMarket (Some UPKRW)) s)).

(** 1,000 UPKRW of collateral and a debt of 0.00005 UPETH. *)
Definition dustDebtorPosition : Z * Z * Z := (0, 5 * 10 ^ 13 * 10 ^ 6, ether 1000).

Definition dustDebtor : State := rendered (session (Some price) dustDebtorPosition).

(** A borrower with 9,000,000 UPKRW of collateral and a debt of 2 UPETH,
    as read from the chain. *)
Definition borrowerXPosition : Z * Z * Z := (0, ether 2 * 10 ^ 6, ether 9000000).

(** The list entry made of that read. *)
Definition borrowerXListed : LiquidatablePosition :=
  mkLiquidatablePosition borrowerX (ether 9000000) (ether 2 * 10 ^ 6) (lit 2)
    (num_div (Number (Spec.hfScaled (ether 9000000) (ether 2) price)) num_1e18)
    (ether 9000000) num_1_05.

(** A liquidator who listed that borrower, selected it and asked to repay
    5 UPETH. *)
Definition liquidator : State :=
  let listed :=
    after (handleCheckBorrower (Resolves borrowerXPosition))
      (setBorrowerToCheck borrowerX (session (Some price) (0, 0, 0))) in
  setLiquidateAmount "5.0"
    (setSelectedBorrower (List.hd_error (liquidatablePositions listed)) listed).

(** A borrow of 5 UPETH against 1,000,000 UPKRW of new collateral, after
    the approval request was broadcast. *)
Definition borrowInFlight : State :=
  let panel :=
    after (simulate "5")
      (after (collateralInputChange "1000000")
         (after (selectMarket (Some UPETH_BORROW)) (collateralOnly (Some price)))) in
  walletSubmitted "0xabc" (after (pressSubmit Rejects) panel).

(** A full repayment of the 3 UPETH debt, after the approval request was
    broadcast. *)
Definition repayInFlight : State :=
  walletSubmitted "0xdef" (after (pressSubmit Rejects) (repayPanel "3.0")).

(** The session after the wallet broadcast the pending request under
    [hash] and its receipt reported success. *)
Definition confirmed (hash : string) (s : State) : State :=
  after txSuccessEffect (receiptConfirmed (walletSubmitted hash s)).

(** A borrow of 5 UPETH against 1,000,000 UPKRW of new collateral, typed
    and not yet submitted. *)
Definition borrowWithCollateralPanel : State :=
  after (simulate "5")
    (after (collateralInputChange "1000000")
       (after (selectMarket (Some UPETH_BORROW)) (collateralOnly (Some price)))).

(** A supply of [amount] to [market], typed and not yet submitted. *)
Definition supplyPanel (market : Market) (amount : string) : State :=
  after (simulate amount) (after (selectMarket (Some market)) (collateralOnly (Some price))).

(** A wallet holding 0.0000001 UPETH, and the supply panel after a press
    on MAX. *)
Definition dustBalance : State :=
  after (balanceEffect (Some (10 ^ 11)) None) (session (Some price) (0, 0, 0)).

Definition dustMaxPanel : State :=
  after pressMax (after (selectMarket (Some UPETH)) dustBalance).

(** The liquidation page with the address of a borrower typed in. *)
Definition checking : State :=
  setBorrowerToCheck borrowerX (session (Some price) (0, 0, 0)).

(** A borrower with 1,000 UPKRW of collateral and a debt of 0.0000005
    UPETH, and a liquidator who listed and selected it. *)
Definition tinyDebtPosition : Z * Z * Z := (0, 5 * 10 ^ 11 * 10 ^ 6, ether 1000).

(** The list entry made of that read. *)
Definition tinyDebtListed : LiquidatablePosition :=
  mkLiquidatablePosition borrowerX (ether 1000) (5 * 10 ^ 11 * 10 ^ 6)
    (num_div (Number (5 * 10 ^ 11)) num_1e18)
    (num_div (Number (Spec.hfScaled (ether 1000) (5 * 10 ^ 11) price)) num_1e18)
    (ether 1000) num_1_05.

Definition tinyDebtLiquidator : State :=
  let listed := after (handleCheckBorrower (Resolves tinyDebtPosition)) checking in
  setLiquidateAmount "0.0000005"
    (setSelectedBorrower (List.hd_error (liquidatablePositions listed)) listed).

(** The borrow panel with 5 UPETH typed against the 50,000,000 UPKRW
    posted, after the oracle read reports a third of the price for
    UPKRW. *)
Definition priceDrop : State :=
  after currentHFEffect
    (oraclePriceRead (Some (Z.quot price 3)) (borrowPanel (Some price) "5")).

(** A borrow of 5 UPETH against new collateral of a tenth of a wei of
    UPKRW, typed and not yet submitted. *)
Definition subWeiCollateralPanel : State :=
  after (simulate "5")
    (after (collateralInputChange "0.0000000000000000001")
       (after (selectMarket (Some UPETH_BORROW)) (collateralOnly (Some price)))).

(** The borrower of the scenarios once listed, its address typed again in
    lower case, and a later read of its position: the debt is down to
    1 UPETH. *)
Definition rechecking : State :=
  setBorrowerToCheck (toLowerCase borrowerX)
    (after (handleCheckBorrower (Resolves borrowerXPosition)) checking).

Definition borrowerXLater : Z * Z * Z := (0, ether 1 * 10 ^ 6, ether 9000000).

(** A later read of the same borrower after most of the position was
    liquidated by someone else: 2 UPKRW of collateral and a debt of
    0.0000005 UPETH. *)
Definition borrowerXDust : Z * Z * Z := (0, 5 * 10 ^ 11 * 10 ^ 6, ether 2).

(** The liquidator of the scenarios after the approval was requested,
    broadcast and confirmed. *)
Definition approvalConfirmed : State :=
  receiptConfirmed (walletSubmitted "0x01" (after executeLiquidation liquidator)).

End Scenarios.

(** ** Facts about the number model *)

Module JsNumberFacts.

Import JsNumber.
Local Open Scope Q_scope.

Lemma two_pos : 0 < two. Proof. reflexivity. Qed.
Lemma two_ge1 : 1 <= two. Proof. discriminate. Qed.
Lemma two_gt1 : 1 < two. Proof. reflexivity. Qed.
Lemma two_neq0 : ~ two == 0. Proof. discriminate. Qed.

Lemma pow2_pos k : 0 < two ^ k.
Proof. apply Qpower_0_lt, two_pos. Qed.

Lemma pow2_succ k : two ^ (k + 1) == 2 * two ^ k.
Proof. rewrite Qpower_plus by apply two_neq0. change (two ^ 1) with two. unfold two. ring. Qed.

Lemma pow2_le a b : (a <= b)%Z -> two ^ a <= two ^ b.
Proof. intros. apply Qpower_le_compat_l; [assumption | apply two_ge1]. Qed.

Lemma pow2_lt_inv a b : two ^ a < two ^ b -> (a < b)%Z.
Proof. intros H. apply Qpower_lt_compat_l_inv with (q := two); [assumption | apply two_gt1]. Qed.

Lemma pow2_inject (n : Z) : (0 <= n)%Z -> inject_Z (2 ^ n) == two ^ n.
Proof. intros. rewrite Zpower_Qpower by assumption. reflexivity. Qed.

Lemma floor_log2_spec q : 0 < q -> two ^ floor_log2 q <= q /\ q < two ^ (floor_log2 q + 1).
Proof.
  intros Hq. destruct q as [n d]. unfold floor_log2. cbn [Qnum Qden].
  assert (Hn : (0 < n)%Z) by (unfold Qlt in Hq; cbn in Hq; lia).
  set (ln := Z.log2 n). set (ld := Z.log2 (Z.pos d)).
  destruct (Z.log2_spec n Hn) as [Hn1 Hn2]. fold ln in Hn1, Hn2.
  destruct (Z.log2_spec (Z.pos d) (Pos2Z.is_pos d)) as [Hd1 Hd2]. fold ld in Hd1, Hd2.
  assert (Hln : (0 <= ln)%Z) by apply Z.log2_nonneg.
  assert (Hld : (0 <= ld)%Z) by apply Z.log2_nonneg.
  assert (En : inject_Z n == (n # d) * inject_Z (Z.pos d)).
  { rewrite (Qmake_Qdiv n d). field. discriminate. }
  assert (Qn1 : two ^ ln <= inject_Z n) by (rewrite <- pow2_inject by lia; rewrite <- Zle_Qle; lia).
  assert (Qn2 : inject_Z n < two ^ (ln + 1)) by (rewrite <- pow2_inject by lia; rewrite <- Zlt_Qlt; lia).
  assert (Qd1 : two ^ ld <= inject_Z (Z.pos d)) by (rewrite <- pow2_inject by lia; rewrite <- Zle_Qle; lia).
  assert (Qd2 : inject_Z (Z.pos d) < two ^ (ld + 1)) by (rewrite <- pow2_inject by lia; rewrite <- Zlt_Qlt; lia).
  assert (Dpos : 0 < inject_Z (Z.pos d)) by reflexivity.
  assert (P1 := pow2_pos ld). assert (P2 := pow2_pos (ln - ld)).
  assert (E1 : two ^ ln == two ^ (ln - ld) * two ^ ld).
  { rewrite <- Qpower_plus by apply two_neq0. replace (ln - ld + ld)%Z with ln by lia. reflexivity. }
  assert (E2 : two ^ (ln + 1) == 2 * two ^ ln) by apply pow2_succ.
  assert (E3 : two ^ (ld + 1) == 2 * two ^ ld) by apply pow2_succ.
  assert (E4 : two ^ (ln - ld + 1) == 2 * two ^ (ln - ld)) by apply pow2_succ.
  assert (E5 : two ^ (ln - ld) == 2 * two ^ (ln - ld - 1)).
  { rewrite <- pow2_succ. replace (ln - ld - 1 + 1)%Z with (ln - ld)%Z by lia. reflexivity. }
  assert (P3 := pow2_pos (ln - ld - 1)).
  destruct (Qle_bool (two ^ (ln - ld)) (n # d)) eqn:T.
  - apply Qle_bool_iff in T. split; [exact T|].
    rewrite E4. rewrite En, E2, E1 in Qn2.
    set (x := n # d) in *. set (a := two ^ (ln - ld)) in *. set (b := two ^ ld) in *. set (dd := inject_Z (Z.pos d)) in *.
    nra.
  - assert (T' : (n # d) < two ^ (ln - ld)).
    { apply Qnot_le_lt. intro C. apply Qle_bool_iff in C. congruence. }
    replace (ln - ld - 1 + 1)%Z with (ln - ld)%Z by lia. split; [|exact T'].
    rewrite En, E1, E5 in Qn1. rewrite E3 in Qd2.
    set (x := n # d) in *. set (a := two ^ (ln - ld - 1)) in *. set (b := two ^ ld) in *. set (dd := inject_Z (Z.pos d)) in *.
    nra.
Qed.

Lemma floor_log2_mono x y : 0 < x -> x <= y -> (floor_log2 x <= floor_log2 y)%Z.
Proof.
  intros Hx Hxy.
  destruct (floor_log2_spec x Hx) as [A _].
  destruct (floor_log2_spec y) as [_ B]; [lra|].
  assert (S : two ^ floor_log2 x < two ^ (floor_log2 y + 1)) by lra.
  apply pow2_lt_inv in S. lia.
Qed.

Lemma ulp_exp_mono x y : 0 < x -> x <= y -> (ulp_exp x <= ulp_exp y)%Z.
Proof. intros Hx Hxy. unfold ulp_exp. pose proof (floor_log2_mono x y Hx Hxy). lia. Qed.

Lemma Qfloor_frac q : 0 <= q - inject_Z (Qfloor q) /\ q - inject_Z (Qfloor q) < 1.
Proof.
  pose proof (Qfloor_le q) as Lo. pose proof (Qlt_floor q) as Hi.
  rewrite inject_Z_plus in Hi. change (inject_Z 1) with 1 in Hi. lra.
Qed.

Lemma round_half_even_bounds q :
  (Qfloor q <= round_half_even q <= Qfloor q + 1)%Z.
Proof.
  unfold round_half_even.
  destruct (Qcompare _ _); [destruct (Z.even _)| |]; lia.
Qed.

Lemma round_half_even_Z z : round_half_even (inject_Z z) = z.
Proof.
  unfold round_half_even. rewrite Qfloor_Z.
  destruct (Qcompare (inject_Z z - inject_Z z) (1 # 2)) eqn:C; [| reflexivity |].
  - apply Qeq_alt in C. lra.
  - apply Qgt_alt in C. lra.
Qed.

Lemma round_half_even_mono x y : x <= y -> (round_half_even x <= round_half_even y)%Z.
Proof.
  intros Hxy. pose proof (Qfloor_resp_le _ _ Hxy) as Hf.
  pose proof (round_half_even_bounds x) as Bx.
  pose proof (round_half_even_bounds y) as By.
  destruct (Z.eq_dec (Qfloor x) (Qfloor y)) as [E | NE]; [| lia].
  unfold round_half_even in *. rewrite E in *.
  set (f := Qfloor y) in *.
  destruct (Qcompare (x - inject_Z f) (1 # 2)) eqn:Cx;
    destruct (Qcompare (y - inject_Z f) (1 # 2)) eqn:Cy;
    try (destruct (Z.even f)); try lia;
    repeat match goal with
           | H : Qcompare _ _ = Eq |- _ => apply Qeq_alt in H
           | H : Qcompare _ _ = Lt |- _ => apply Qlt_alt in H
           | H : Qcompare _ _ = Gt |- _ => apply Qgt_alt in H
           end; lra.
Qed.

Lemma round_half_even_nonneg q : 0 <= q -> (0 <= round_half_even q)%Z.
Proof.
  intros Hq. pose proof (round_half_even_bounds q) as B.
  pose proof (Qfloor_resp_le _ _ Hq) as F. change (Qfloor 0) with 0%Z in F. lia.
Qed.

Lemma rnd_pos_value_nonneg q : 0 < q -> 0 <= rnd_pos_value q.
Proof.
  intros Hq. unfold rnd_pos_value.
  pose proof (pow2_pos (ulp_exp q)) as P.
  assert (S : 0 <= q / two ^ ulp_exp q).
  { apply Qle_shift_div_l; [assumption | lra]. }
  apply round_half_even_nonneg in S. rewrite Zle_Qle in S.
  change (inject_Z 0) with 0 in S. nra.
Qed.

Lemma scaled_le x y k : x <= y -> x / two ^ k <= y / two ^ k.
Proof.
  intros H. pose proof (pow2_pos k).
  apply Qle_shift_div_l; [assumption|].
  unfold Qdiv. rewrite <- Qmult_assoc, (Qmult_comm (/ _)), Qmult_inv_r by lra. lra.
Qed.

Lemma pow2_split a b : two ^ a == two ^ (a - b) * two ^ b.
Proof.
  rewrite <- Qpower_plus by apply two_neq0.
  replace (a - b + b)%Z with a by lia. reflexivity.
Qed.

Lemma rnd_pos_value_mono x y : 0 < x -> x <= y -> rnd_pos_value x <= rnd_pos_value y.
Proof.
  intros Hx Hxy. assert (Hy : 0 < y) by lra.
  pose proof (ulp_exp_mono x y Hx Hxy) as Hk.
  unfold rnd_pos_value.
  destruct (Z.eq_dec (ulp_exp x) (ulp_exp y)) as [E | NE].
  - rewrite E. pose proof (pow2_pos (ulp_exp y)).
    pose proof (round_half_even_mono _ _ (scaled_le x y (ulp_exp y) Hxy)) as M.
    rewrite Zle_Qle in M. nra.
  - assert (Hlt : (ulp_exp x < ulp_exp y)%Z) by lia.
    set (kx := ulp_exp x) in *. set (ky := ulp_exp y) in *.
    assert (Ky : ky = (floor_log2 y - 52)%Z) by (unfold ky, kx, ulp_exp in *; lia).
    assert (Kx : (floor_log2 x - 52 <= kx)%Z) by (unfold kx, ulp_exp; lia).
    destruct (floor_log2_spec x Hx) as [_ Ux].
    destruct (floor_log2_spec y Hy) as [Ly _].
    pose proof (pow2_pos kx) as Px. pose proof (pow2_pos ky) as Py.
    (* upper bound on the rounding of x *)
    assert (Bx : inject_Z (round_half_even (x / two ^ kx)) <= two ^ 53).
    { assert (S : x / two ^ kx <= inject_Z (2 ^ 53)).
      { rewrite pow2_inject by lia.
        apply Qle_shift_div_r; [assumption|].
        rewrite <- Qpower_plus by apply two_neq0.
        assert (two ^ (floor_log2 x + 1) <= two ^ (53 + kx)) by (apply pow2_le; lia).
        lra. }
      apply round_half_even_mono in S. rewrite round_half_even_Z in S.
      rewrite Zle_Qle in S. rewrite pow2_inject in S by lia. exact S. }
    assert (By : two ^ 52 <= inject_Z (round_half_even (y / two ^ ky))).
    { assert (S : inject_Z (2 ^ 52) <= y / two ^ ky).
      { rewrite pow2_inject by lia.
        apply Qle_shift_div_l; [assumption|].
        rewrite <- Qpower_plus by apply two_neq0.
        replace (52 + ky)%Z with (floor_log2 y) by lia. exact Ly. }
      apply round_half_even_mono in S. rewrite round_half_even_Z in S.
      rewrite Zle_Qle in S. rewrite pow2_inject in S by lia. exact S. }
    assert (S1 : two ^ 53 * two ^ kx <= two ^ 52 * two ^ ky).
    { rewrite <- !Qpower_plus by apply two_neq0. apply pow2_le. lia. }
    assert (P52 := pow2_pos 52). assert (P53 := pow2_pos 53).
    set (a := inject_Z (round_half_even (x / two ^ kx))) in *.
    set (b := inject_Z (round_half_even (y / two ^ ky))) in *.
    set (px := two ^ kx) in *. set (py := two ^ ky) in *.
    set (c52 := two ^ 52) in *. set (c53 := two ^ 53) in *.
    nra.
Qed.

Lemma rnd_pos_cases q :
  (rnd_pos q = None /\ overflow_threshold <= rnd_pos_value q) \/
  (exists v, rnd_pos q = Some v /\ v == rnd_pos_value q /\ rnd_pos_value q < overflow_threshold).
Proof.
  unfold rnd_pos. destruct (Qle_bool overflow_threshold (rnd_pos_value q)) eqn:T.
  - left. split; [reflexivity | apply Qle_bool_iff; exact T].
  - right. exists (Qred (rnd_pos_value q)). split; [reflexivity | split; [apply Qred_correct |]].
    apply Qnot_le_lt. intro C. apply Qle_bool_iff in C. congruence.
Qed.

Lemma compare_cases q :
  (Qcompare q 0 = Eq /\ q == 0) \/ (Qcompare q 0 = Lt /\ q < 0) \/ (Qcompare q 0 = Gt /\ 0 < q).
Proof.
  destruct (Qcompare q 0) eqn:C.
  - left. split; [reflexivity | apply Qeq_alt; exact C].
  - right; left. split; [reflexivity | apply Qlt_alt; exact C].
  - right; right. split; [reflexivity | apply Qgt_alt in C; exact C].
Qed.

Lemma rnd_mono x y : x <= y -> num_leb (rnd x) (rnd y) = true.
Proof.
  intros Hxy. unfold rnd.
  destruct (compare_cases x) as [[Cx Sx] | [[Cx Sx] | [Cx Sx]]];
    destruct (compare_cases y) as [[Cy Sy] | [[Cy Sy] | [Cy Sy]]];
    rewrite Cx, Cy; try lra; try reflexivity.
  - (* 0, positive *)
    pose proof (rnd_pos_value_nonneg y Sy) as N.
    destruct (rnd_pos_cases y) as [[E _] | [v [E [V _]]]]; rewrite E; cbn; [reflexivity|].
    apply Qle_bool_iff. lra.
  - (* negative, 0 *)
    assert (Sx' : 0 < - x) by lra.
    pose proof (rnd_pos_value_nonneg (- x) Sx') as N.
    destruct (rnd_pos_cases (- x)) as [[E _] | [v [E [V _]]]]; rewrite E; cbn; [reflexivity|].
    apply Qle_bool_iff. lra.
  - (* negative, negative *)
    assert (Sy' : 0 < - y) by lra. assert (Hyx : - y <= - x) by lra.
    pose proof (rnd_pos_value_mono (- y) (- x) Sy' Hyx) as M.
    destruct (rnd_pos_cases (- x)) as [[Ex Ox] | [vx [Ex [Vx Bx]]]]; rewrite Ex;
      destruct (rnd_pos_cases (- y)) as [[Ey Oy] | [vy [Ey [Vy By]]]]; rewrite Ey;
      cbn; try reflexivity; try lra.
    apply Qle_bool_iff. lra.
  - (* negative, positive *)
    assert (Sx' : 0 < - x) by lra.
    pose proof (rnd_pos_value_nonneg (- x) Sx') as Nx.
    pose proof (rnd_pos_value_nonneg y Sy) as Ny.
    destruct (rnd_pos_cases (- x)) as [[Ex Ox] | [vx [Ex [Vx Bx]]]]; rewrite Ex;
      destruct (rnd_pos_cases y) as [[Ey Oy] | [vy [Ey [Vy By]]]]; rewrite Ey;
      cbn; try reflexivity.
    apply Qle_bool_iff. lra.
  - (* positive, positive *)
    pose proof (rnd_pos_value_mono x y Sx Hxy) as M.
    destruct (rnd_pos_cases x) as [[Ex Ox] | [vx [Ex [Vx Bx]]]]; rewrite Ex;
      destruct (rnd_pos_cases y) as [[Ey Oy] | [vy [Ey [Vy By]]]]; rewrite Ey;
      cbn; try reflexivity; try lra.
    apply Qle_bool_iff. lra.
Qed.

Lemma Number_mono a b : (a <= b)%Z -> num_leb (Number a) (Number b) = true.
Proof. intros H. apply rnd_mono. rewrite <- Zle_Qle. exact H. Qed.

Lemma rnd_not_NaN q : rnd q <> NaN.
Proof.
  unfold rnd. destruct (Qcompare q 0); [discriminate | |];
    destruct (rnd_pos _); discriminate.
Qed.

Lemma num_div_mono_l x1 x2 b :
  0 < b -> num_leb x1 x2 = true -> num_leb (num_div x1 (Fin b)) (num_div x2 (Fin b)) = true.
Proof.
  intros Hb Hle.
  assert (Cb : Qcompare b 0 = Gt) by (apply Qgt_alt; exact Hb).
  assert (Lb : Qle_bool 0 b = true) by (apply Qle_bool_iff; lra).
  destruct x1 as [ | | | a1]; destruct x2 as [ | | | a2]; cbn in Hle; try discriminate;
    cbn [num_div]; rewrite ?Cb, ?Lb; try reflexivity.
  - destruct (rnd (a2 / b)) eqn:E; try reflexivity. exfalso. exact (rnd_not_NaN _ E).
  - destruct (rnd (a1 / b)) eqn:E; try reflexivity. exfalso. exact (rnd_not_NaN _ E).
  - apply rnd_mono. apply Qle_bool_iff in Hle.
    apply Qle_shift_div_l; [assumption|].
    unfold Qdiv. rewrite <- Qmult_assoc, (Qmult_comm (/ _)), Qmult_inv_r by lra. lra.
Qed.

(** The model agrees with the Standard Library's specification of
    binary64 on conversions from integers and on divisions. *)
Example Number_agrees_with_binary64 :
  List.map Number
    [10 ^ 18 - 1; 123456789012345678901234567890; 2 ^ 53 + 1; 2 ^ 1024;
     2 ^ 1024 - 2 ^ 970 - 1; - (2 ^ 60 + 3); 0]%Z
  = List.map (fun z => of_spec_float (binary64_of_Z z))
    [10 ^ 18 - 1; 123456789012345678901234567890; 2 ^ 53 + 1; 2 ^ 1024;
     2 ^ 1024 - 2 ^ 970 - 1; - (2 ^ 60 + 3); 0]%Z.
Proof. vm_compute. reflexivity. Qed.

Example num_div_agrees_with_binary64 :
  List.map (fun '(a, b) => num_div (Number a) (Number b))
    [(3, 10 ^ 18); (2014892685063512708, 10 ^ 18); (839538618776463628, 10 ^ 18);
     (10 ^ 40 + 7, 10 ^ 18); (1, 3); (-7, 10); (1, 2 ^ 1074 * 3)]%Z
  = List.map (fun '(a, b) => of_spec_float (binary64_div (binary64_of_Z a) (binary64_of_Z b)))
    [(3, 10 ^ 18); (2014892685063512708, 10 ^ 18); (839538618776463628, 10 ^ 18);
     (10 ^ 40 + 7, 10 ^ 18); (1, 3); (-7, 10); (1, 2 ^ 1074 * 3)]%Z.
Proof. vm_compute. reflexivity. Qed.

End JsNumberFacts.

(** ** Facts about decimal text *)

Module TextFacts.

Import JsNumber JsString Viem Dashboard.
Local Open Scope string_scope.
Local Open Scope Z_scope.

Lemma digit_val_nonneg c : is_digit c = true -> 0 <= digit_val c.
Proof.
  unfold is_digit, digit_val. intros H. apply andb_prop in H. destruct H as [H _].
  apply Nat.leb_le in H. lia.
Qed.

Lemma span_digits_value_nonneg s : forall d r acc,
  span_digits s = (d, r) -> 0 <= acc -> 0 <= digits_value acc d.
Proof.
  induction s as [| c s IH]; intros d r acc E Hacc; cbn in E.
  - inversion E; subst. exact Hacc.
  - destruct (is_digit c) eqn:D.
    + destruct (span_digits s) as [d' r'] eqn:S. inversion E; subst d r; clear E. cbn.
      apply (IH _ _ _ eq_refl). pose proof (digit_val_nonneg c D). lia.
    + inversion E; subst. exact Hacc.
Qed.

Lemma BigInt_of_string_minus t w : BigInt_of_string (String "-" t) = Ok w -> w <= 0.
Proof.
  unfold BigInt_of_string. intros H.
  destruct (span_digits t) as [d r] eqn:S. destruct r; [| discriminate].
  destruct (_ && _); [discriminate|]. inversion H; subst.
  pose proof (span_digits_value_nonneg t d _ 0 S). lia.
Qed.

Lemma parseUnits_minus t n w : parseUnits (String "-" t) n = Ok w -> w <= 0.
Proof.
  unfold parseUnits, split_decimal.
  destruct (span_digits t) as [ip r1].
  destruct r1 as [| c r].
  - destruct (BigInt_of_string ip); cbn [result_bind]; [| discriminate].
    match goal with |- context [let '(_, _) := ?X in _] => destruct X as [i f] end.
    apply BigInt_of_string_minus.
  - destruct c as [[] [] [] [] [] [] [] []]; try discriminate.
    destruct (span_digits r) as [fp r2]. destruct r2; [| discriminate].
    destruct (BigInt_of_string ip); cbn [result_bind]; [| discriminate].
    match goal with |- context [let '(_, _) := ?X in _] => destruct X as [i f] end.
    apply BigInt_of_string_minus.
Qed.

Lemma num_0_eq : num_0 = Fin 0.
Proof. reflexivity. Qed.

Lemma toFixed_zero q : (q == 0)%Q -> toFixed (Fin q) 18 = "0.000000000000000000".
Proof.
  intros E. unfold toFixed.
  assert (C : Qcompare q 0 = Eq) by (apply Qeq_alt; exact E).
  rewrite C.
  assert (A : (Qabs q == 0)%Q) by (rewrite E; reflexivity).
  assert (L : Qle_bool (ten ^ 21) (Qabs q) = false).
  { destruct (Qle_bool (ten ^ 21) (Qabs q)) eqn:T; [| reflexivity].
    apply Qle_bool_iff in T. rewrite A in T. exfalso. revert T. apply Qlt_not_le. reflexivity. }
  rewrite L.
  assert (F : Qfloor (Qabs q * ten ^ Z.of_nat 18 + (1 # 2)) = 0).
  { rewrite A. reflexivity. }
  rewrite F. reflexivity.
Qed.

Lemma toFixed_negative q n : (q < 0)%Q -> exists body, toFixed (Fin q) n = String "-" body.
Proof.
  intros L. unfold toFixed.
  assert (C : Qcompare q 0 = Lt) by (apply Qlt_alt; exact L).
  rewrite C. eexists. reflexivity.
Qed.

Lemma toFixed_nonpositive x w :
  num_gtb x num_0 = false -> parseUnits (toFixed x 18) 18 = Ok w -> w <= 0.
Proof.
  intros G P. destruct x as [ | | | q]; try discriminate.
  rewrite num_0_eq in G. cbn in G. apply negb_false_iff, Qle_bool_iff in G.
  destruct (Qlt_le_dec q 0) as [L | L].
  - destruct (toFixed_negative q 18 L) as [body E]. rewrite E in P.
    exact (parseUnits_minus _ _ _ P).
  - rewrite (toFixed_zero q) in P by lra.
    vm_compute in P. inversion P. lia.
Qed.

Lemma toFixed_0_parse : parseUnits (toFixed num_0 18) 18 = Ok 0.
Proof. reflexivity. Qed.
Lemma all_digits_app a b : all_digits a -> all_digits b -> all_digits (a ++ b).
Proof. induction a as [| c a IH]; cbn; [auto | intros [Hc Ha] Hb; auto]. Qed.

Lemma digit_char_spec d : 0 <= d <= 9 -> is_digit (digit_char d) = true /\ digit_val (digit_char d) = d.
Proof.
  intros H.
  assert (C : d = 0 \/ d = 1 \/ d = 2 \/ d = 3 \/ d = 4 \/ d = 5 \/ d = 6 \/ d = 7 \/ d = 8 \/ d = 9) by lia.
  repeat (destruct C as [C | C]; [subst d; split; reflexivity |]). subst d; split; reflexivity.
Qed.

Lemma digits_value_app a b acc :
  digits_value acc (a ++ b) = digits_value (digits_value acc a) b.
Proof. revert acc. induction a as [| c a IH]; intros acc; cbn; [reflexivity | apply IH]. Qed.

Lemma digits_value_shift s acc :
  digits_value acc s = acc * 10 ^ Z.of_nat (String.length s) + digits_value 0 s.
Proof.
  revert acc. induction s as [| c s IH]; intros acc.
  - cbn. lia.
  - cbn [digits_value String.length]. rewrite IH, (IH (0 * 10 + digit_val c)).
    rewrite Nat2Z.inj_succ, Z.pow_succ_r by lia. ring.
Qed.

Lemma digits_value_zeros n acc : digits_value acc (zeros n) = acc * 10 ^ Z.of_nat n.
Proof.
  revert acc. induction n as [| n IH]; intros acc.
  - cbn. lia.
  - cbn [zeros digits_value]. rewrite IH. change (digit_val "0") with 0.
    rewrite Nat2Z.inj_succ, Z.pow_succ_r by lia. ring.
Qed.

Lemma all_digits_zeros n : all_digits (zeros n).
Proof. induction n; cbn; auto. Qed.

Lemma length_zeros n : String.length (zeros n) = n.
Proof. induction n; cbn; auto. Qed.

Lemma length_app (a b : string) : String.length (a ++ b) = (String.length a + String.length b)%nat.
Proof. induction a; cbn; auto. Qed.

Lemma app_assoc_string (a b c : string) : (a ++ b) ++ c = a ++ (b ++ c).
Proof. induction a; cbn; congruence. Qed.

Lemma app_empty_r (a : string) : a ++ "" = a.
Proof. induction a; cbn; congruence. Qed.

Lemma span_digits_app a r :
  all_digits a -> span_digits (a ++ r) = (let '(d, rest) := span_digits r in (a ++ d, rest)).
Proof.
  induction a as [| c a IH]; cbn.
  - intros _. destruct (span_digits r). reflexivity.
  - intros [Hc Ha]. rewrite Hc, (IH Ha). destruct (span_digits r). reflexivity.
Qed.

Lemma span_digits_all a : all_digits a -> span_digits a = (a, "").
Proof.
  intros H. pose proof (span_digits_app a "" H) as E. cbn in E.
  replace (a ++ "") with a in E; [exact E |].
  clear. induction a; cbn; congruence.
Qed.

(** The digits printed for a non-negative bigint. *)
Lemma digits_of_S f n acc :
  digits_of (S f) n acc =
    if n <? 10 then String (digit_char (n mod 10)) acc
    else digits_of f (n / 10) (String (digit_char (n mod 10)) acc).
Proof. reflexivity. Qed.

Lemma digits_of_spec fuel : forall n acc,
  0 <= n < 10 ^ Z.of_nat (S fuel) ->
  exists d, digits_of (S fuel) n acc = d ++ acc /\ all_digits d /\ digits_value 0 d = n /\
            (0 < String.length d)%nat.
Proof.
  induction fuel as [| f IH]; intros n acc Hn; rewrite digits_of_S;
    (destruct (Z.ltb_spec n 10) as [Small | Big];
     [ exists (String (digit_char (n mod 10)) ""); rewrite Z.mod_small by lia;
       destruct (digit_char_spec n) as [D V]; [lia |];
       cbn; rewrite D, V; repeat split; lia | ]).
  - change (10 ^ Z.of_nat 1) with 10 in Hn. lia.
  - assert (Hq : 0 <= n / 10 < 10 ^ Z.of_nat (S f)).
    { rewrite (Nat2Z.inj_succ (S f)), Z.pow_succ_r in Hn by lia. split.
      - apply Z.div_pos; lia.
      - apply Z.div_lt_upper_bound; lia. }
    destruct (IH (n / 10) (String (digit_char (n mod 10)) acc) Hq) as [d [E [A [V L]]]].
    exists (d ++ String (digit_char (n mod 10)) "").
    destruct (digit_char_spec (n mod 10)) as [D V'];
      [pose proof (Z.mod_pos_bound n 10); lia |].
    repeat split.
    + rewrite E. rewrite app_assoc_string. reflexivity.
    + apply all_digits_app; [exact A |]. cbn. auto.
    + rewrite digits_value_app, V. cbn. rewrite V'.
      pose proof (Z.div_mod n 10). lia.
    + rewrite length_app. cbn. lia.
Qed.

Lemma string_of_bigint_spec n :
  0 <= n ->
  all_digits (string_of_bigint n) /\ digits_value 0 (string_of_bigint n) = n /\
  (0 < String.length (string_of_bigint n))%nat.
Proof.
  intros Hn. unfold string_of_bigint.
  destruct (Z.ltb_spec n 0) as [| _]; [lia |].
  assert (B : 0 <= n < 10 ^ Z.of_nat (S (Z.to_nat (Z.log2 n)))).
  { split; [exact Hn |].
    rewrite Nat2Z.inj_succ, Z2Nat.id by apply Z.log2_nonneg.
    destruct (Z.eq_dec n 0) as [-> | NZ]; [reflexivity |].
    destruct (Z.log2_spec n) as [_ U]; [lia |].
    assert (2 ^ Z.succ (Z.log2 n) <= 10 ^ Z.succ (Z.log2 n)).
    { apply Z.pow_le_mono_l. lia. }
    lia. }
  destruct (digits_of_spec _ n "" B) as [d [E [A [V L]]]].
  rewrite E. replace (d ++ "") with d by (clear; induction d; cbn; congruence).
  auto.
Qed.

Lemma all_digits_app_inv a b : all_digits (a ++ b) -> all_digits a /\ all_digits b.
Proof.
  induction a as [| c a IH]; cbn; [auto |].
  intros [Hc H]. destruct (IH H). auto.
Qed.

Lemma substring_full s : substring 0 (String.length s) s = s.
Proof. induction s as [| c s IH]; cbn; congruence. Qed.

Lemma substring_split s : forall j,
  (j <= String.length s)%nat ->
  substring 0 j s ++ substring j (String.length s - j) s = s /\
  String.length (substring 0 j s) = j.
Proof.
  induction s as [| c s IH]; intros [| j] Hj; cbn in Hj |- *; try lia.
  - auto.
  - rewrite substring_full. auto.
  - destruct (IH j) as [E L]; [lia |]. rewrite E, L. auto.
Qed.

Lemma strip_trailing_zeros_spec s :
  exists z, s = strip_trailing_zeros s ++ zeros z.
Proof.
  induction s as [| c s [z IH]].
  - exists 0%nat. reflexivity.
  - cbn [strip_trailing_zeros]. destruct (strip_trailing_zeros s) as [| c' r'] eqn:E.
    + cbn in IH. destruct (Ascii.eqb_spec c "0") as [-> | NE].
      * exists (S z). cbn. congruence.
      * exists z. cbn. congruence.
    + exists z. cbn [append] in *. congruence.
Qed.

Lemma padEnd0_strip s : padEnd0 (strip_trailing_zeros s) (String.length s) = s.
Proof.
  destruct (strip_trailing_zeros_spec s) as [z E].
  unfold padEnd0. remember (strip_trailing_zeros s) as t eqn:T. clear T. subst s.
  rewrite length_app, length_zeros.
  replace (String.length t + z - String.length t)%nat with z by lia.
  reflexivity.
Qed.

Lemma length_strip_le s : (String.length (strip_trailing_zeros s) <= String.length s)%nat.
Proof.
  destruct (strip_trailing_zeros_spec s) as [z E].
  remember (strip_trailing_zeros s) as t eqn:T. clear T. subst s.
  rewrite length_app. lia.
Qed.

Lemma BigInt_of_string_digits d :
  all_digits d -> (0 < String.length d)%nat -> BigInt_of_string d = Ok (digits_value 0 d).
Proof.
  intros A L. destruct d as [| c d]; [cbn in L; lia |].
  destruct A as [Hc A]. unfold BigInt_of_string.
  assert (S : span_digits (String c d) = (String c d, "")).
  { apply span_digits_all. cbn. auto. }
  destruct c as [[] [] [] [] [] [] [] []]; try discriminate Hc; rewrite S; reflexivity.
Qed.

Lemma split_decimal_digits i f :
  all_digits i -> (0 < String.length i)%nat -> all_digits f ->
  split_decimal (i ++ "." ++ f) = Some (false, i, Some f).
Proof.
  intros A L F. destruct i as [| c i]; [cbn in L; lia |].
  assert (S : span_digits (String c i ++ "." ++ f) = (String c i, "." ++ f)).
  { rewrite span_digits_app by exact A.
    change (span_digits ("." ++ f)) with (EmptyString, "." ++ f).
    cbv iota beta. rewrite app_empty_r. reflexivity. }
  destruct A as [Hc A]. unfold split_decimal. cbn [append] in *.
  destruct c as [[] [] [] [] [] [] [] []]; try discriminate Hc;
    rewrite S; rewrite (span_digits_all f F); reflexivity.
Qed.

(** Decimal text with exactly [decimals] fraction digits is read back
    digit for digit. *)
Lemma parseUnits_fixed i f :
  all_digits i -> (0 < String.length i)%nat -> all_digits f ->
  String.length f = 18%nat ->
  parseUnits (i ++ "." ++ f) 18 = Ok (digits_value 0 (i ++ f)).
Proof.
  intros A L F L18. unfold parseUnits.
  rewrite (split_decimal_digits i f A L F).
  rewrite (BigInt_of_string_digits i A L). cbn [result_bind].
  change (18 =? 0)%nat with false. cbv iota.
  pose proof (length_strip_le f) as Ls.
  destruct (Nat.ltb_spec 18 (String.length (strip_trailing_zeros f))) as [C | _]; [lia |].
  rewrite <- L18 at 1. rewrite padEnd0_strip.
  cbn [append].
  rewrite BigInt_of_string_digits.
  - reflexivity.
  - apply all_digits_app; assumption.
  - rewrite length_app. lia.
Qed.

Lemma padStart0_spec d n :
  all_digits d ->
  all_digits (padStart0 d n) /\ digits_value 0 (padStart0 d n) = digits_value 0 d /\
  (n <= String.length (padStart0 d n))%nat /\
  (String.length d <= String.length (padStart0 d n))%nat.
Proof.
  intros A. unfold padStart0. repeat split.
  - apply all_digits_app; [apply all_digits_zeros | exact A].
  - rewrite digits_value_app, digits_value_zeros. reflexivity.
  - rewrite length_app, length_zeros. lia.
  - rewrite length_app, length_zeros. lia.
Qed.

(** A finite non-negative amount below [1e21] converts to wei: its
    [toFixed(18)] text is accepted by [parseUnits], which returns the
    amount times [1e18] rounded to the nearest integer. *)
Lemma toFixed_parseUnits q :
  (0 <= q)%Q -> (q < ten ^ 21)%Q ->
  parseUnits (toFixed (Fin q) 18) 18 = Ok (Qfloor (q * ten ^ 18 + (1 # 2))).
Proof.
  intros H0 H21. unfold toFixed.
  assert (Neg : match Qcompare q 0 with Lt => true | _ => false end = false).
  { destruct (Qcompare q 0) eqn:C; try reflexivity. apply Qlt_alt in C. lra. }
  rewrite Neg.
  assert (Abs : (Qabs q == q)%Q) by (apply Qabs_pos; exact H0).
  assert (Small : Qle_bool (ten ^ 21) (Qabs q) = false).
  { destruct (Qle_bool (ten ^ 21) (Qabs q)) eqn:T; [| reflexivity].
    apply Qle_bool_iff in T. rewrite Abs in T. lra. }
  rewrite Small. change (Z.of_nat 18) with 18. change (18 =? 0)%nat with false. cbv iota.
  assert (En : Qfloor (Qabs q * ten ^ 18 + (1 # 2)) = Qfloor (q * ten ^ 18 + (1 # 2))).
  { rewrite Abs. reflexivity. }
  rewrite En. set (n := Qfloor (q * ten ^ 18 + (1 # 2))).
  assert (Hn : 0 <= n).
  { change 0 with (Qfloor 0). apply Qfloor_resp_le.
    assert (P : (0 < ten ^ 18)%Q) by reflexivity. nra. }
  destruct (string_of_bigint_spec n Hn) as [A [V L]].
  destruct (padStart0_spec (string_of_bigint n) 19 A) as [Am [Vm [Lm _]]].
  set (m := padStart0 (string_of_bigint n) 19) in *.
  unfold slice, slice_from. rewrite Nat.sub_0_r.
  destruct (substring_split m (String.length m - 18)) as [E Li]; [lia |].
  set (i := substring 0 (String.length m - 18) m) in *.
  set (f := substring (String.length m - 18) (String.length m - (String.length m - 18)) m) in *.
  assert (Lf : String.length f = 18%nat).
  { assert (T : String.length (i ++ f) = String.length m) by (rewrite E; reflexivity).
    rewrite length_app in T. lia. }
  assert (Aif : all_digits i /\ all_digits f) by (apply all_digits_app_inv; rewrite E; exact Am).
  destruct Aif as [Ai Af].
  rewrite parseUnits_fixed; try assumption; [| lia].
  rewrite E, Vm, V. reflexivity.
Qed.

Example parseFloat_agrees_with_binary64 :
  parseFloat "0.1" = of_spec_float (binary64_div (binary64_of_Z 1) (binary64_of_Z 10)) /\
  parseFloat "1.05" = of_spec_float (binary64_div (binary64_of_Z 105) (binary64_of_Z 100)).
Proof. vm_compute. split; reflexivity. Qed.

(** Text produced by the number model, as an ECMAScript engine prints it. *)
Example number_text :
  toFixed (parseFloat "0.1") 18 = "0.100000000000000006" /\
  toFixed (parseFloat "1e21") 18 = "1e+21" /\
  toString (parseFloat "1e-7") = "1e-7" /\
  toString (parseFloat "0.000001") = "0.000001" /\
  toString (num_div (Number 1) (Number 3)) = "0.3333333333333333" /\
  toString (parseFloat "123456789012345680000") = "123456789012345680000" /\
  toString (parseFloat "1e23") = "1e+23".
Proof. vm_compute. repeat split. Qed.

Example parseUnits_text :
  parseUnits "1.5" 18 = Ok 1500000000000000000 /\
  parseUnits "0.0000000000000000001" 18 = Ok 0 /\
  parseUnits "0.0000000000000000005" 18 = Ok 1 /\
  parseUnits "0.9999999999999999995" 18 = Ok 1000000000000000000 /\
  parseUnits "12.3456" 2 = Ok 1235 /\
  parseUnits "1e+21" 18 = Throw /\
  parseUnits "NaN" 18 = Throw /\
  parseUnits "-" 18 = Ok 0 /\
  parseUnits "-" 0 = Throw /\
  parseUnits "-.5" 0 = Ok (-1) /\
  parseUnits ".5" 0 = Ok 1 /\
  parseUnits "" 0 = Ok 0.
Proof. vm_compute. repeat split. Qed.

End TextFacts.

(** ** Properties of the component *)

Import JsNumber JsString Viem Dashboard Scenarios.
Import JsNumberFacts TextFacts.
Local Open Scope string_scope.
Local Open Scope Z_scope.

Ltac step :=
  cbv beta iota delta [bind ret update current lift writeContract try_catch await].

(** Closed goals are settled by evaluation. *)
Ltac by_evaluation :=
  vm_compute; first [reflexivity | discriminate | intros; discriminate].

(** Discharges the hypotheses of an instantiated theorem by evaluation. *)
Ltac feed W :=
  repeat (cbv zeta in W;
          match type of W with
          | ?A -> _ =>
              let h := fresh "h" in
              assert (h : A) by by_evaluation; specialize (W h); clear h
          end).

(** *** Shared lemmas *)

Lemma div_nonzero a b : b <> 0 -> BigInt.div a b = Ok (Z.quot a b).
Proof.
  intros H. unfold BigInt.div. destruct (Z.eqb_spec b 0); [contradiction | reflexivity].
Qed.

Lemma scale_nonzero : ORACLE_PRICE_SCALE * WAD <> 0.
Proof. vm_compute. discriminate. Qed.

Lemma clamp_is_min a b : (if a >? b then b else a) = Z.min a b.
Proof. destruct (Z.gtb_spec a b); lia. Qed.

Lemma clamp_1000_not_negative : num_ltb num_1000 num_0 = false.
Proof. reflexivity. Qed.

Lemma num_1000_eq : num_1000 = Fin 1000.
Proof. reflexivity. Qed.

Lemma num_1e18_eq : num_1e18 = Fin (inject_Z (10 ^ 18)).
Proof. reflexivity. Qed.

(** With an oracle price and positive totals, [calculateHealthFactor]
    returns the specification's health factor of the totals. *)
Lemma calculateHealthFactor_totals (s : State) (newBorrowETH newCollateralKRW : number)
    (p eB nC nB : Z) :
  oraclePrice s = Some p -> p <> 0 ->
  parseUnits (toFixed (borrowAssets (userPosition s)) 18) 18 = Ok eB ->
  parseUnits (toFixed newCollateralKRW 18) 18 = Ok nC ->
  parseUnits (toFixed newBorrowETH 18) 18 = Ok nB ->
  0 < eB + nB -> 0 < collateral (userPosition s) + nC ->
  calculateHealthFactor s newBorrowETH newCollateralKRW =
    Ok (Some (Spec.healthFactor (collateral (userPosition s) + nC) (eB + nB) p)).
Proof.
  intros Hp Hp0 HeB HnC HnB HB HC.
  unfold calculateHealthFactor. rewrite Hp.
  destruct (Z.eqb_spec p 0) as [| _]; [contradiction |].
  rewrite HeB, HnC, HnB. cbn [result_bind].
  destruct (Z.leb_spec (eB + nB) 0) as [| _]; [lia |].
  destruct (Z.leb_spec (collateral (userPosition s) + nC) 0) as [| _]; [lia |].
  rewrite (div_nonzero _ _ scale_nonzero). cbn [result_bind].
  rewrite div_nonzero by lia. cbn [result_bind].
  unfold Spec.healthFactor, Spec.clamp, Spec.hfScaled, Spec.maxBorrow.
  destruct (negb _ || _); [reflexivity |].
  destruct (num_ltb _ _); reflexivity.
Qed.

(** The clamp preserves the order of non-negative numbers. *)
Lemma clamp_mono a b :
  num_leb num_0 a = true -> num_leb a b = true ->
  num_leb (Spec.clamp a) (Spec.clamp b) = true.
Proof.
  unfold Spec.clamp, num_gtb. rewrite num_0_eq, num_1000_eq.
  intros Ha Hab.
  destruct a as [ | | | qa]; destruct b as [ | | | qb]; cbn in Ha, Hab; try discriminate;
    cbn [isFinite negb orb num_ltb num_leb]; try reflexivity.
  - apply Qle_bool_iff in Ha.
    destruct (Qle_bool qa 1000) eqn:T; cbn [negb].
    + destruct (Qle_bool 0 qa) eqn:T0; cbn [negb num_leb]; [exact T |].
      apply Qle_bool_iff in Ha. congruence.
    + reflexivity.
  - apply Qle_bool_iff in Ha. apply Qle_bool_iff in Hab.
    assert (Hb : Qle_bool 0 qb = true) by (apply Qle_bool_iff; lra).
    assert (Ha' : Qle_bool 0 qa = true) by (apply Qle_bool_iff; lra).
    destruct (Qle_bool qa 1000) eqn:Ta; destruct (Qle_bool qb 1000) eqn:Tb;
      cbn [negb]; rewrite ?Ha', ?Hb; cbn [negb num_leb]; try reflexivity.
    + apply Qle_bool_iff. exact Hab.
    + exact Ta.
    + apply Qle_bool_iff in Tb.
      assert (C : Qle_bool qa 1000 = true) by (apply Qle_bool_iff; lra). congruence.
Qed.

(** From the WAD-scaled integer to the returned number, order is kept. *)
Lemma healthFactor_number_mono h h' :
  0 <= h -> h <= h' ->
  num_leb (Spec.clamp (num_div (Number h) num_1e18))
          (Spec.clamp (num_div (Number h') num_1e18)) = true.
Proof.
  intros H0 Hle. rewrite num_1e18_eq.
  assert (P : (0 < inject_Z (10 ^ 18))%Q) by reflexivity.
  apply clamp_mono.
  - change num_0 with (num_div (Number 0) (Fin (inject_Z (10 ^ 18)))).
    apply num_div_mono_l; [exact P |]. apply Number_mono. exact H0.
  - apply num_div_mono_l; [exact P |]. apply Number_mono. exact Hle.
Qed.

Lemma hfScaled_mono C B p C' B' :
  0 <= p -> 0 <= C -> C <= C' -> 0 < B' -> B' <= B ->
  0 <= Spec.hfScaled C B p /\ Spec.hfScaled C B p <= Spec.hfScaled C' B' p.
Proof.
  intros Hp HC HCC HB' HBB. unfold Spec.hfScaled, Spec.maxBorrow.
  assert (S : 0 < ORACLE_PRICE_SCALE * WAD) by reflexivity.
  assert (W : 0 < WAD) by reflexivity.
  assert (L : 0 <= LLTV) by discriminate.
  assert (M0 : 0 <= C * p * LLTV)
    by (apply Z.mul_nonneg_nonneg; [apply Z.mul_nonneg_nonneg |]; assumption).
  assert (M1 : C * p * LLTV <= C' * p * LLTV).
  { apply Z.mul_le_mono_nonneg_r; [assumption |]. apply Z.mul_le_mono_nonneg_r; assumption. }
  set (m := Z.quot (C * p * LLTV) (ORACLE_PRICE_SCALE * WAD)).
  set (m' := Z.quot (C' * p * LLTV) (ORACLE_PRICE_SCALE * WAD)).
  assert (Hm0 : 0 <= m) by (apply Z.quot_pos; assumption).
  assert (Hmm : m <= m') by (apply Z.quot_le_mono; assumption).
  split.
  - apply Z.quot_pos; [| lia]. apply Z.mul_nonneg_nonneg; lia.
  - transitivity (Z.quot (m * WAD) B').
    + apply Z.quot_le_compat_l; [apply Z.mul_nonneg_nonneg; lia | lia].
    + apply Z.quot_le_mono; [assumption |]. apply Z.mul_le_mono_nonneg_r; lia.
Qed.

Lemma checkBorrowerPosition_no_debt (s : State) (borrowerAddress : string) (shares coll : Z) :
  checkBorrowerPosition s borrowerAddress (Resolves (shares, 0, coll)) = None.
Proof.
  unfold checkBorrowerPosition.
  destruct (oraclePrice s); [| reflexivity].
  destruct (marketData s); [| reflexivity].
  destruct (_ || _); reflexivity.
Qed.

(** The write-error effect clears the step, the three buffers and shows a
    message. *)
Lemma writeErrorEffect_resets (s : State) (message : string) :
  writeError s = Some message ->
  let s' := fst (run writeErrorEffect s) in
  txStep s' = idle /\ approvedCollateralRef s' = 0 /\ borrowAmountRef s' = 0 /\
  isFullRepayRef s' = false /\ errorMessage s' <> None.
Proof.
  intros H. unfold run, writeErrorEffect. rewrite H. cbn.
  repeat split. discriminate.
Qed.

(** The transaction-error effect never touches the three buffers. *)
Lemma txErrorEffect_keeps_refs (s : State) :
  let s' := fst (run txErrorEffect s) in
  approvedCollateralRef s' = approvedCollateralRef s /\
  borrowAmountRef s' = borrowAmountRef s /\
  isFullRepayRef s' = isFullRepayRef s.
Proof.
  unfold run, txErrorEffect. destruct (isTxError s && is_some (txHash s)); cbn; repeat split.
Qed.

(** Whenever the debt converts to wei, the display effect stores what
    [calculateHealthFactor] returns for no extra borrow and collateral. *)
Lemma display_matches_gate (s : State) (w : Z) :
  parseUnits (toFixed (borrowAssets (userPosition s)) 18) 18 = Ok w ->
  exists v : option number,
    calculateHealthFactor s num_0 num_0 = Ok v /\
    currentHFEffect s s [] = (Ok tt, setCurrentHF v s, []).
Proof.
  intros P. unfold calculateHealthFactor, currentHFEffect.
  destruct (oraclePrice s) as [p |]; [| exists None; split; reflexivity].
  destruct (p =? 0) eqn:P0; [exists None; split; reflexivity |].
  rewrite P, toFixed_0_parse. cbn [result_bind negb andb].
  rewrite !Z.add_0_r.
  destruct (collateral (userPosition s) >? 0) eqn:Hc; cbn [andb].
  - destruct (num_gtb (borrowAssets (userPosition s)) num_0) eqn:Hb.
    + unfold bind, lift.
      destruct (w >? 0) eqn:Hw.
      * assert (E1 : (w <=? 0) = false) by lia.
        assert (E2 : (collateral (userPosition s) <=? 0) = false) by lia.
        rewrite E1, E2.
        rewrite !(div_nonzero _ _ scale_nonzero). cbn [result_bind].
        rewrite !(div_nonzero _ w) by lia. cbn [result_bind].
        set (hf := num_div (Number _) num_1e18).
        destruct (negb (isFinite hf) || num_gtb hf num_1000) eqn:Big.
        { exists (Some num_1000). split; [reflexivity |].
          rewrite clamp_1000_not_negative. reflexivity. }
        destruct (num_ltb hf num_0).
        { exists (Some num_0). split; reflexivity. }
        exists (Some hf). split; reflexivity.
      * assert (E1 : (w <=? 0) = true) by lia. rewrite E1.
        exists None. split; reflexivity.
    + pose proof (toFixed_nonpositive _ _ Hb P) as Hw.
      assert (E1 : (w <=? 0) = true) by lia. rewrite E1.
      exists None. split; reflexivity.
  - exists None. split; [| reflexivity].
    destruct (w <=? 0); [reflexivity |].
    assert (E2 : (collateral (userPosition s) <=? 0) = true) by lia.
    rewrite E2. reflexivity.
Qed.


Lemma num_1e21_eq : Spec.num_1e21 = Fin (inject_Z (10 ^ 21)).
Proof. vm_compute. reflexivity. Qed.

Lemma ten_pow_21 : (ten ^ 21 == inject_Z (10 ^ 21))%Q.
Proof. vm_compute. reflexivity. Qed.

(** An amount converts to wei. *)
Lemma amount_converts (x : number) :
  Spec.is_amount x -> exists w, parseUnits (toFixed x 18) 18 = Ok w.
Proof.
  unfold Spec.is_amount. rewrite num_0_eq, num_1e21_eq. intros [Lo Hi].
  destruct x as [ | | | q]; try discriminate.
  change (Qle_bool 0 q = true) in Lo.
  change (negb (Qle_bool (inject_Z (10 ^ 21)) q) = true) in Hi.
  apply Qle_bool_iff in Lo. apply negb_true_iff in Hi.
  assert (Lt : (q < ten ^ 21)%Q).
  { rewrite ten_pow_21. apply Qnot_le_lt. intro C.
    apply Qle_bool_iff in C. congruence. }
  eexists. apply toFixed_parseUnits; assumption.
Qed.

(** What the position effect stores. *)
Lemma positionEffect_value (s : State) (shares debtShares coll : Z) (m : MarketData) :
  positionData s = Some (shares, debtShares, coll) ->
  marketData s = Some m ->
  positionEffect s s [] =
    (Ok tt,
     setUserPosition
       (mkUserPosition shares debtShares coll
          (if totalSupplyShares m >? 0
           then num_div (Number (Z.quot (shares * totalSupplyAssets m) (totalSupplyShares m)))
                        num_1e18
           else num_0)
          (if totalBorrowShares m >? 0
           then num_div (Number (Z.quot (debtShares * totalBorrowAssets m) (totalBorrowShares m)))
                        num_1e18
           else num_0)) s,
     []).
Proof.
  intros Hp Hm. unfold positionEffect. rewrite Hp, Hm. step.
  destruct (Z.gtb_spec (totalSupplyShares m) 0) as [Hs | Hs];
    destruct (Z.gtb_spec (totalBorrowShares m) 0) as [Hb | Hb];
    rewrite ?(div_nonzero _ (totalSupplyShares m)) by lia;
    rewrite ?(div_nonzero _ (totalBorrowShares m)) by lia;
    reflexivity.
Qed.

(** A debt of at most [1e38] wei, converted to a number of tokens, is an
    amount. *)
Lemma wei_below_1e38_is_amount (z : Z) :
  0 <= z <= 10 ^ 38 -> Spec.is_amount (num_div (Number z) num_1e18).
Proof.
  intros [Lo Hi]. rewrite num_1e18_eq.
  assert (P : (0 < inject_Z (10 ^ 18))%Q) by reflexivity.
  pose proof (num_div_mono_l _ _ _ P (Number_mono 0 z Lo)) as L.
  pose proof (num_div_mono_l _ _ _ P (Number_mono z (10 ^ 38) Hi)) as U.
  replace (num_div (Number 0) (Fin (inject_Z (10 ^ 18)))) with (Fin 0) in L
    by (vm_compute; reflexivity).
  replace (num_div (Number (10 ^ 38)) (Fin (inject_Z (10 ^ 18))))
    with (Fin (inject_Z (10 ^ 20))) in U by (vm_compute; reflexivity).
  unfold Spec.is_amount. rewrite num_0_eq, num_1e21_eq.
  destruct (num_div (Number z) (Fin (inject_Z (10 ^ 18)))) as [ | | | q];
    try discriminate.
  split; [exact L |].
  change (negb (Qle_bool (inject_Z (10 ^ 21)) q) = true).
  change (Qle_bool q (inject_Z (10 ^ 20)) = true) in U.
  apply Qle_bool_iff in U. apply negb_true_iff.
  destruct (Qle_bool (inject_Z (10 ^ 21)) q) eqn:T; [| reflexivity].
  apply Qle_bool_iff in T.
  assert (C : (inject_Z (10 ^ 20) < inject_Z (10 ^ 21))%Q) by reflexivity.
  lra.
Qed.

(** The debt stored by the position effect is an amount whenever the
    chain reports a debt of at most [1e38] wei. *)
Lemma position_debt_is_amount (s : State) (shares debtShares coll : Z) (m : MarketData) :
  positionData s = Some (shares, debtShares, coll) ->
  marketData s = Some m ->
  0 <= Z.quot (debtShares * totalBorrowAssets m) (totalBorrowShares m) <= 10 ^ 38 ->
  Spec.is_amount (borrowAssets (userPosition (fst (run positionEffect s)))).
Proof.
  intros Hp Hm B. unfold run.
  rewrite (positionEffect_value s shares debtShares coll m Hp Hm).
  cbn [fst userPosition setUserPosition borrowAssets].
  destruct (totalBorrowShares m >? 0).
  - apply wei_below_1e38_is_amount. exact B.
  - split; vm_compute; reflexivity.
Qed.

(** Typing a borrow amount stores the health factor of the existing
    position combined with the typed borrow and the typed collateral. *)
Lemma simulate_stores_health_factor (value : string) (s : State) (hf : option number) :
  is_empty value = false -> num_eqb (parseFloat value) num_0 = false ->
  selection s = Some UPETH_BORROW ->
  calculateHealthFactor s (parseFloat value) (parseFloat_or_0 (collateralAmount s)) = Ok hf ->
  simulatedHF (fst (run (simulate value) s)) = hf.
Proof.
  intros He Hz Hs Hc. unfold run, simulate. step.
  rewrite He, Hz, Hs, Hc. reflexivity.
Qed.

(** [calculateHealthFactor] reads the oracle price and the position, and
    nothing else of the state. *)
Lemma calculateHealthFactor_reads (s s' : State) (b c : number) :
  oraclePrice s' = oraclePrice s -> userPosition s' = userPosition s ->
  calculateHealthFactor s' b c = calculateHealthFactor s b c.
Proof. intros Ho Hu. unfold calculateHealthFactor. rewrite Ho, Hu. reflexivity. Qed.

(** A stored simulated health factor below 1.0 disables the button of the
    borrow panel, and a press then hands nothing to the wallet. *)
Lemma stored_health_factor_gate (fresh : ChainRead (Z * Z * Z)) (s : State) (hf : number) :
  selection s = Some UPETH_BORROW -> actionMode s = supply ->
  simulatedHF s = Some hf -> num_ltb hf num_1 = true ->
  isButtonDisabled s = true /\ pressSubmit fresh s s [] = (Ok tt, s, []).
Proof.
  intros Hs Hm Hhf Hlt.
  assert (D : isButtonDisabled s = true).
  { unfold isButtonDisabled. rewrite Hs, Hm, Hhf, Hlt.
    cbn [is_selected Market_eqb ActionMode_eqb andb].
    repeat match goal with |- (if ?c then _ else _) = _ => destruct c; try reflexivity end. }
  split; [exact D |]. unfold pressSubmit. rewrite D. reflexivity.
Qed.

(** Without text in the amount field, or with text that reads as zero, the
    button is disabled. *)
Lemma no_amount_gate (fresh : ChainRead (Z * Z * Z)) (s : State) :
  is_empty (inputAmount s) || num_eqb (parseFloat (inputAmount s)) num_0 = true ->
  isButtonDisabled s = true /\ pressSubmit fresh s s [] = (Ok tt, s, []).
Proof.
  intros H.
  assert (L : is_empty (inputAmount s) || num_leb (parseFloat (inputAmount s)) num_0 = true).
  { destruct (is_empty (inputAmount s)); [reflexivity |]. cbn [orb] in *.
    destruct (parseFloat (inputAmount s)) as [ | | | q]; try discriminate H.
    rewrite num_0_eq in *. cbn in *. apply Qeq_bool_iff in H. apply Qle_bool_iff.
    rewrite H. apply Qle_refl. }
  assert (D : isButtonDisabled s = true).
  { unfold isButtonDisabled. rewrite L.
    repeat match goal with |- (if ?c then _ else _) = _ => destruct c; try reflexivity end. }
  split; [exact D |]. unfold pressSubmit. rewrite D. reflexivity.
Qed.

(** *** The claims *)




(** C2.  In every state whose debt is an amount (a non-negative number
    below 1e21), the health factor the display effect stores in
    [currentHF] is the value [calculateHealthFactor] returns for no extra
    borrow and no extra collateral: both are undefined or both are the
    same number. *)
Theorem display_hf_is_gate_hf (s : State) :
  Spec.is_amount (borrowAssets (userPosition s)) ->
  exists v : option number,
    calculateHealthFactor s num_0 num_0 = Ok v /\
    currentHFEffect s s [] = (Ok tt, setCurrentHF v s, []).
Proof.
  intros A. destruct (amount_converts _ A) as [w P].
  exact (display_matches_gate s w P).
Qed.

Lemma display_hf_is_gate_hf_witness :
  exists v : option number,
    calculateHealthFactor debtor num_0 num_0 = Ok v /\
    currentHFEffect debtor debtor [] = (Ok tt, setCurrentHF v debtor, []).
Proof.
  apply (display_hf_is_gate_hf debtor). split; by_evaluation.
Defined.

(** C3.  With an oracle price, a positive total borrow and a positive
    total collateral, [calculateHealthFactor] returns
    [(totalCollateral * oraclePrice * lltv / (ORACLE_SCALE * WAD)) * WAD / totalBorrow]
    converted to a number and divided by 1e18, where a non-finite result
    or one above 1000 becomes 1000 and a negative one becomes 0. *)
Theorem health_factor_formula (s : State) (newBorrowETH newCollateralKRW : number)
    (oracle existingBorrow extraCollateral extraBorrow : Z) :
  oraclePrice s = Some oracle -> oracle <> 0 ->
  parseUnits (toFixed (borrowAssets (userPosition s)) 18) 18 = Ok existingBorrow ->
  parseUnits (toFixed newCollateralKRW 18) 18 = Ok extraCollateral ->
  parseUnits (toFixed newBorrowETH 18) 18 = Ok extraBorrow ->
  let totalCollateral := collateral (userPosition s) + extraCollateral in
  let totalBorrow := existingBorrow + extraBorrow in
  0 < totalBorrow -> 0 < totalCollateral ->
  let maxBorrow := Z.quot (totalCollateral * oracle * LLTV) (ORACLE_PRICE_SCALE * WAD) in
  let hf := num_div (Number (Z.quot (maxBorrow * WAD) totalBorrow)) num_1e18 in
  calculateHealthFactor s newBorrowETH newCollateralKRW =
    Ok (Some (if negb (isFinite hf) || num_gtb hf num_1000 then num_1000
              else if num_ltb hf num_0 then num_0
              else hf)).
Proof.
  intros Hp Hp0 HeB HnC HnB totalCollateral totalBorrow HB HC maxBorrow hf.
  exact (calculateHealthFactor_totals s newBorrowETH newCollateralKRW
           oracle existingBorrow extraCollateral extraBorrow Hp Hp0 HeB HnC HnB HB HC).
Qed.

(** The safe borrow of the specification: 5 UPETH against 50,000,000
    UPKRW gives a health factor of about 2.01. *)
Lemma health_factor_formula_witness :
  calculateHealthFactor (collateralOnly (Some price)) (parseFloat "5") num_0
    = Ok (Some (num_div (Number 2014892685063512708) num_1e18)).
Proof.
  assert (W := health_factor_formula (collateralOnly (Some price)) (parseFloat "5") num_0
                 price 0 0 (ether 5)).
  feed W. vm_compute in W. vm_compute. exact W.
Defined.

(** Where the debt of the freshly fetched position converts to wei, the
    liquidation is sized as the specification says: the requested
    repayment is clamped to the borrower's debt, the seize amount is
    [repayAmount * ORACLE_SCALE * 105 / (oraclePrice * 100)] clamped to
    the posted collateral, a result of zero aborts with an error and no
    transaction, and otherwise 95/100 of it is submitted. *)
Lemma liquidation_sizing (s : State) (read : ChainRead (Z * Z * Z))
    (selected freshPosition : LiquidatablePosition) (oracle requested debt : Z) :
  selectedBorrower s = Some selected ->
  is_empty (liquidateAmount s) = false ->
  oraclePrice s = Some oracle -> oracle <> 0 ->
  checkBorrowerPosition s (lp_borrower selected) read = Some freshPosition ->
  parseUnits (liquidateAmount s) 18 = Ok requested ->
  parseUnits (toString (lp_borrowAssets freshPosition)) 18 = Ok debt ->
  let repayAmount := Z.min requested debt in
  let seizeAmount :=
    Z.min (Spec.seizeAmount repayAmount oracle) (lp_collateral freshPosition) in
  executeLiquidationAfterApprove read s s [] =
    if seizeAmount =? 0
    then (Ok tt,
          setLiquidateTxStep liq_idle (setErrorMessage (Some "No collateral to seize") s),
          [])
    else (Ok tt,
          setLiquidateTxStep liq_liquidating s,
          [mkWrite ADDRESSES.MORPHO
             (fn_liquidate (lp_borrower selected) (Z.quot (seizeAmount * 95) 100) 0)]).
Proof.
  intros Hsel Hamt Hp Hp0 Hfresh Hreq Hdebt repayAmount seizeAmount.
  unfold executeLiquidationAfterApprove. rewrite Hsel, Hp, Hamt, Hfresh.
  destruct (Z.eqb_spec oracle 0) as [| _]; [contradiction |].
  cbn [orb]. step. rewrite Hreq, Hdebt.
  rewrite div_nonzero by lia.
  rewrite !clamp_is_min.
  fold repayAmount.
  change (Z.quot (repayAmount * ORACLE_PRICE_SCALE * 105) (oracle * 100))
    with (Spec.seizeAmount repayAmount oracle).
  fold seizeAmount. destruct (seizeAmount =? 0); reflexivity.
Qed.

(** The liquidation clamp of the specification: a request of 5 UPETH on a
    debt of 2 UPETH is clamped to 2 UPETH, the seize amount to the
    9,000,000 UPKRW posted, and 95% of that is submitted. *)
Lemma liquidation_sizing_witness :
  executeLiquidationAfterApprove (Resolves borrowerXPosition) liquidator liquidator [] =
    (Ok tt,
     setLiquidateTxStep liq_liquidating liquidator,
     [mkWrite ADDRESSES.MORPHO (fn_liquidate borrowerX (ether 8550000) 0)]).
Proof.
  assert (W := liquidation_sizing liquidator (Resolves borrowerXPosition)
                 borrowerXListed borrowerXListed price (ether 5) (ether 2)).
  feed W. vm_compute in W. vm_compute. exact W.
Defined.

(** C4.  The code misses the claim when the debt of the freshly fetched
    position is below 0.000001 UPETH: the debt is converted to wei from
    the text [toString] gives, which is then in exponent notation, and
    the conversion throws.  With 5 UPETH requested, a fresh debt of
    0.0000005 UPETH and 2 UPKRW of collateral, the claim has the repayment
    clamped to the debt and 95/100 of the 2 UPKRW submitted; the execution
    step ends by the exception instead, with no transaction, no message
    and the step left at [approving]. *)
Theorem dust_fresh_debt_stalls_liquidation :
  let s := approvalConfirmed in
  let read := Resolves borrowerXDust in
  let fresh :=
    mkLiquidatablePosition borrowerX (ether 2) (5 * 10 ^ 11 * 10 ^ 6)
      (num_div (Number (5 * 10 ^ 11)) num_1e18)
      (num_div (Number (Spec.hfScaled (ether 2) (5 * 10 ^ 11) price)) num_1e18)
      (ether 2) num_1_05 in
  isTxSuccess s = true /\ liquidateTxStep s = liq_approving /\
  parseUnits (liquidateAmount s) 18 = Ok (ether 5) /\
  checkBorrowerPosition s borrowerX read = Some fresh /\
  toString (lp_borrowAssets fresh) = "5e-7" /\
  parseUnits (toString (lp_borrowAssets fresh)) 18 = Throw /\
  Z.min (Spec.seizeAmount (Z.min (ether 5) (5 * 10 ^ 11)) price) (lp_collateral fresh)
    = ether 2 /\
  completes (liquidationSuccessEffect read) s = false /\
  run (liquidationSuccessEffect read) s = (s, []).
Proof. vm_compute. repeat split. Qed.

(** C5 (amended).  A repay initiation sets the full-repayment flag exactly
    when the entered amount is at least the known debt in wei and
    requests the approval.  When the entered amount is not zero wei, the
    execution step after approval calls repay with [assets = 0] and
    [shares = borrowShares] if the flag is set, and with [assets] the
    entered amount and [shares = 0] if it is not. *)
Theorem repay_flow (fresh : ChainRead (Z * Z * Z)) (s : State) (account : string)
    (amount debt : Z) :
  isConnected s = true -> address s = Some account ->
  selection s = Some UPETH_BORROW ->
  is_empty (inputAmount s) = false ->
  parseUnits (inputAmount s) 18 = Ok amount ->
  parseUnits (toFixed (borrowAssets (userPosition s)) 18) 18 = Ok debt ->
  let full := amount >=? debt in
  executeWithdraw fresh s s [] =
    (Ok tt,
     setTxStep approving (set_approvedCollateralRef amount (set_isFullRepayRef full s)),
     [mkWrite ADDRESSES.UPETH
        (fn_approve ADDRESSES.MORPHO (if full then amount + Z.quot amount 100 else amount))]) /\
  forall (s2 : State) (account2 : string),
    isConnected s2 = true -> address s2 = Some account2 ->
    selection s2 = Some UPETH_BORROW -> actionMode s2 = withdraw ->
    approvedCollateralRef s2 = amount -> isFullRepayRef s2 = full ->
    amount <> 0 ->
    executeAfterApprove s2 s2 [] =
      (Ok tt,
       setTxStep executing s2,
       [mkWrite ADDRESSES.MORPHO
          (if full then fn_repay 0 (borrowShares (userPosition s2)) account2
           else fn_repay amount 0 account2)]).
Proof.
  intros Hc Ha Hs He Hp Hd full. split.
  - unfold executeWithdraw. rewrite Hs, Ha, Hc, He. cbn [negb orb]. step.
    rewrite Hp, Hd. fold full. destruct full; reflexivity.
  - intros s2 account2 Hc2 Ha2 Hs2 Hm2 Hamt Hfull Hnz.
    unfold executeAfterApprove. rewrite Hs2, Ha2, Hc2, Hm2. cbn [negb]. step.
    rewrite Hamt. destruct (Z.eqb_spec amount 0) as [| _]; [contradiction |].
    cbn [ActionMode_eqb Market_eqb andb].
    replace (isFullRepayRef (setTxStep executing s2)) with full
      by (rewrite <- Hfull; reflexivity).
    destruct full; reflexivity.
Qed.

(** The full repay of the specification: with a debt of 3 UPETH and the
    input "3.0" the flag is set, and after the approval is confirmed
    repay is called with [assets = 0] and the borrow shares. *)
Lemma repay_flow_witness :
  let s1 := after (pressSubmit Rejects) (repayPanel "3.0") in
  let s2 := after txSuccessEffect (receiptConfirmed (walletSubmitted "0xabc" s1)) in
  isFullRepayRef s1 = true /\
  executeAfterApprove s2 s2 [] =
    (Ok tt, setTxStep executing s2,
     [mkWrite ADDRESSES.MORPHO (fn_repay 0 (ether 3 * 10 ^ 6) user)]).
Proof.
  intros s1 s2.
  assert (W := repay_flow Rejects (repayPanel "3.0") user (ether 3) (ether 3)).
  feed W. destruct W as [Init Exec].
  split; [by_evaluation |].
  specialize (Exec s2 user). feed Exec.
  vm_compute in Exec. vm_compute. exact Exec.
Defined.

(** C5, as stated, fails: an input of a tenth of a wei passes the button's
    checks and parses to zero wei; the flag is not set, the approval is
    requested, and after its confirmation the execution step calls no
    repay at all. *)
Lemma zero_wei_repay_never_executes :
  let s := repayPanel "0.0000000000000000001" in
  let s1 := after (pressSubmit Rejects) s in
  let s2 := after txSuccessEffect (receiptConfirmed (walletSubmitted "0xabc" s1)) in
  isButtonDisabled s = false /\
  parseUnits (inputAmount s) 18 = Ok 0 /\
  snd (run (pressSubmit Rejects) s)
    = [mkWrite ADDRESSES.UPETH (fn_approve ADDRESSES.MORPHO 0)] /\
  isFullRepayRef s1 = false /\
  txStep s2 = approved /\ isButtonDisabled s2 = false /\
  snd (run (pressSubmit Rejects) s2) = [].
Proof. vm_compute. repeat split. Qed.

(** C6.  With position and market data present the position effect
    completes without an exception; for each side, when the total shares
    are positive the asset amount is [shares * totalAssets / totalShares]
    in truncating integer arithmetic, converted to a number and divided by
    1e18 last, and when the total shares are zero it is 0. *)
Theorem position_accounting (s : State) (shares debtShares coll : Z) (m : MarketData) :
  positionData s = Some (shares, debtShares, coll) ->
  marketData s = Some m ->
  exists supplied borrowed : number,
    positionEffect s s [] =
      (Ok tt, setUserPosition (mkUserPosition shares debtShares coll supplied borrowed) s, []) /\
    (0 < totalSupplyShares m ->
       supplied =
         num_div (Number (Z.quot (shares * totalSupplyAssets m) (totalSupplyShares m)))
                 num_1e18) /\
    (totalSupplyShares m = 0 -> supplied = num_0) /\
    (0 < totalBorrowShares m ->
       borrowed =
         num_div (Number (Z.quot (debtShares * totalBorrowAssets m) (totalBorrowShares m)))
                 num_1e18) /\
    (totalBorrowShares m = 0 -> borrowed = num_0).
Proof.
  intros Hp Hm. eexists. eexists.
  split; [exact (positionEffect_value s shares debtShares coll m Hp Hm) |].
  destruct (Z.gtb_spec (totalSupplyShares m) 0);
    destruct (Z.gtb_spec (totalBorrowShares m) 0);
    repeat split; intros; try reflexivity; lia.
Qed.

(** The zero-division guard of the specification: a market without any
    supply shares, in which the user owes 3 UPETH. *)
Lemma position_accounting_witness :
  let emptySupply := mkMarketData 0 0 (ether 40) (ether 40 * 10 ^ 6) 0 0 in
  let s :=
    mkState true (Some user) true (Some emptySupply) (Some price)
      (Some (0, ether 3 * 10 ^ 6, ether 50000000))
      None None false false false None supply "" "" None status_idle idle 0 0 false
      num_0 num_0 (mkUserPosition 0 0 0 num_0 num_0) None [] "" false None "" liq_idle None in
  exists supplied borrowed : number,
    positionEffect s s [] =
      (Ok tt,
       setUserPosition (mkUserPosition 0 (ether 3 * 10 ^ 6) (ether 50000000) supplied borrowed) s,
       []) /\
    supplied = num_0 /\ borrowed = lit 3.
Proof.
  intros emptySupply s.
  destruct (position_accounting s 0 (ether 3 * 10 ^ 6) (ether 50000000) emptySupply
              eq_refl eq_refl)
    as [supplied [borrowed [Run [_ [Zero [Pos _]]]]]].
  exists supplied, borrowed. split; [exact Run |]. split.
  - apply Zero. reflexivity.
  - rewrite Pos by by_evaluation. by_evaluation.
Defined.

(** C7.  The code misses the claim on the revert path: after a receipt
    that reports a failure, the transaction-error effect returns the step
    to [idle] and shows a message but leaves the approved-collateral
    buffer, the borrow-amount buffer and the full-repay flag as they
    were. *)
Theorem chain_revert_keeps_buffers :
  let reverted := after txErrorEffect (receiptFailed borrowInFlight) in
  let reverted' := after txErrorEffect (receiptFailed repayInFlight) in
  txStep reverted = idle /\
  errorMessage reverted = Some "Transaction failed on chain" /\
  approvedCollateralRef reverted = ether 1000000 /\
  borrowAmountRef reverted = ether 5 /\
  txStep reverted' = idle /\
  approvedCollateralRef reverted' = ether 3 /\
  isFullRepayRef reverted' = true.
Proof. vm_compute. repeat split. Qed.

(** C8 (amended).  A collateral withdrawal checked against the freshly
    fetched position with a non-zero debt is refused, with a message and
    no transaction, when the requested amount reaches or exceeds the
    posted collateral; and also when the oracle price and the market
    totals are available, the debt in assets exceeds 0.0001 UPETH, and
    the debt exceeds the maximal borrow of the collateral that would
    remain. *)
Theorem collateral_withdrawal_guard (s : State) (account : string)
    (amount supplied debtShares posted : Z) :
  isConnected s = true -> address s = Some account ->
  selection s = Some UPKRW -> publicClient s = true ->
  is_empty (inputAmount s) = false ->
  parseUnits (inputAmount s) 18 = Ok amount ->
  0 < debtShares ->
  let outcome := executeWithdraw (Resolves (supplied, debtShares, posted)) s s [] in
  (posted <= amount -> exists msg, outcome = Spec.rejected msg s) /\
  (forall (oracle : Z) (m : MarketData),
     amount < posted ->
     oraclePrice s = Some oracle -> oracle <> 0 ->
     marketData s = Some m -> totalBorrowShares m <> 0 ->
     let debt := Z.quot (debtShares * totalBorrowAssets m) (totalBorrowShares m) in
     10 ^ 14 < debt ->
     Spec.maxBorrow (posted - amount) oracle < debt ->
     exists msg, outcome = Spec.rejected msg s).
Proof.
  intros Hc Ha Hs Hpc He Hp Hshares outcome.
  split.
  - intros Hle. unfold outcome, executeWithdraw.
    rewrite Hs, Ha, Hc, He, Hpc. cbn [negb orb]. step. rewrite Hp.
    replace ((debtShares >? 0) && (amount >=? posted)) with true
      by (symmetry; apply andb_true_intro; split; lia).
    eexists. reflexivity.
  - intros oracle m Hlt Hpr Hpr0 Hm Htbs debt Hdust Hmax.
    unfold outcome, executeWithdraw.
    rewrite Hs, Ha, Hc, He, Hpc. cbn [negb orb]. step. rewrite Hp.
    replace ((debtShares >? 0) && (amount >=? posted)) with false
      by (symmetry; apply andb_false_intro2; lia).
    replace (amount >? posted) with false by lia.
    destruct (Z.eqb_spec amount 0) as [Z0 | NZ]; [eexists; reflexivity |].
    rewrite Hpr, Hm.
    replace (debtShares >? 0) with true by lia.
    destruct (Z.eqb_spec oracle 0) as [| _]; [contradiction |]. cbn [negb andb].
    rewrite div_nonzero by assumption. fold debt. step.
    change (parseUnits "0.0001" 18) with (Ok (10 ^ 14)). step.
    destruct (Z.gtb_spec debt (10 ^ 14)) as [_ | C]; [| lia].
    rewrite (div_nonzero _ _ scale_nonzero). step.
    change (Z.quot ((posted - amount) * oracle * LLTV) (ORACLE_PRICE_SCALE * WAD))
      with (Spec.maxBorrow (posted - amount) oracle).
    destruct (Z.gtb_spec debt (Spec.maxBorrow (posted - amount) oracle)) as [_ | C]; [| lia].
    eexists. reflexivity.
Qed.

(** With a debt of 3 UPETH, withdrawing 40,000,000 of the 50,000,000
    UPKRW posted would leave room for about 2.01 UPETH only: refused. *)
Lemma collateral_withdrawal_guard_witness :
  let s := withdrawCollateralPanel debtor "40000000" in
  exists msg,
    executeWithdraw (Resolves (0, ether 3 * 10 ^ 6, ether 50000000)) s s []
      = Spec.rejected msg s.
Proof.
  intros s.
  assert (W := collateral_withdrawal_guard s user (ether 40000000) 0 (ether 3 * 10 ^ 6)
                 (ether 50000000)).
  feed W. destruct W as [_ Solvency].
  specialize (Solvency price market). feed Solvency.
  exact Solvency.
Defined.

(** C8, as stated, fails: a debt of 0.00005 UPETH counts as dust and the
    solvency check is skipped, so a withdrawal that leaves 1 UPKRW of
    collateral, far too little for the debt, is sent to the wallet. *)
Lemma dust_debt_skips_solvency_check :
  let s := withdrawCollateralPanel dustDebtor "999" in
  let debt :=
    Z.quot (5 * 10 ^ 13 * 10 ^ 6 * totalBorrowAssets market) (totalBorrowShares market) in
  debt = 5 * 10 ^ 13 /\
  Spec.maxBorrow (ether 1000 - ether 999) price < debt /\
  isButtonDisabled s = false /\
  snd (run (pressSubmit (Resolves dustDebtorPosition)) s)
    = [mkWrite ADDRESSES.MORPHO (fn_withdrawCollateral (ether 999) user user)].
Proof. vm_compute. repeat split. Qed.

(** C9.  At a fixed positive oracle price, the health factor returned by
    [calculateHealthFactor] does not decrease when the total collateral
    grows and the total borrow shrinks: it is monotonically increasing in
    the total collateral and monotonically decreasing in the total
    borrow. *)
Theorem health_factor_monotone
    (s s' : State) (newBorrowETH newCollateralKRW newBorrowETH' newCollateralKRW' : number)
    (oracle eB nC nB eB' nC' nB' : Z) :
  oraclePrice s = Some oracle -> oraclePrice s' = Some oracle -> 0 < oracle ->
  parseUnits (toFixed (borrowAssets (userPosition s)) 18) 18 = Ok eB ->
  parseUnits (toFixed newCollateralKRW 18) 18 = Ok nC ->
  parseUnits (toFixed newBorrowETH 18) 18 = Ok nB ->
  parseUnits (toFixed (borrowAssets (userPosition s')) 18) 18 = Ok eB' ->
  parseUnits (toFixed newCollateralKRW' 18) 18 = Ok nC' ->
  parseUnits (toFixed newBorrowETH' 18) 18 = Ok nB' ->
  0 < collateral (userPosition s) + nC ->
  collateral (userPosition s) + nC <= collateral (userPosition s') + nC' ->
  0 < eB' + nB' ->
  eB' + nB' <= eB + nB ->
  exists hf hf' : number,
    calculateHealthFactor s newBorrowETH newCollateralKRW = Ok (Some hf) /\
    calculateHealthFactor s' newBorrowETH' newCollateralKRW' = Ok (Some hf') /\
    num_leb hf hf' = true.
Proof.
  intros Hp Hp' Hpos HeB HnC HnB HeB' HnC' HnB' HC HCC HB' HBB.
  eexists. eexists. split; [| split].
  - apply (calculateHealthFactor_totals s _ _ oracle eB nC nB); try assumption; lia.
  - apply (calculateHealthFactor_totals s' _ _ oracle eB' nC' nB'); try assumption; lia.
  - unfold Spec.healthFactor.
    destruct (hfScaled_mono (collateral (userPosition s) + nC) (eB + nB) oracle
                (collateral (userPosition s') + nC') (eB' + nB')) as [H0 Hle]; try lia.
    apply healthFactor_number_mono; assumption.
Qed.

(** Borrowing 12 UPETH against the collateral gives no better a health
    factor than borrowing 5 UPETH against it. *)
Lemma health_factor_monotone_witness :
  exists hf hf' : number,
    calculateHealthFactor (collateralOnly (Some price)) (parseFloat "12") num_0 = Ok (Some hf) /\
    calculateHealthFactor (collateralOnly (Some price)) (parseFloat "5") num_0 = Ok (Some hf') /\
    num_leb hf hf' = true.
Proof.
  apply (health_factor_monotone (collateralOnly (Some price)) (collateralOnly (Some price))
           (parseFloat "12") num_0 (parseFloat "5") num_0
           price 0 0 (ether 12) 0 0 (ether 5)); by_evaluation.
Defined.

(** C10.  For a borrower whose borrow shares are zero
    [checkBorrowerPosition] returns [null]; checking such a borrower, or
    refreshing it after a liquidation, leaves the list of liquidatable
    positions as it was: nothing is added and no entry is overwritten. *)
Theorem debt_free_borrower_not_listed (s : State) (borrowerAddress : string)
    (shares coll : Z) :
  checkBorrowerPosition s borrowerAddress (Resolves (shares, 0, coll)) = None /\
  liquidatablePositions (fst (run (handleCheckBorrower (Resolves (shares, 0, coll))) s))
    = liquidatablePositions s /\
  liquidatablePositions (fst (run (refreshLiquidated (Resolves (shares, 0, coll))) s))
    = liquidatablePositions s.
Proof.
  split; [apply checkBorrowerPosition_no_debt |]. split.
  - unfold run, handleCheckBorrower.
    destruct (is_empty (borrowerToCheck s)); [reflexivity |].
    rewrite checkBorrowerPosition_no_debt. reflexivity.
  - unfold run, refreshLiquidated.
    destruct (selectedBorrower s); [| reflexivity].
    rewrite checkBorrowerPosition_no_debt. reflexivity.
Qed.

(** ** Further properties of the component

    Properties of the orchestrator, the health-factor engine, the
    liquidation page and the display helpers that the code shows beyond
    the claims above. *)

(** Projections of an updated state. *)
Ltac fields :=
  cbn [isConnected address publicClient marketData oraclePrice positionData txHash
       writeError isTxPending isTxSuccess isTxError selection actionMode inputAmount
       collateralAmount simulatedHF executionStatus txStep approvedCollateralRef
       borrowAmountRef isFullRepayRef upethBalance upkrwBalance userPosition currentHF
       liquidatablePositions borrowerToCheck isLoadingPositions selectedBorrower
       liquidateAmount liquidateTxStep errorMessage
       setSelection setActionMode setInputAmount setCollateralAmount setSimulatedHF
       setExecutionStatus setTxStep set_approvedCollateralRef set_borrowAmountRef
       set_isFullRepayRef setUserPosition setCurrentHF setLiquidatablePositions
       setBorrowerToCheck setIsLoadingPositions setSelectedBorrower setLiquidateAmount
       setLiquidateTxStep setErrorMessage setUpethBalance setUpkrwBalance resetWrite
       walletSubmitted walletRejected receiptConfirmed receiptFailed fst snd].

(** Case analysis along the branches of a handler, innermost test first. *)
Ltac branch :=
  match goal with
  | |- context [match ?x with _ => _ end] =>
      lazymatch x with
      | context [match _ with _ => _ end] => fail
      | _ => destruct x eqn:?
      end
  end.

Ltac branch_result :=
  match goal with
  | |- context [result_bind ?r _] =>
      lazymatch r with
      | context [result_bind _ _] => fail
      | context [match _ with _ => _ end] => fail
      | _ => destruct r eqn:?; cbn [result_bind]
      end
  end.

Ltac unfold_actions :=
  cbv beta iota zeta delta [bind ret update current lift writeContract try_catch await].

Ltac branches := repeat (unfold_actions; fields; cbn [result_bind app]; try branch).

(** *** Shared lemmas *)

Lemma margin_mono (a b : Z) : a <= b -> a + Z.quot a 100 <= b + Z.quot b 100.
Proof. intros H. pose proof (Z.quot_le_mono a b 100 ltac:(lia) H). lia. Qed.

(** [checkBorrowerPosition] reads the oracle price, the market totals and
    the client, and nothing else of the state. *)
Lemma checkBorrowerPosition_reads (s s' : State) (a : string) (read : ChainRead (Z * Z * Z)) :
  oraclePrice s' = oraclePrice s -> marketData s' = marketData s ->
  publicClient s' = publicClient s ->
  checkBorrowerPosition s' a read = checkBorrowerPosition s a read.
Proof. intros Ho Hm Hc. unfold checkBorrowerPosition. rewrite Ho, Hm, Hc. reflexivity. Qed.

(** A number that passes both clamping tests is finite and lies between 0
    and 1000. *)
Lemma clamped_in_range (hf : number) :
  negb (isFinite hf) || num_gtb hf num_1000 = false -> num_ltb hf num_0 = false ->
  isFinite hf = true /\ num_leb num_0 hf = true /\ num_leb hf num_1000 = true.
Proof.
  rewrite num_1000_eq, num_0_eq. intros A B.
  destruct hf as [ | | | q]; try discriminate A.
  apply orb_false_iff in A. destruct A as [_ A].
  change (negb (Qle_bool q 1000) = false) in A.
  change (negb (Qle_bool 0 q) = false) in B.
  apply negb_false_iff in A. apply negb_false_iff in B.
  repeat split; assumption.
Qed.

Lemma bounds_in_range :
  (isFinite num_1000 = true /\ num_leb num_0 num_1000 = true
   /\ num_leb num_1000 num_1000 = true) /\
  (isFinite num_0 = true /\ num_leb num_0 num_0 = true /\ num_leb num_0 num_1000 = true).
Proof. vm_compute. repeat split. Qed.

Ltac in_range :=
  lazymatch goal with
  | |- isFinite num_1000 = true /\ _ => exact (proj1 bounds_in_range)
  | |- isFinite num_0 = true /\ _ => exact (proj2 bounds_in_range)
  | _ => apply clamped_in_range; assumption
  end.

(** Rounding does not depend on the fraction that denotes the rational. *)
Lemma rnd_pos_value_proper x y : (0 < x)%Q -> (x == y)%Q -> rnd_pos_value x = rnd_pos_value y.
Proof.
  intros Hx E.
  assert (Hy : (0 < y)%Q) by lra.
  assert (F : floor_log2 x = floor_log2 y).
  { pose proof (floor_log2_mono x y Hx ltac:(lra)).
    pose proof (floor_log2_mono y x Hy ltac:(lra)). lia. }
  unfold rnd_pos_value, ulp_exp. rewrite F.
  set (k := Z.max _ _).
  assert (R : round_half_even (x / two ^ k) = round_half_even (y / two ^ k)).
  { assert (E' : (x / two ^ k == y / two ^ k)%Q) by (rewrite E; reflexivity).
    unfold round_half_even. rewrite (Qfloor_comp _ _ E').
    rewrite E'. reflexivity. }
  rewrite R. reflexivity.
Qed.

Lemma rnd_proper x y : (x == y)%Q -> rnd x = rnd y.
Proof.
  intros E. unfold rnd. rewrite E.
  destruct (compare_cases y) as [[C _] | [[C S] | [C S]]]; rewrite C; [reflexivity | |].
  - unfold rnd_pos. rewrite (rnd_pos_value_proper (- x) (- y)) by lra. reflexivity.
  - unfold rnd_pos. rewrite (rnd_pos_value_proper x y) by lra. reflexivity.
Qed.

Lemma rnd_nonneg q : (0 <= q)%Q -> rnd q = PosInf \/ exists v, rnd q = Fin v /\ (0 <= v)%Q.
Proof.
  intros H. pose proof (rnd_mono 0 q H) as M.
  change (rnd 0) with (Fin 0) in M.
  destruct (rnd q) as [ | | | v]; try discriminate M.
  - left. reflexivity.
  - right. exists v. split; [reflexivity |]. apply Qle_bool_iff. exact M.
Qed.

(** A rational between two integers that are binary64 values rounds to a
    number between them. *)
Lemma rnd_between (q : Q) (lo hi : Z) :
  (inject_Z lo <= q <= inject_Z hi)%Q ->
  rnd (inject_Z lo) = Fin (inject_Z lo) -> rnd (inject_Z hi) = Fin (inject_Z hi) ->
  exists u, rnd q = Fin u /\ (inject_Z lo <= u <= inject_Z hi)%Q.
Proof.
  intros [Lo Hi] El Eh.
  pose proof (rnd_mono _ _ Lo) as L. pose proof (rnd_mono _ _ Hi) as U.
  rewrite El in L. rewrite Eh in U.
  destruct (rnd q) as [ | | | u]; try discriminate.
  exists u. split; [reflexivity |].
  change (Qle_bool (inject_Z lo) u = true) in L. change (Qle_bool u (inject_Z hi) = true) in U.
  apply Qle_bool_iff in L. apply Qle_bool_iff in U. split; assumption.
Qed.

Lemma Number_positive (z : Z) :
  0 < z < 2 ^ 128 -> exists v, Number z = Fin v /\ (0 < v)%Q.
Proof.
  intros [Lo Hi].
  pose proof (Number_mono 1 z ltac:(lia)) as L.
  pose proof (Number_mono z (2 ^ 128) ltac:(lia)) as U.
  replace (Number 1) with (Fin 1) in L by (vm_compute; reflexivity).
  replace (Number (2 ^ 128)) with (Fin (inject_Z (2 ^ 128))) in U by (vm_compute; reflexivity).
  destruct (Number z) as [ | | | v]; try discriminate.
  exists v. split; [reflexivity |].
  change (Qle_bool 1 v = true) in L. apply Qle_bool_iff in L. lra.
Qed.

Lemma Number_between (a b : Z) (v : Q) :
  0 <= a <= b -> Number b = Fin v -> exists u, Number a = Fin u /\ (0 <= u <= v)%Q.
Proof.
  intros [Lo Hi] E.
  pose proof (Number_mono 0 a Lo) as L.
  pose proof (Number_mono a b Hi) as U. rewrite E in U.
  replace (Number 0) with (Fin 0) in L by (vm_compute; reflexivity).
  destruct (Number a) as [ | | | u]; try discriminate.
  exists u. split; [reflexivity |].
  change (Qle_bool 0 u = true) in L. change (Qle_bool u v = true) in U.
  apply Qle_bool_iff in L. apply Qle_bool_iff in U. split; assumption.
Qed.

(** Digits. *)
Lemma span_digits_digits s : forall d r, span_digits s = (d, r) -> all_digits d.
Proof.
  induction s as [| c s IH]; intros d r E; cbn in E.
  - inversion E. exact I.
  - destruct (is_digit c) eqn:D.
    + destruct (span_digits s) as [d' r'] eqn:S. inversion E; subst d r.
      split; [exact D | exact (IH _ _ eq_refl)].
    + inversion E. exact I.
Qed.

Lemma all_digits_substring s : forall n m, all_digits s -> all_digits (substring n m s).
Proof.
  induction s as [| c s IH]; intros n m A.
  - destruct n, m; exact I.
  - destruct A as [Hc A]. destruct n as [| n]; destruct m as [| m]; cbn.
    + exact I.
    + split; [exact Hc | apply IH; exact A].
    + apply IH; exact A.
    + apply IH; exact A.
Qed.

Lemma all_digits_strip s : all_digits s -> all_digits (strip_trailing_zeros s).
Proof.
  intros A. destruct (strip_trailing_zeros_spec s) as [z E].
  rewrite E in A. apply all_digits_app_inv in A. tauto.
Qed.

Lemma digits_value_nonneg d acc : all_digits d -> 0 <= acc -> 0 <= digits_value acc d.
Proof.
  intros A. exact (span_digits_value_nonneg d d "" acc (span_digits_all d A)).
Qed.

Lemma BigInt_of_string_all_digits d :
  all_digits d -> BigInt_of_string d = Ok (digits_value 0 d).
Proof.
  intros A. destruct d as [| c d].
  - reflexivity.
  - apply BigInt_of_string_digits; [exact A | cbn; lia].
Qed.

Lemma digit_is_not_minus (d : string) :
  all_digits d -> match d with String "-" _ => true | _ => false end = false.
Proof.
  destruct d as [| c d]; [reflexivity |]. intros [Hc _].
  destruct c as [[] [] [] [] [] [] [] []]; try reflexivity; discriminate Hc.
Qed.

Lemma ten_pow_nat (n : nat) : (ten ^ Z.of_nat n == inject_Z (10 ^ Z.of_nat n))%Q.
Proof. rewrite Zpower_Qpower by lia. reflexivity. Qed.

Lemma decimal_value_nonneg ip fp :
  all_digits ip -> all_digits fp -> (0 <= decimal_value ip fp 0)%Q.
Proof.
  intros A B. unfold decimal_value.
  apply Qmult_le_0_compat.
  - change 0%Q with (inject_Z 0). rewrite <- Zle_Qle.
    apply digits_value_nonneg; [apply all_digits_app; assumption | lia].
  - apply Qpower_pos. discriminate.
Qed.

(** The digit that [parseUnits] rounds to is never negative. *)
Lemma rounded_nonneg s : 0 <= bigint_of_number (Math_round (Number_of_string s)).
Proof.
  assert (R : forall q, (0 <= q)%Q -> 0 <= bigint_of_number (Math_round (rnd q))).
  { intros q Hq. destruct (rnd_nonneg q Hq) as [-> | [v [-> Hv]]]; [cbn; lia |].
    cbn [Math_round bigint_of_number]. rewrite Qfloor_Z.
    change 0 with (Qfloor 0). apply Qfloor_resp_le.
    assert ((0 <= 1 # 2)%Q) by discriminate. lra. }
  unfold Number_of_string.
  destruct (span_digits s) as [ip r1] eqn:S1.
  pose proof (span_digits_digits _ _ _ S1) as A1.
  destruct r1 as [| c r].
  - destruct (_ =? _)%nat; [vm_compute; discriminate |].
    apply R. apply decimal_value_nonneg; [exact A1 | exact I].
  - destruct c as [[] [] [] [] [] [] [] []]; try (cbn; lia).
    destruct (span_digits r) as [fp r2] eqn:S2.
    pose proof (span_digits_digits _ _ _ S2) as A2.
    destruct r2; [| cbn; lia].
    destruct (_ =? _)%nat; [cbn; lia |].
    apply R. apply decimal_value_nonneg; assumption.
Qed.

(** Text that passes the test of the amount inputs has no sign and splits
    into digits. *)
Lemma is_decimal_text_split v :
  is_decimal_text v = true ->
  exists ip frac,
    split_decimal v = Some (false, ip, frac) /\ all_digits ip /\
    all_digits (match frac with Some f => f | None => "0" end).
Proof.
  unfold is_decimal_text, split_decimal.
  assert (N : match v with String "-" r => (true, r) | _ => (false, v) end = (false, v)
              \/ exists r, v = String "-" r).
  { destruct v as [| c r]; [left; reflexivity |].
    destruct c as [[] [] [] [] [] [] [] []]; try (left; reflexivity).
    right. exists r. reflexivity. }
  destruct N as [-> | [r ->]]; [| discriminate].
  destruct (span_digits v) as [ip r1] eqn:S1.
  pose proof (span_digits_digits _ _ _ S1) as A1.
  destruct r1 as [| c r]; [intros _; exists ip, None; repeat split; exact A1 |].
  destruct c as [[] [] [] [] [] [] [] []]; try discriminate.
  destruct (span_digits r) as [fp r2] eqn:S2.
  pose proof (span_digits_digits _ _ _ S2) as A2.
  destruct r2; [| discriminate].
  intros _. exists ip, (Some fp). repeat split; assumption.
Qed.

(** Such text converts, whatever the number of decimals, to a
    non-negative integer. *)
Lemma decimal_text_converts (v : string) (decimals : nat) :
  is_decimal_text v = true -> exists w, parseUnits v decimals = Ok w /\ 0 <= w.
Proof.
  intros T. destruct (is_decimal_text_split v T) as [ip [frac [S [Ai Af]]]].
  unfold parseUnits. rewrite S.
  set (fraction := strip_trailing_zeros _).
  assert (Afr : all_digits fraction) by (apply all_digits_strip; exact Af).
  rewrite (BigInt_of_string_all_digits ip Ai). cbn [result_bind].
  pose proof (digits_value_nonneg ip 0 Ai ltac:(lia)) as Hi.
  set (int0 := digits_value 0 ip) in *.
  assert (G : forall integer1 fraction1, all_digits integer1 -> all_digits fraction1 ->
              exists w, BigInt_of_string ("" ++ integer1 ++ fraction1) = Ok w /\ 0 <= w).
  { intros integer1 fraction1 A1 A2.
    assert (A : all_digits (integer1 ++ fraction1)) by (apply all_digits_app; assumption).
    exists (digits_value 0 (integer1 ++ fraction1)).
    split; [apply BigInt_of_string_all_digits; exact A |].
    apply digits_value_nonneg; [exact A | lia]. }
  assert (Carry : all_digits (string_of_bigint (int0 + 1)))
    by (apply string_of_bigint_spec; lia).
  destruct (decimals =? 0)%nat.
  - destruct (num_eqb _ _); apply G; first [exact Carry | exact Ai | exact I].
  - destruct (decimals <? String.length fraction)%nat.
    + set (left := slice fraction 0 (decimals - 1)).
      set (rounded := bigint_of_number _).
      assert (Al : all_digits left) by (apply all_digits_substring; exact Afr).
      assert (Hr : 0 <= rounded) by apply rounded_nonneg.
      set (fraction' := if 9 <? rounded then _ else _).
      assert (A' : all_digits fraction').
      { unfold fraction'. destruct (9 <? rounded).
        - apply padStart0_spec. apply all_digits_app; [| cbn; auto].
          apply string_of_bigint_spec.
          pose proof (digits_value_nonneg left 0 Al ltac:(lia)). lia.
        - apply all_digits_app; [exact Al |]. apply string_of_bigint_spec. exact Hr. }
      destruct (decimals <? String.length fraction')%nat; apply G;
        first [exact Carry | exact Ai
              | unfold slice, slice_from; repeat apply all_digits_substring; exact A'].
    + apply G; [exact Ai |]. unfold padEnd0.
      apply all_digits_app; [exact Afr | apply all_digits_zeros].
Qed.

(** The number read from the text of [formatUnits] is the exact quotient
    rounded once. *)
Lemma Number_formatUnits (b : Z) :
  0 <= b -> Number_of_string (formatUnits b 18) = rnd (inject_Z b / inject_Z (10 ^ 18)).
Proof.
  intros Hb. unfold formatUnits.
  destruct (string_of_bigint_spec b Hb) as [A [V L]].
  rewrite (digit_is_not_minus _ A).
  destruct (padStart0_spec (string_of_bigint b) 18 A) as [Am [Vm [Lm _]]].
  set (m := padStart0 (string_of_bigint b) 18) in *.
  unfold slice, slice_from. rewrite Nat.sub_0_r.
  destruct (substring_split m (String.length m - 18)) as [E Li]; [lia |].
  set (i := substring 0 (String.length m - 18) m) in *.
  set (f' := substring (String.length m - 18) (String.length m - (String.length m - 18)) m) in *.
  assert (Lf : String.length f' = 18%nat).
  { assert (T : String.length (i ++ f') = String.length m) by (rewrite E; reflexivity).
    rewrite length_app in T. lia. }
  assert (Aif : all_digits i /\ all_digits f') by (apply all_digits_app_inv; rewrite E; exact Am).
  destruct Aif as [Ai Af'].
  destruct (strip_trailing_zeros_spec f') as [z Ez].
  set (f := strip_trailing_zeros f') in *.
  assert (Af : all_digits f) by (apply all_digits_strip; exact Af').
  assert (Lz : (String.length f + z = 18)%nat).
  { rewrite <- Lf, Ez, length_app, length_zeros. reflexivity. }
  set (I := if String.eqb i "" then "0" else i).
  assert (AI : all_digits I).
  { unfold I. destruct (String.eqb i ""); [cbn; auto | exact Ai]. }
  assert (LI : (0 < String.length I)%nat).
  { unfold I. destruct (String.eqb_spec i "") as [-> | N]; [cbn; lia |].
    destruct i; [contradiction | cbn; lia]. }
  assert (VI : forall x, digits_value 0 (I ++ x) = digits_value 0 (i ++ x)).
  { intros x. unfold I. destruct (String.eqb_spec i "") as [-> | N]; reflexivity. }
  assert (Vb : b = digits_value 0 (I ++ f) * 10 ^ Z.of_nat z).
  { rewrite VI. rewrite <- V at 1. rewrite <- Vm, <- E, Ez.
    rewrite <- app_assoc_string, (digits_value_app (i ++ f)), digits_value_zeros.
    reflexivity. }
  assert (Q : (decimal_value I f 0 == inject_Z b / inject_Z (10 ^ 18))%Q).
  { unfold decimal_value. rewrite Vb at 1. set (D := digits_value 0 (I ++ f)).
    replace (0 - Z.of_nat (String.length f)) with (- Z.of_nat (String.length f)) by lia.
    rewrite Qpower_opp, ten_pow_nat.
    replace (10 ^ 18) with (10 ^ Z.of_nat (String.length f) * 10 ^ Z.of_nat z).
    2:{ rewrite <- Z.pow_add_r by lia. f_equal. lia. }
    rewrite !inject_Z_mult.
    assert (P1 : ~ (inject_Z (10 ^ Z.of_nat (String.length f)) == 0)%Q).
    { change 0%Q with (inject_Z 0). rewrite inject_Z_injective.
      apply Z.pow_nonzero; lia. }
    assert (P2 : ~ (inject_Z (10 ^ Z.of_nat z) == 0)%Q).
    { change 0%Q with (inject_Z 0). rewrite inject_Z_injective.
      apply Z.pow_nonzero; lia. }
    field. split; assumption. }
  change ("" ++ ?x) with x.
  unfold Number_of_string.
  destruct (String.eqb_spec f "") as [Ef | Nf].
  - rewrite app_empty_r, (span_digits_all I AI).
    destruct (Nat.eqb_spec (String.length I) 0) as [C | _]; [lia |].
    rewrite <- Ef. apply rnd_proper. exact Q.
  - rewrite span_digits_app by exact AI.
    change (span_digits ("." ++ f)) with (EmptyString, "." ++ f).
    cbv iota beta. rewrite app_empty_r. cbn [append].
    rewrite (span_digits_all f Af).
    destruct (Nat.eqb_spec (String.length I + String.length f) 0) as [C | _]; [lia |].
    apply rnd_proper. exact Q.
Qed.

(** Decimal text with at most 18 fraction digits is read back digit for
    digit, scaled to 18 decimals. *)
Lemma zeros_app (a b : nat) : zeros (a + b) = zeros a ++ zeros b.
Proof. induction a as [| a IH]; cbn; [reflexivity | rewrite IH; reflexivity]. Qed.

Lemma padEnd0_strip_short s n :
  (String.length s <= n)%nat ->
  padEnd0 (strip_trailing_zeros s) n = s ++ zeros (n - String.length s).
Proof.
  intros L. destruct (strip_trailing_zeros_spec s) as [z E]. unfold padEnd0.
  remember (strip_trailing_zeros s) as t eqn:T. clear T. subst s.
  rewrite length_app, length_zeros in *.
  rewrite app_assoc_string, <- zeros_app. f_equal. f_equal. lia.
Qed.

Lemma parseUnits_padded i f :
  all_digits i -> (0 < String.length i)%nat -> all_digits f ->
  (String.length f <= 18)%nat ->
  parseUnits (i ++ "." ++ f) 18
  = Ok (digits_value 0 (i ++ f) * 10 ^ Z.of_nat (18 - String.length f)).
Proof.
  intros A L F L18. unfold parseUnits.
  rewrite (split_decimal_digits i f A L F).
  rewrite (BigInt_of_string_digits i A L). cbn [result_bind].
  change (18 =? 0)%nat with false. cbv iota.
  pose proof (length_strip_le f) as Ls.
  destruct (Nat.ltb_spec 18 (String.length (strip_trailing_zeros f))) as [C | _]; [lia |].
  rewrite padEnd0_strip_short by exact L18.
  cbn [append].
  rewrite BigInt_of_string_digits.
  - f_equal. rewrite !digits_value_app, digits_value_zeros. reflexivity.
  - apply all_digits_app; [exact A |].
    apply all_digits_app; [exact F | apply all_digits_zeros].
  - rewrite length_app. lia.
Qed.

(** [toFixed] with 1 to 18 digits, read by [parseUnits]: the amount rounded
    to that many decimals, in wei. *)
Lemma toFixed_parseUnits_digits q (f : nat) :
  (0 <= q)%Q -> (q < ten ^ 21)%Q -> (1 <= f <= 18)%nat ->
  parseUnits (toFixed (Fin q) f) 18
  = Ok (Qfloor (q * ten ^ Z.of_nat f + (1 # 2)) * 10 ^ Z.of_nat (18 - f)).
Proof.
  intros H0 H21 Hf. unfold toFixed.
  assert (Neg : match Qcompare q 0 with Lt => true | _ => false end = false).
  { destruct (Qcompare q 0) eqn:C; try reflexivity. apply Qlt_alt in C. lra. }
  rewrite Neg.
  assert (Abs : (Qabs q == q)%Q) by (apply Qabs_pos; exact H0).
  assert (Small : Qle_bool (ten ^ 21) (Qabs q) = false).
  { destruct (Qle_bool (ten ^ 21) (Qabs q)) eqn:T; [| reflexivity].
    apply Qle_bool_iff in T. rewrite Abs in T. lra. }
  rewrite Small. destruct (Nat.eqb_spec f 0) as [C | _]; [lia |].
  assert (En : Qfloor (Qabs q * ten ^ Z.of_nat f + (1 # 2))
               = Qfloor (q * ten ^ Z.of_nat f + (1 # 2))).
  { rewrite Abs. reflexivity. }
  rewrite En. set (n := Qfloor (q * ten ^ Z.of_nat f + (1 # 2))).
  assert (Hn : 0 <= n).
  { change 0 with (Qfloor 0). apply Qfloor_resp_le.
    assert (P : (0 < ten ^ Z.of_nat f)%Q) by (apply Qpower_0_lt; reflexivity).
    set (t := (ten ^ Z.of_nat f)%Q) in *. nra. }
  destruct (string_of_bigint_spec n Hn) as [A [V L]].
  destruct (padStart0_spec (string_of_bigint n) (S f) A) as [Am [Vm [Lm _]]].
  set (m := padStart0 (string_of_bigint n) (S f)) in *.
  unfold slice, slice_from. rewrite Nat.sub_0_r.
  destruct (substring_split m (String.length m - f)) as [E Li]; [lia |].
  set (i := substring 0 (String.length m - f) m) in *.
  set (d := substring (String.length m - f) (String.length m - (String.length m - f)) m) in *.
  assert (Ld : String.length d = f).
  { assert (T : String.length (i ++ d) = String.length m) by (rewrite E; reflexivity).
    rewrite length_app in T. lia. }
  assert (Aid : all_digits i /\ all_digits d) by (apply all_digits_app_inv; rewrite E; exact Am).
  destruct Aid as [Ai Ad].
  rewrite parseUnits_padded; try assumption; [| lia | lia].
  rewrite E, Vm, V, Ld. reflexivity.
Qed.

(** Lists of borrowers. *)
Lemma NoDup_snoc (l : list string) (a : string) :
  NoDup l -> ~ In a l -> NoDup (l ++ [a])%list.
Proof.
  induction l as [| x l IH]; cbn [app]; intros N I.
  - constructor; [intros [] | constructor].
  - inversion N as [| y l' Hx Hl]; subst. constructor.
    + intro C. apply in_app_or in C. destruct C as [C | [C | []]]; [contradiction |].
      subst. apply I. left. reflexivity.
    + apply IH; [exact Hl |]. intro C. apply I. right. exact C.
Qed.

Lemma find_none_key (p : LiquidatablePosition) (l : list LiquidatablePosition) :
  List.find (fun x => same_borrower x p) l = None ->
  ~ In (toLowerCase (lp_borrower p)) (borrowers l).
Proof.
  intros F I. unfold borrowers in I. apply in_map_iff in I.
  destruct I as [x [E Ix]].
  pose proof (find_none _ _ F x Ix) as N. cbv beta in N.
  unfold same_borrower in N. rewrite E, String.eqb_refl in N. discriminate N.
Qed.

Lemma replace_keeps_keys (p : LiquidatablePosition) (l : list LiquidatablePosition) :
  borrowers (List.map (fun x => if same_borrower x p then p else x) l) = borrowers l.
Proof.
  unfold borrowers. rewrite map_map. apply map_ext. intros x.
  destruct (same_borrower x p) eqn:E; [| reflexivity].
  unfold same_borrower in E. apply String.eqb_eq in E. symmetry. exact E.
Qed.

Lemma replace_contains (p : LiquidatablePosition) (l : list LiquidatablePosition)
    (x : LiquidatablePosition) :
  List.find (fun x => same_borrower x p) l = Some x ->
  In p (List.map (fun x => if same_borrower x p then p else x) l).
Proof.
  intros F. apply find_some in F. destruct F as [I E].
  apply in_map_iff. exists x. rewrite E. split; [reflexivity | exact I].
Qed.

(** *** The submit button *)

(** X1.  A click on the submit button hands at most one request to the
    wallet.  When it hands one over, the step afterwards is one of the
    in-flight steps (approving, supplying collateral, borrowing,
    executing); when it hands none over, the step afterwards is idle or
    the step it was. *)
Theorem click_outcome (fresh : ChainRead (Z * Z * Z)) (s : State) :
  let s' := fst (run (handleButtonClick fresh) s) in
  let out := snd (run (handleButtonClick fresh) s) in
  (out = [] /\ (txStep s' = idle \/ txStep s' = txStep s)) \/
  (exists request, out = [request] /\ in_flight (txStep s') = true).
Proof.
  unfold run, handleButtonClick.
  destruct (actionMode s); destruct (txStep s) eqn:T;
    unfold executeAfterApprove, executeSupply, executeWithdraw, executeBorrow,
      hasNewCollateral, hasExistingCollateral;
    branches; fields;
    first [ left; split; [reflexivity | auto; fail]
          | right; eexists; split; reflexivity ].
Qed.

(** X2.  Without a connected wallet, or while a step is in flight, a click
    changes nothing and sends nothing. *)
Theorem idle_wallet_or_busy_step_ignores_click (fresh : ChainRead (Z * Z * Z)) (s : State) :
  isConnected s = false \/ in_flight (txStep s) = true ->
  run (handleButtonClick fresh) s = (s, []).
Proof.
  intros [H | H]; unfold run, handleButtonClick.
  - unfold executeAfterApprove, executeSupply, executeWithdraw, executeBorrow.
    rewrite H. cbn [negb orb].
    destruct (actionMode s); destruct (txStep s); destruct (selection s);
      destruct (address s); reflexivity.
  - destruct (actionMode s); destruct (txStep s); try discriminate H; reflexivity.
Qed.

(** A click while the approval of a borrow is with the wallet. *)
Lemma idle_wallet_or_busy_step_ignores_click_witness :
  run (handleButtonClick Rejects) borrowInFlight = (borrowInFlight, []).
Proof.
  apply (idle_wallet_or_busy_step_ignores_click Rejects borrowInFlight).
  right. by_evaluation.
Defined.

(** X3.  Whenever a press on the submit button hands a request to the
    wallet, the wallet is connected, no transaction is pending, no step is
    in flight, the previous execution is not shown as confirmed and the
    amount field is not empty; and if the typed amount and the relevant
    maximum are numbers (not NaN), the amount is positive and at most
    that maximum. *)
Theorem submitted_amount_within_limit (fresh : ChainRead (Z * Z * Z)) (s : State) :
  snd (run (pressSubmit fresh) s) <> [] ->
  isConnected s = true /\ isTxPending s = false /\ in_flight (txStep s) = false /\
  executionStatus s <> status_confirmed /\ is_empty (inputAmount s) = false /\
  (isNaN (parseFloat (inputAmount s)) = false -> isNaN (getMaxAmount s) = false ->
   num_gtb (parseFloat (inputAmount s)) num_0 = true /\
   num_leb (parseFloat (inputAmount s)) (getMaxAmount s) = true).
Proof.
  unfold run, pressSubmit. destruct (isButtonDisabled s) eqn:D.
  { intros H. exfalso. apply H. reflexivity. }
  intros _. revert D. unfold isButtonDisabled, in_flight.
  destruct (isConnected s); [| discriminate]. cbn [negb].
  destruct (isTxPending s); [discriminate |].
  destruct (_ || _); [discriminate |].
  destruct (executionStatus s); cbn [ExecutionStatus_eqb]; try discriminate.
  all: destruct (is_empty (inputAmount s)); [discriminate |]; cbn [orb].
  all: rewrite num_0_eq.
  all: destruct (num_leb (parseFloat (inputAmount s)) (Fin 0)) eqn:L; [discriminate |].
  all: destruct (num_gtb (parseFloat (inputAmount s)) (getMaxAmount s)) eqn:G;
    [discriminate |].
  all: intros _; repeat split; try discriminate.
  all: revert L G; unfold num_gtb;
    destruct (parseFloat (inputAmount s)) as [ | | | a]; try discriminate;
    destruct (getMaxAmount s) as [ | | | m]; try discriminate;
    cbn [num_leb num_ltb]; intros L G; try discriminate; try reflexivity.
  all: try (rewrite L; reflexivity).
  all: destruct (Qle_bool a m); [reflexivity | discriminate].
Qed.

(** A borrow of 1 UPETH against 50,000,000 UPKRW, with 100 UPETH in the
    wallet. *)
Lemma submitted_amount_within_limit_witness :
  num_gtb (parseFloat (inputAmount (borrowPanel None "1"))) num_0 = true /\
  num_leb (parseFloat (inputAmount (borrowPanel None "1")))
          (getMaxAmount (borrowPanel None "1")) = true.
Proof.
  assert (W := submitted_amount_within_limit Rejects (borrowPanel None "1")).
  feed W. destruct W as (_ & _ & _ & _ & _ & W). apply W; by_evaluation.
Defined.

(** X4.  When the text of the amount field does not convert to wei, a
    click in the idle step sends nothing: the exception is caught and the
    step is idle afterwards. *)
Theorem unparsable_amount_sends_nothing (fresh : ChainRead (Z * Z * Z)) (s : State) :
  txStep s = idle -> parseUnits (inputAmount s) 18 = Throw ->
  snd (run (handleButtonClick fresh) s) = [] /\
  (fst (run (handleButtonClick fresh) s) = s \/
   fst (run (handleButtonClick fresh) s) = setTxStep idle s).
Proof.
  intros Ht Hp. unfold run, handleButtonClick. rewrite Ht.
  unfold executeSupply, executeWithdraw.
  destruct (actionMode s); destruct (selection s); destruct (address s);
    try (split; [reflexivity | left; reflexivity]).
  all: destruct (negb (isConnected s) || is_empty (inputAmount s));
    try (split; [reflexivity | left; reflexivity]).
  all: unfold_actions; rewrite Hp; (split; [reflexivity | right; reflexivity]).
Qed.

(** With 0.0000001 UPETH in the wallet, MAX fills in the text [1e-7]: the
    button is enabled and the click sends nothing. *)
Lemma unparsable_amount_sends_nothing_witness :
  inputAmount dustMaxPanel = "1e-7" /\ isButtonDisabled dustMaxPanel = false /\
  snd (run (handleButtonClick Rejects) dustMaxPanel) = [].
Proof.
  assert (W := unparsable_amount_sends_nothing Rejects dustMaxPanel).
  feed W. split; [by_evaluation |]. split; [by_evaluation | exact (proj1 W)].
Defined.

(** X5.  The amount inputs pass on text made of digits with at most one
    dot and ignore any other text.  Text that is passed on is stored as
    typed and always converts to wei, to a non-negative integer. *)
Theorem typed_amount_converts (v : string) (s : State) :
  if is_empty v || is_decimal_text v then
    (exists w, parseUnits v 18 = Ok w /\ 0 <= w) /\
    inputAmount (after (inputAmountChange v) s) = v /\
    liquidateAmount (after (liquidateAmountChange v) s) = v
  else
    run (inputAmountChange v) s = (s, []) /\ run (liquidateAmountChange v) s = (s, []).
Proof.
  unfold after, run, inputAmountChange, liquidateAmountChange.
  destruct (is_empty v || is_decimal_text v) eqn:T; [| split; reflexivity].
  split; [| split].
  - apply decimal_text_converts.
    destruct (is_empty v) eqn:E; [| exact T].
    unfold is_empty in E. apply String.eqb_eq in E. subst v. reflexivity.
  - unfold simulate. unfold_actions. fields.
    destruct (is_empty v || num_eqb (parseFloat v) num_0); [reflexivity |].
    destruct (is_selected UPETH_BORROW (selection s)); [| reflexivity].
    destruct (calculateHealthFactor s _ _); reflexivity.
  - reflexivity.
Qed.

(** *** Sequences of transactions *)

(** X6.  A borrow with new collateral, for a connected account on the
    borrow market with the step idle, amount text that converts to
    [amount] wei and collateral text that reads as a positive number and
    converts to [collateralAmt] wei.  The first click sends the approval
    of the collateral for [collateralAmt], also when that is zero wei, and
    its confirmation leaves the step at [approved].  When [collateralAmt]
    is zero the second click sends nothing and changes nothing; otherwise
    it sends the supply of that collateral, whose confirmation leaves the
    step at [collateral_supplied].  When [amount] is zero the third click
    sends nothing and changes nothing; otherwise it sends the borrow of
    [amount], whose confirmation shows the execution as confirmed, and
    the reset that follows clears the step, both buffers and both
    inputs. *)
Theorem borrow_with_new_collateral_sequence
    (fresh : ChainRead (Z * Z * Z)) (s : State) (account hash1 hash2 hash3 : string)
    (amount collateralAmt : Z) :
  isConnected s = true -> address s = Some account ->
  selection s = Some UPETH_BORROW -> actionMode s = supply -> txStep s = idle ->
  is_empty (inputAmount s) = false ->
  parseUnits (inputAmount s) 18 = Ok amount ->
  hasNewCollateral s = true ->
  parseUnits (collateralAmount s) 18 = Ok collateralAmt ->
  let click1 := run (handleButtonClick fresh) s in
  let s1 := confirmed hash1 (fst click1) in
  let click2 := run (handleButtonClick fresh) s1 in
  let s2 := confirmed hash2 (fst click2) in
  let click3 := run (handleButtonClick fresh) s2 in
  let s3 := confirmed hash3 (fst click3) in
  let done := after (fun _ => resetAfterRefetch) s3 in
  snd click1 = [mkWrite ADDRESSES.UPKRW (fn_approve ADDRESSES.MORPHO collateralAmt)] /\
  txStep s1 = approved /\
  (collateralAmt = 0 -> click2 = (s1, [])) /\
  (collateralAmt <> 0 ->
   snd click2 = [mkWrite ADDRESSES.MORPHO (fn_supplyCollateral collateralAmt account)] /\
   txStep s2 = collateral_supplied /\
   (amount = 0 -> click3 = (s2, [])) /\
   (amount <> 0 ->
    snd click3 = [mkWrite ADDRESSES.MORPHO (fn_borrow amount 0 account account)] /\
    txStep (fst click3) = borrowing /\
    executionStatus s3 = status_confirmed /\
    txStep done = idle /\ approvedCollateralRef done = 0 /\ borrowAmountRef done = 0 /\
    inputAmount done = "" /\ collateralAmount done = "")).
Proof.
  intros Hc Ha Hs Hm Ht Hi Hp Hn Hq.
  assert (R1 : run (handleButtonClick fresh) s =
               (setTxStep approving (set_approvedCollateralRef collateralAmt
                  (set_borrowAmountRef amount s)),
                [mkWrite ADDRESSES.UPKRW (fn_approve ADDRESSES.MORPHO collateralAmt)])).
  { unfold run, handleButtonClick. rewrite Hm, Ht. unfold executeSupply.
    rewrite Hs, Ha, Hc, Hi. cbn [negb orb Market_eqb]. unfold_actions.
    rewrite Hp, Hn, Hq, andb_false_r. reflexivity. }
  cbv zeta. rewrite R1. fields.
  set (s1 := confirmed hash1 _).
  assert (T1 : txStep s1 = approved).
  { unfold s1, confirmed, after, run, txSuccessEffect. fields. unfold_actions. reflexivity. }
  split; [reflexivity |]. split; [exact T1 |]. split.
  { intros Hq0.
    unfold run, handleButtonClick. rewrite T1.
    unfold s1, confirmed, after, run, txSuccessEffect.
    fields. unfold_actions. fields. rewrite Hm. unfold executeAfterApprove. fields.
    rewrite Hs, Ha, Hc. cbn [negb]. unfold_actions. fields.
    rewrite Hq0. reflexivity. }
  intros Hq0.
  assert (E2 : (collateralAmt =? 0) = false) by lia.
  assert (R2 : run (handleButtonClick fresh) s1 =
               (setTxStep supplying_collateral s1,
                [mkWrite ADDRESSES.MORPHO (fn_supplyCollateral collateralAmt account)])).
  { unfold run, handleButtonClick, s1, confirmed, after, run, txSuccessEffect.
    fields. unfold_actions. fields. rewrite Hm. unfold executeAfterApprove. fields.
    rewrite Hs, Ha, Hc, Hm. cbn [negb ActionMode_eqb andb]. unfold_actions. fields.
    rewrite E2. reflexivity. }
  rewrite R2. fields.
  set (s2 := confirmed hash2 _).
  assert (T2 : txStep s2 = collateral_supplied).
  { unfold s2, confirmed, after, run, txSuccessEffect. fields. unfold_actions. reflexivity. }
  split; [reflexivity |]. split; [exact T2 |]. split.
  { intros Hp0.
    unfold run, handleButtonClick. rewrite T2.
    unfold s2, confirmed, after, run, txSuccessEffect.
    fields. unfold_actions. fields. unfold s1, confirmed, after, run, txSuccessEffect.
    fields. unfold_actions. fields. rewrite Hm. unfold executeBorrow. fields.
    rewrite Hs, Ha, Hc. cbn [negb is_selected Market_eqb orb]. unfold_actions. fields.
    rewrite Hp0. reflexivity. }
  intros Hp0.
  assert (E1 : (amount =? 0) = false) by lia.
  assert (R3 : run (handleButtonClick fresh) s2 =
               (setTxStep borrowing s2,
                [mkWrite ADDRESSES.MORPHO (fn_borrow amount 0 account account)])).
  { unfold run, handleButtonClick, s2, confirmed, after, run, txSuccessEffect.
    fields. unfold_actions. fields. unfold s1, confirmed, after, run, txSuccessEffect.
    fields. unfold_actions. fields. rewrite Hm. unfold executeBorrow. fields.
    rewrite Hs, Ha, Hc. cbn [negb is_selected Market_eqb orb]. unfold_actions. fields.
    rewrite E1. reflexivity. }
  rewrite R3. fields.
  repeat split.
Qed.

(** A borrow of 5 UPETH against 1,000,000 UPKRW of new collateral, and
    one against a tenth of a wei of UPKRW, which stalls after the
    approval. *)
Lemma borrow_with_new_collateral_sequence_witness :
  (let click1 := run (handleButtonClick Rejects) borrowWithCollateralPanel in
   let click2 := run (handleButtonClick Rejects) (confirmed "0x01" (fst click1)) in
   let click3 := run (handleButtonClick Rejects) (confirmed "0x02" (fst click2)) in
   snd click1 = [mkWrite ADDRESSES.UPKRW (fn_approve ADDRESSES.MORPHO (ether 1000000))] /\
   snd click2 = [mkWrite ADDRESSES.MORPHO (fn_supplyCollateral (ether 1000000) user)] /\
   snd click3 = [mkWrite ADDRESSES.MORPHO (fn_borrow (ether 5) 0 user user)]) /\
  (let click1 := run (handleButtonClick Rejects) subWeiCollateralPanel in
   let click2 := run (handleButtonClick Rejects) (confirmed "0x01" (fst click1)) in
   isButtonDisabled subWeiCollateralPanel = false /\
   snd click1 = [mkWrite ADDRESSES.UPKRW (fn_approve ADDRESSES.MORPHO 0)] /\
   click2 = (confirmed "0x01" (fst click1), []) /\
   txStep (fst click2) = approved).
Proof.
  assert (W := borrow_with_new_collateral_sequence Rejects borrowWithCollateralPanel user
                 "0x01" "0x02" "0x03" (ether 5) (ether 1000000)).
  feed W. destruct W as (W1 & _ & _ & W). feed W. destruct W as (W2 & _ & _ & W).
  feed W. destruct W as (W3 & _).
  assert (V := borrow_with_new_collateral_sequence Rejects subWeiCollateralPanel user
                 "0x01" "0x02" "0x03" (ether 5) 0).
  feed V. destruct V as (V1 & V2 & V3 & _). feed V3.
  cbv zeta. split.
  - split; [exact W1 |]. split; [exact W2 | exact W3].
  - split; [by_evaluation |]. split; [exact V1 |]. split; [exact V3 |].
    rewrite V3. exact V2.
Defined.

(** X7.  A borrow for which no new collateral was typed skips the
    approval: with collateral already posted the first click sends the
    borrow of the typed amount, and with no collateral at all it shows a
    message and sends nothing. *)
Theorem borrow_without_new_collateral (s : State) (account : string) (amount : Z) :
  isConnected s = true -> address s = Some account ->
  selection s = Some UPETH_BORROW ->
  is_empty (inputAmount s) = false -> parseUnits (inputAmount s) 18 = Ok amount ->
  hasNewCollateral s = false ->
  run executeSupply s =
    if hasExistingCollateral s
    then (setTxStep borrowing (set_borrowAmountRef amount s),
          [mkWrite ADDRESSES.MORPHO (fn_borrow amount 0 account account)])
    else (setErrorMessage (Some "담보 금액을 입력하세요") s, []).
Proof.
  intros Hc Ha Hs Hi Hp Hn. unfold run, executeSupply.
  rewrite Hs, Ha, Hc, Hi. cbn [negb orb Market_eqb]. unfold_actions.
  rewrite Hp, Hn. destruct (hasExistingCollateral s); reflexivity.
Qed.

(** A borrow of 1 UPETH against the 50,000,000 UPKRW already posted. *)
Lemma borrow_without_new_collateral_witness :
  snd (run executeSupply (borrowPanel (Some price) "1"))
    = [mkWrite ADDRESSES.MORPHO (fn_borrow (ether 1) 0 user user)].
Proof.
  assert (W := borrow_without_new_collateral (borrowPanel (Some price) "1") user (ether 1)).
  feed W. rewrite W. by_evaluation.
Defined.

(** X8.  A supply of UPETH or of UPKRW, for a connected account with the
    step idle and amount text that converts to [amount] wei.  The first
    click sends the approval of the token for [amount], also when that is
    zero wei, and its confirmation leaves the step at [approved].  When
    [amount] is zero the second click sends nothing and changes nothing;
    otherwise it sends the supply (for UPKRW, the supply of collateral) of
    that same amount on behalf of the account, and once that is confirmed
    the execution is shown as confirmed and the button is disabled. *)
Theorem supply_sequence
    (fresh : ChainRead (Z * Z * Z)) (s : State) (account hash1 hash2 : string)
    (market : Market) (amount : Z) :
  isConnected s = true -> address s = Some account ->
  selection s = Some market -> market <> UPETH_BORROW ->
  actionMode s = supply -> txStep s = idle ->
  is_empty (inputAmount s) = false ->
  parseUnits (inputAmount s) 18 = Ok amount ->
  let token := if Market_eqb market UPKRW then ADDRESSES.UPKRW else ADDRESSES.UPETH in
  let call :=
    if Market_eqb market UPKRW then fn_supplyCollateral amount account
    else fn_supply amount 0 account in
  let click1 := run (handleButtonClick fresh) s in
  let s1 := confirmed hash1 (fst click1) in
  let click2 := run (handleButtonClick fresh) s1 in
  let s2 := confirmed hash2 (fst click2) in
  snd click1 = [mkWrite token (fn_approve ADDRESSES.MORPHO amount)] /\
  txStep s1 = approved /\
  (amount = 0 -> click2 = (s1, [])) /\
  (amount <> 0 ->
   snd click2 = [mkWrite ADDRESSES.MORPHO call] /\
   txStep (fst click2) = executing /\
   executionStatus s2 = status_confirmed /\
   isButtonDisabled s2 = true).
Proof.
  intros Hc Ha Hs Hm Hmode Ht Hi Hp.
  assert (R1 : run (handleButtonClick fresh) s =
               (setTxStep approving (set_approvedCollateralRef amount s),
                [mkWrite (if Market_eqb market UPKRW then ADDRESSES.UPKRW else ADDRESSES.UPETH)
                   (fn_approve ADDRESSES.MORPHO amount)])).
  { unfold run, handleButtonClick. rewrite Hmode, Ht. unfold executeSupply.
    rewrite Hs, Ha, Hc, Hi. cbn [negb orb]. unfold_actions. rewrite Hp.
    destruct market; [reflexivity | reflexivity | contradiction]. }
  cbv zeta. rewrite R1. fields.
  set (s1 := confirmed hash1 _).
  assert (T1 : txStep s1 = approved).
  { unfold s1, confirmed, after, run, txSuccessEffect. fields. unfold_actions. reflexivity. }
  split; [reflexivity |]. split; [exact T1 |]. split.
  { intros Hp0.
    unfold run, handleButtonClick. rewrite T1.
    unfold s1, confirmed, after, run, txSuccessEffect.
    fields. unfold_actions. fields. rewrite Hmode. unfold executeAfterApprove. fields.
    rewrite Hs, Ha, Hc. cbn [negb]. unfold_actions. fields.
    rewrite Hp0. reflexivity. }
  intros Hp0.
  assert (E : (amount =? 0) = false) by lia.
  assert (R2 : run (handleButtonClick fresh) s1 =
               (setTxStep executing s1,
                [mkWrite ADDRESSES.MORPHO
                   (if Market_eqb market UPKRW then fn_supplyCollateral amount account
                    else fn_supply amount 0 account)])).
  { unfold run, handleButtonClick, s1, confirmed, after, run, txSuccessEffect.
    fields. unfold_actions. fields. rewrite Hmode. unfold executeAfterApprove. fields.
    rewrite Hs, Ha, Hc, Hmode. cbn [negb ActionMode_eqb andb]. unfold_actions. fields.
    rewrite E. destruct market; [reflexivity | reflexivity | contradiction]. }
  rewrite R2. fields.
  split; [reflexivity |]. split; [reflexivity |]. split; [reflexivity |].
  unfold isButtonDisabled, confirmed, after, run, txSuccessEffect.
  fields. unfold_actions. fields. destruct (negb (isConnected s1)); reflexivity.
Qed.

(** A supply of 2 UPETH, and one of a tenth of a wei, which stalls after
    the approval. *)
Lemma supply_sequence_witness :
  (let click1 := run (handleButtonClick Rejects) (supplyPanel UPETH "2") in
   let click2 := run (handleButtonClick Rejects) (confirmed "0x01" (fst click1)) in
   snd click1 = [mkWrite ADDRESSES.UPETH (fn_approve ADDRESSES.MORPHO (ether 2))] /\
   snd click2 = [mkWrite ADDRESSES.MORPHO (fn_supply (ether 2) 0 user)]) /\
  (let panel := supplyPanel UPETH "0.0000000000000000001" in
   let click1 := run (handleButtonClick Rejects) panel in
   let click2 := run (handleButtonClick Rejects) (confirmed "0x01" (fst click1)) in
   isButtonDisabled panel = false /\
   snd click1 = [mkWrite ADDRESSES.UPETH (fn_approve ADDRESSES.MORPHO 0)] /\
   click2 = (confirmed "0x01" (fst click1), []) /\
   txStep (fst click2) = approved).
Proof.
  assert (W := supply_sequence Rejects (supplyPanel UPETH "2") user "0x01" "0x02"
                 UPETH (ether 2)).
  feed W. destruct W as (W1 & _ & _ & W). feed W. destruct W as (W2 & _).
  assert (V := supply_sequence Rejects (supplyPanel UPETH "0.0000000000000000001") user
                 "0x01" "0x02" UPETH 0).
  feed V. destruct V as (V1 & V2 & V3 & _). feed V3.
  cbv zeta. split.
  - split; [exact W1 | exact W2].
  - split; [by_evaluation |]. split; [exact V1 |]. split; [exact V3 |].
    rewrite V3. exact V2.
Defined.

(** X9.  Every [withdrawCollateral] request comes from a successful read
    of the fresh position: it is for the account itself, for an amount
    that is not zero and not above the fresh collateral, and strictly
    below it while the account has debt. *)
Theorem collateral_withdrawal_within_position
    (fresh : ChainRead (Z * Z * Z)) (s : State) (request : WriteRequest) :
  selection s = Some UPKRW ->
  In request (snd (run (executeWithdraw fresh) s)) ->
  exists supplyShares borrowShares coll account w,
    fresh = Resolves (supplyShares, borrowShares, coll) /\
    publicClient s = true /\ address s = Some account /\
    request = mkWrite ADDRESSES.MORPHO (fn_withdrawCollateral w account account) /\
    w <> 0 /\ w <= coll /\ (0 < borrowShares -> w < coll).
Proof.
  intros Hs. unfold run, executeWithdraw. rewrite Hs.
  branches; fields; cbn [In]; try tauto; intros [<- | []].
  all: repeat match goal with
       | H : _ && _ = false |- _ => apply andb_false_iff in H
       | H : _ && _ = true |- _ => apply andb_true_iff in H; destruct H
       end.
  all: do 5 eexists; repeat split; try reflexivity; try lia.
Qed.

(** A withdrawal of 1,000 UPKRW out of 50,000,000, without debt. *)
Lemma collateral_withdrawal_within_position_witness :
  exists supplyShares borrowShares coll account w,
    Resolves (0, 0, ether 50000000) = Resolves (supplyShares, borrowShares, coll) /\
    publicClient (withdrawCollateralPanel (collateralOnly (Some price)) "1000") = true /\
    address (withdrawCollateralPanel (collateralOnly (Some price)) "1000") = Some account /\
    mkWrite ADDRESSES.MORPHO (fn_withdrawCollateral (ether 1000) user user)
      = mkWrite ADDRESSES.MORPHO (fn_withdrawCollateral w account account) /\
    w <> 0 /\ w <= coll /\ (0 < borrowShares -> w < coll).
Proof.
  apply (collateral_withdrawal_within_position (Resolves (0, 0, ether 50000000))
           (withdrawCollateralPanel (collateralOnly (Some price)) "1000")
           (mkWrite ADDRESSES.MORPHO (fn_withdrawCollateral (ether 1000) user user))).
  - by_evaluation.
  - vm_compute. left. reflexivity.
Defined.


(** X11.  The write-error, transaction-error and success effects send
    nothing.  The two error effects reset the write state, so that
    another run does nothing.  The success effect resets it in the steps
    [approving] and [supplying_collateral], where it schedules nothing.
    In the steps [borrowing] and [executing] it shows the execution as
    confirmed and leaves the confirmation and the step as they are, so
    that every further run schedules the refetches and the reset again;
    once the scheduled reset has run the step is idle and the effect does
    nothing and schedules nothing. *)
Theorem effects_consume_their_trigger (s : State) :
  snd (run writeErrorEffect s) = [] /\ snd (run txErrorEffect s) = [] /\
  snd (run txSuccessEffect s) = [] /\
  (let s' := after writeErrorEffect s in
   writeError s' = None /\ run writeErrorEffect s' = (s', [])) /\
  (let s' := after txErrorEffect s in
   isTxError s' && is_some (txHash s') = false /\ run txErrorEffect s' = (s', [])) /\
  (isTxSuccess s = true -> txStep s = approving \/ txStep s = supplying_collateral ->
   let s' := after txSuccessEffect s in
   isTxSuccess s' = false /\ scheduledBySuccess s = None /\
   run txSuccessEffect s' = (s', [])) /\
  (isTxSuccess s = true -> txStep s = borrowing \/ txStep s = executing ->
   let s' := after txSuccessEffect s in
   let s'' := after (fun _ => resetAfterRefetch) s' in
   s' = setExecutionStatus status_confirmed s /\
   isTxSuccess s' = true /\ txStep s' = txStep s /\
   scheduledBySuccess s = Some resetAfterRefetch /\
   scheduledBySuccess s' = Some resetAfterRefetch /\
   isTxSuccess s'' = false /\ txStep s'' = idle /\
   scheduledBySuccess s'' = None /\ run txSuccessEffect s'' = (s'', [])).
Proof.
  split; [destruct (writeError s) eqn:E; unfold run, writeErrorEffect; rewrite E; reflexivity |].
  split; [destruct (isTxError s && is_some (txHash s)) eqn:E;
          unfold run, txErrorEffect; rewrite E; reflexivity |].
  split; [unfold run, txSuccessEffect; destruct (isTxSuccess s); [destruct (txStep s) |];
          reflexivity |].
  split.
  { cbv zeta. unfold after, run, writeErrorEffect.
    destruct (writeError s) eqn:E; unfold_actions; fields.
    - split; reflexivity.
    - rewrite E. split; reflexivity. }
  split.
  { cbv zeta. unfold after, run, txErrorEffect.
    destruct (isTxError s && is_some (txHash s)) eqn:E; unfold_actions; fields.
    - split; reflexivity.
    - rewrite E. split; reflexivity. }
  split.
  { intros S T. cbv zeta. unfold after, run, txSuccessEffect, scheduledBySuccess.
    rewrite S. destruct T as [T | T]; rewrite T; unfold_actions; fields;
      repeat split. }
  intros S T. cbv zeta. unfold after, run, txSuccessEffect, scheduledBySuccess, resetAfterRefetch.
  rewrite S. destruct T as [T | T]; rewrite T; unfold_actions; fields;
    rewrite ?S, ?T; repeat split.
Qed.

(** The confirmation of the approval of the borrow under way, and the
    confirmation of a borrow of 1 UPETH. *)
Lemma effects_consume_their_trigger_witness :
  (let s := receiptConfirmed borrowInFlight in
   isTxSuccess (after txSuccessEffect s) = false /\ scheduledBySuccess s = None /\
   txStep (after txSuccessEffect s) = approved) /\
  (let s := receiptConfirmed (walletSubmitted "0x01"
               (after (pressSubmit Rejects) (borrowPanel (Some price) "1"))) in
   let s' := after txSuccessEffect s in
   txStep s = borrowing /\ executionStatus s' = status_confirmed /\
   isTxSuccess s' = true /\ scheduledBySuccess s' = Some resetAfterRefetch /\
   isTxSuccess (after (fun _ => resetAfterRefetch) s') = false).
Proof.
  assert (W := effects_consume_their_trigger (receiptConfirmed borrowInFlight)).
  destruct W as (_ & _ & _ & _ & _ & W & _). feed W.
  assert (T : txStep (receiptConfirmed borrowInFlight) = approving
              \/ txStep (receiptConfirmed borrowInFlight) = supplying_collateral)
    by (left; by_evaluation).
  specialize (W T). cbv zeta in W. destruct W as (W1 & W2 & _).
  set (s := receiptConfirmed (walletSubmitted "0x01"
               (after (pressSubmit Rejects) (borrowPanel (Some price) "1")))).
  assert (V := effects_consume_their_trigger s).
  destruct V as (_ & _ & _ & _ & _ & _ & V).
  assert (S : isTxSuccess s = true) by by_evaluation.
  assert (B : txStep s = borrowing) by by_evaluation.
  specialize (V S (or_introl B)). cbv zeta in V.
  destruct V as (V1 & V2 & _ & _ & V5 & V6 & _).
  cbv zeta. split.
  - split; [exact W1 |]. split; [exact W2 | by_evaluation].
  - split; [exact B |]. split; [rewrite V1; reflexivity |].
    split; [exact V2 |]. split; [exact V5 | exact V6].
Defined.

(** *** The health factor *)

(** X12.  A health factor returned by [calculateHealthFactor], and one
    stored by the display effect, is a finite number between 0 and
    1000. *)
Theorem health_factor_in_range (s : State) :
  (forall newBorrowETH newCollateralKRW hf,
     calculateHealthFactor s newBorrowETH newCollateralKRW = Ok (Some hf) ->
     isFinite hf = true /\ num_leb num_0 hf = true /\ num_leb hf num_1000 = true) /\
  (forall hf,
     completes currentHFEffect s = true ->
     currentHF (after currentHFEffect s) = Some hf ->
     isFinite hf = true /\ num_leb num_0 hf = true /\ num_leb hf num_1000 = true).
Proof.
  split.
  - intros b c hf. unfold calculateHealthFactor.
    repeat first [branch | branch_result]; intros H; try discriminate H;
      injection H as <-;
      in_range.
  - intros hf. unfold completes, after, run, currentHFEffect.
    destruct (oraclePrice s) as [p |]; [| intros _ H; discriminate H].
    destruct (negb (p =? 0) && (collateral (userPosition s) >? 0)
              && num_gtb (borrowAssets (userPosition s)) num_0);
      [| intros _ H; discriminate H].
    unfold_actions.
    destruct (parseUnits _ 18) as [w |]; [| intros H; discriminate H].
    destruct (w >? 0); [| intros _ H; discriminate H].
    destruct (BigInt.div _ (ORACLE_PRICE_SCALE * WAD)) as [m |]; [| intros H; discriminate H].
    destruct (BigInt.div _ w) as [h |]; [| intros H; discriminate H].
    set (hf0 := num_div (Number h) num_1e18).
    destruct (negb (isFinite hf0) || num_gtb hf0 num_1000) eqn:A.
    + rewrite clamp_1000_not_negative. fields. intros _ H. injection H as <-.
      exact (proj1 bounds_in_range).
    + destruct (num_ltb hf0 num_0) eqn:B; fields; intros _ H; injection H as <-.
      * exact (proj2 bounds_in_range).
      * apply clamped_in_range; assumption.
Qed.

(** The simulated borrow of 12 UPETH against 50,000,000 UPKRW. *)
Lemma health_factor_in_range_witness :
  isFinite (Spec.healthFactor (ether 50000000) (ether 12) price) = true /\
  num_leb num_0 (Spec.healthFactor (ether 50000000) (ether 12) price) = true /\
  num_leb (Spec.healthFactor (ether 50000000) (ether 12) price) num_1000 = true.
Proof.
  apply (proj1 (health_factor_in_range (collateralOnly (Some price)))
           (parseFloat "12") num_0).
  by_evaluation.
Defined.

(** X13.  [calculateHealthFactor] returns (it does not throw) whenever the
    oracle price is missing or zero, and whenever the existing debt, the
    new borrow and the new collateral are amounts (non-negative numbers
    below 1e21). *)
Theorem health_factor_defined_for_amounts
    (s : State) (newBorrowETH newCollateralKRW : number) :
  BigInt.truthy (oraclePrice s) = false \/
  (Spec.is_amount (borrowAssets (userPosition s)) /\
   Spec.is_amount newBorrowETH /\ Spec.is_amount newCollateralKRW) ->
  exists r, calculateHealthFactor s newBorrowETH newCollateralKRW = Ok r.
Proof.
  unfold calculateHealthFactor, BigInt.truthy.
  destruct (oraclePrice s) as [p |]; [| intros _; exists None; reflexivity].
  destruct (p =? 0); [intros _; exists None; reflexivity |].
  intros [H | [Ha [Hb Hc]]]; [discriminate H |].
  destruct (amount_converts _ Ha) as [wa Ea].
  destruct (amount_converts _ Hb) as [wb Eb].
  destruct (amount_converts _ Hc) as [wc Ec].
  rewrite Ea, Ec, Eb. cbn [result_bind].
  destruct (Z.leb_spec (wa + wb) 0); [exists None; reflexivity |].
  destruct (_ <=? 0); [exists None; reflexivity |].
  rewrite (div_nonzero _ _ scale_nonzero). cbn [result_bind].
  rewrite div_nonzero by lia. cbn [result_bind].
  destruct (_ || _); [eexists; reflexivity |].
  destruct (num_ltb _ _); eexists; reflexivity.
Qed.

(** The simulated borrow of 12 UPETH against 50,000,000 UPKRW. *)
Lemma health_factor_defined_for_amounts_witness :
  exists r, calculateHealthFactor (collateralOnly (Some price)) (parseFloat "12") num_0 = Ok r.
Proof.
  apply (health_factor_defined_for_amounts (collateralOnly (Some price))
           (parseFloat "12") num_0).
  right. repeat split; by_evaluation.
Defined.

(** X14.  When the health factor of a typed borrow cannot be computed,
    [simulate] ends by that exception after it stored the typed text: the
    simulated health factor shown is still the one of the previous
    amount. *)
Theorem failed_simulation_keeps_previous_health_factor (value : string) (s : State) :
  is_empty value = false -> num_eqb (parseFloat value) num_0 = false ->
  selection s = Some UPETH_BORROW ->
  calculateHealthFactor s (parseFloat value) (parseFloat_or_0 (collateralAmount s)) = Throw ->
  completes (simulate value) s = false /\
  run (simulate value) s = (setInputAmount value s, []).
Proof.
  intros He Hz Hs Hc. unfold completes, run, simulate. unfold_actions.
  rewrite He, Hz, Hs, Hc. split; reflexivity.
Qed.

(** Typing 1e21 UPETH (a 1 and 21 zeros) over a borrow of 1 UPETH. *)
Lemma failed_simulation_keeps_previous_health_factor_witness :
  completes (simulate "1000000000000000000000") (borrowPanel (Some price) "1") = false /\
  run (simulate "1000000000000000000000") (borrowPanel (Some price) "1")
    = (setInputAmount "1000000000000000000000" (borrowPanel (Some price) "1"), []).
Proof.
  assert (W := failed_simulation_keeps_previous_health_factor
                 "1000000000000000000000" (borrowPanel (Some price) "1")).
  feed W. exact W.
Defined.

(** X15.  Whenever [getDisabledReason] gives a reason the button is
    disabled; and with a connected wallet, no pending transaction, the
    idle step and no confirmed execution on display, the button is
    disabled exactly when a reason is given. *)
Theorem disabled_reason_matches_button (s : State) :
  (is_some (getDisabledReason s) = true -> isButtonDisabled s = true) /\
  (isConnected s = true -> isTxPending s = false -> txStep s = idle ->
   executionStatus s <> status_confirmed ->
   isButtonDisabled s = is_some (getDisabledReason s)).
Proof.
  unfold getDisabledReason, isButtonDisabled. split.
  - destruct (negb (isConnected s)); [reflexivity |].
    destruct (isTxPending s); [reflexivity |].
    destruct (txStep s); cbn [TxStep_eqb negb orb is_some]; try reflexivity; try discriminate.
    destruct (ExecutionStatus_eqb _ _); [reflexivity |].
    destruct (_ || _); [reflexivity |].
    destruct (num_gtb _ _); [reflexivity |].
    destruct (_ && _); [| discriminate].
    destruct (simulatedHF s) as [hf |]; [destruct (num_ltb hf num_1); [reflexivity |] |];
      destruct (_ && _); (reflexivity || discriminate).
  - intros Hc Hp Ht Hs. rewrite Hc, Hp, Ht. cbn [negb TxStep_eqb orb].
    destruct (executionStatus s); try contradiction; cbn [ExecutionStatus_eqb].
    all: destruct (_ || _); [reflexivity |].
    all: destruct (num_gtb _ _); [reflexivity |].
    all: destruct (_ && _); [| reflexivity].
    all: destruct (simulatedHF s) as [hf |]; [destruct (num_ltb hf num_1); [reflexivity |] |];
      destruct (_ && _); reflexivity.
Qed.

(** The unsafe borrow of 12 UPETH against 50,000,000 UPKRW and the reason
    shown for it. *)
Lemma disabled_reason_matches_button_witness :
  getDisabledReason (borrowPanel (Some price) "12")
    = Some "Health Factor 0.84 is below 1.0 - Position would be liquidatable" /\
  isButtonDisabled (borrowPanel (Some price) "12") = true.
Proof.
  split; [by_evaluation |].
  apply (proj1 (disabled_reason_matches_button (borrowPanel (Some price) "12"))).
  by_evaluation.
Defined.

(** *** The liquidation page *)

(** X16.  A position returned by [checkBorrowerPosition] comes from a
    successful read with non-zero borrow shares, made with a client, a
    non-zero oracle price, market totals with non-zero borrow shares and a
    non-empty address; it carries that address, the collateral read (also
    as the maximum seizable) and the borrow shares read, the debt
    [borrowShares * totalBorrowAssets / totalBorrowShares] and the health
    factor of that debt as numbers of tokens, and the incentive 1.05.  In
    every other case, a rejected read included, the result is [null]. *)
Theorem listed_position_reflects_read
    (s : State) (borrowerAddress : string) (read : ChainRead (Z * Z * Z))
    (p : LiquidatablePosition) :
  checkBorrowerPosition s borrowerAddress read = Some p ->
  exists supplyShares borrowShares coll oracle m,
    read = Resolves (supplyShares, borrowShares, coll) /\
    publicClient s = true /\ oraclePrice s = Some oracle /\ oracle <> 0 /\
    marketData s = Some m /\ totalBorrowShares m <> 0 /\
    borrowerAddress <> "" /\ borrowShares <> 0 /\
    let debt := Z.quot (borrowShares * totalBorrowAssets m) (totalBorrowShares m) in
    p = mkLiquidatablePosition borrowerAddress coll borrowShares
          (num_div (Number debt) num_1e18)
          (num_div (Number (if debt >? 0
                            then Z.quot (Spec.maxBorrow coll oracle * WAD) debt else 0))
                   num_1e18)
          coll num_1_05.
Proof.
  unfold checkBorrowerPosition.
  destruct (oraclePrice s) as [oracle |]; [| discriminate].
  destruct (marketData s) as [m |]; [| discriminate].
  destruct (publicClient s); [| discriminate].
  destruct (Z.eqb_spec oracle 0) as [| Ho]; [discriminate |].
  destruct (is_empty borrowerAddress) eqn:Ea; [discriminate |].
  cbn [negb orb]. destruct read as [[[supplyShares borrowShares] coll] |]; [| discriminate].
  cbn [result_bind].
  destruct (Z.eqb_spec borrowShares 0) as [| Hb]; [discriminate |].
  unfold BigInt.div at 1 2.
  destruct (Z.eqb_spec (totalBorrowShares m) 0) as [| Ht]; [discriminate |].
  cbn [result_bind]. rewrite (div_nonzero _ _ scale_nonzero). cbn [result_bind].
  set (debt := Z.quot (borrowShares * totalBorrowAssets m) (totalBorrowShares m)).
  destruct (Z.gtb_spec debt 0) as [Hd | Hd];
    rewrite ?div_nonzero by lia; cbn [result_bind]; intros H;
    exists supplyShares, borrowShares, coll, oracle, m;
    (repeat split; try assumption; [intros ->; discriminate Ea |]);
    cbv zeta; fold debt; unfold Spec.maxBorrow.
  - replace (debt >? 0) with true by lia. congruence.
  - replace (debt >? 0) with false by lia. congruence.
Qed.

(** The read of a borrower with 9,000,000 UPKRW of collateral and a debt
    of 2 UPETH. *)
Lemma listed_position_reflects_read_witness :
  exists supplyShares borrowShares coll oracle m,
    Resolves borrowerXPosition = Resolves (supplyShares, borrowShares, coll) /\
    publicClient checking = true /\ oraclePrice checking = Some oracle /\ oracle <> 0 /\
    marketData checking = Some m /\ totalBorrowShares m <> 0 /\
    borrowerX <> "" /\ borrowShares <> 0 /\
    let debt := Z.quot (borrowShares * totalBorrowAssets m) (totalBorrowShares m) in
    borrowerXListed
    = mkLiquidatablePosition borrowerX coll borrowShares
        (num_div (Number debt) num_1e18)
        (num_div (Number (if debt >? 0
                          then Z.quot (Spec.maxBorrow coll oracle * WAD) debt else 0))
                 num_1e18)
        coll num_1_05.
Proof.
  apply (listed_position_reflects_read checking borrowerX (Resolves borrowerXPosition)
           borrowerXListed).
  by_evaluation.
Defined.

(** X17.  Checking a borrower keeps the list free of duplicate addresses
    (compared without case), adds at most one entry, drops no address,
    and leaves the position it found in the list. *)
Theorem checked_borrowers_stay_distinct (read : ChainRead (Z * Z * Z)) (s : State) :
  NoDup (borrowers (liquidatablePositions s)) ->
  let s' := after (handleCheckBorrower read) s in
  NoDup (borrowers (liquidatablePositions s')) /\
  (length (liquidatablePositions s') <= S (length (liquidatablePositions s)))%nat /\
  incl (borrowers (liquidatablePositions s)) (borrowers (liquidatablePositions s')) /\
  (forall p, is_empty (borrowerToCheck s) = false ->
             checkBorrowerPosition s (borrowerToCheck s) read = Some p ->
             In p (liquidatablePositions s')).
Proof.
  intros N. cbv zeta. unfold after, run, handleCheckBorrower.
  destruct (is_empty (borrowerToCheck s)) eqn:E.
  - unfold_actions. fields. repeat split; [exact N | lia | apply incl_refl | discriminate].
  - destruct (checkBorrowerPosition s (borrowerToCheck s) read) as [p |].
    + destruct (find _ _) as [x |] eqn:F; unfold_actions; fields.
      * rewrite replace_keeps_keys, length_map.
        repeat split; [exact N | lia | apply incl_refl |].
        intros q _ Q. injection Q as <-. exact (replace_contains p _ x F).
      * repeat split.
        -- unfold borrowers. rewrite map_app. cbn [map].
           fold (borrowers (liquidatablePositions s)).
           apply NoDup_snoc; [exact N | apply find_none_key; exact F].
        -- rewrite List.length_app. cbn [length]. lia.
        -- unfold borrowers. rewrite map_app. apply incl_appl, incl_refl.
        -- intros q _ Q. injection Q as <-. apply in_or_app. right. left. reflexivity.
    + unfold_actions; fields.
      repeat split; [exact N | lia | apply incl_refl | discriminate].
Qed.

(** The first check of a borrower on an empty list, and a second check of
    the same borrower, typed in lower case, after its debt went down:
    the entry is replaced, not added. *)
Lemma checked_borrowers_stay_distinct_witness :
  (NoDup (borrowers (liquidatablePositions
                       (after (handleCheckBorrower (Resolves borrowerXPosition)) checking))) /\
   In borrowerXListed
      (liquidatablePositions (after (handleCheckBorrower (Resolves borrowerXPosition)) checking))) /\
  (let s' := after (handleCheckBorrower (Resolves borrowerXLater)) rechecking in
   liquidatablePositions rechecking = [borrowerXListed] /\
   borrowerToCheck rechecking = "0x00000000000000000000000000000000000000b2" /\
   NoDup (borrowers (liquidatablePositions s')) /\
   (length (liquidatablePositions s') <= 2)%nat /\
   incl (borrowers [borrowerXListed]) (borrowers (liquidatablePositions s')) /\
   In (mkLiquidatablePosition "0x00000000000000000000000000000000000000b2"
         (ether 9000000) (ether 1 * 10 ^ 6) (lit 1)
         (num_div (Number (Spec.hfScaled (ether 9000000) (ether 1) price)) num_1e18)
         (ether 9000000) num_1_05)
      (liquidatablePositions s') /\
   length (liquidatablePositions s') = 1%nat).
Proof.
  assert (W := checked_borrowers_stay_distinct (Resolves borrowerXPosition) checking).
  assert (N : NoDup (borrowers (liquidatablePositions checking))) by (vm_compute; constructor).
  specialize (W N). cbv zeta in W. destruct W as (W1 & _ & _ & W4).
  assert (V := checked_borrowers_stay_distinct (Resolves borrowerXLater) rechecking).
  assert (M : NoDup (borrowers (liquidatablePositions rechecking))).
  { vm_compute. constructor; [intros [] | constructor]. }
  specialize (V M). cbv zeta in V. destruct V as (V1 & V2 & V3 & V4).
  split.
  - split; [exact W1 |]. apply W4; by_evaluation.
  - cbv zeta. split; [by_evaluation |]. split; [by_evaluation |].
    split; [exact V1 |]. split.
    + replace 2%nat with (S (length (liquidatablePositions rechecking))) by by_evaluation.
      exact V2.
    + split.
      * replace [borrowerXListed] with (liquidatablePositions rechecking) by by_evaluation.
        exact V3.
      * split; [apply V4; by_evaluation | by_evaluation].
Defined.

(** X18.  A liquidation, for a connected liquidator with a selected
    borrower, a non-zero oracle price, and a typed amount and a listed
    debt that both convert to wei.  The press sends the approval of UPETH
    for the smaller of the two plus one percent, never more than the
    listed debt plus one percent.  After its confirmation the position is
    read again.  When the read gives no position the step returns to idle
    with a message; when the fresh debt does not convert to wei the step
    ends by the exception, sends nothing and stays at [approving]; when
    the collateral to seize is zero the step returns to idle with a
    message; otherwise it sends the liquidation of the selected borrower
    for 95% of the collateral to seize, never more than 95% of the fresh
    collateral, with no repaid shares, and the confirmation of that is
    the success step, with the selection and the amount cleared. *)
Theorem liquidation_sequence
    (read : ChainRead (Z * Z * Z)) (s : State) (selected : LiquidatablePosition)
    (oracle requested debt : Z) (hash1 hash2 : string) :
  isConnected s = true -> selectedBorrower s = Some selected ->
  oraclePrice s = Some oracle -> oracle <> 0 ->
  is_empty (liquidateAmount s) = false ->
  parseUnits (liquidateAmount s) 18 = Ok requested ->
  parseUnits (toString (lp_borrowAssets selected)) 18 = Ok debt ->
  let repay := Z.min requested debt in
  let step1 := run executeLiquidation s in
  let s1 := receiptConfirmed (walletSubmitted hash1 (fst step1)) in
  let step2 := run (liquidationSuccessEffect read) s1 in
  let s2 := receiptConfirmed (walletSubmitted hash2 (fst step2)) in
  let step3 := run (liquidationSuccessEffect read) s2 in
  let failed (message : string) :=
    (setLiquidateTxStep liq_idle (setErrorMessage (Some message) s1), @nil WriteRequest) in
  snd step1 = [mkWrite ADDRESSES.UPETH (fn_approve ADDRESSES.MORPHO (repay + Z.quot repay 100))] /\
  repay + Z.quot repay 100 <= debt + Z.quot debt 100 /\
  liquidateTxStep s1 = liq_approving /\
  (checkBorrowerPosition s1 (lp_borrower selected) read = None ->
   step2 = failed "Failed to fetch position data") /\
  (forall fresh : LiquidatablePosition,
     checkBorrowerPosition s1 (lp_borrower selected) read = Some fresh ->
     (parseUnits (toString (lp_borrowAssets fresh)) 18 = Throw ->
      step2 = (s1, []) /\ completes (liquidationSuccessEffect read) s1 = false) /\
     (forall freshDebt : Z,
        parseUnits (toString (lp_borrowAssets fresh)) 18 = Ok freshDebt ->
        let seize :=
          Z.min (Spec.seizeAmount (Z.min requested freshDebt) oracle) (lp_collateral fresh) in
        (seize = 0 -> step2 = failed "No collateral to seize") /\
        (seize <> 0 ->
         snd step2 = [mkWrite ADDRESSES.MORPHO
                        (fn_liquidate (lp_borrower selected) (Z.quot (seize * 95) 100) 0)] /\
         Z.quot (seize * 95) 100 <= Z.quot (lp_collateral fresh * 95) 100 /\
         snd step3 = [] /\
         liquidateTxStep (fst step3) = liq_success /\
         selectedBorrower (fst step3) = None /\ liquidateAmount (fst step3) = ""))).
Proof.
  intros Hc Hsel Ho Ho0 Hi Hp Hd repay.
  assert (E0 : (oracle =? 0) = false) by lia.
  assert (R1 : run executeLiquidation s =
               (setLiquidateTxStep liq_approving s,
                [mkWrite ADDRESSES.UPETH
                   (fn_approve ADDRESSES.MORPHO (repay + Z.quot repay 100))])).
  { unfold run, executeLiquidation. rewrite Hsel, Ho, Hi, Hc, E0. cbn [negb orb].
    unfold_actions. rewrite Hp, Hd. unfold repay.
    destruct (Z.gtb_spec requested debt).
    - rewrite Z.min_r by lia. reflexivity.
    - rewrite Z.min_l by lia. reflexivity. }
  cbv zeta. rewrite R1. fields.
  set (s1 := receiptConfirmed _).
  assert (U : run (liquidationSuccessEffect read) s1
              = run (executeLiquidationAfterApprove read) s1).
  { unfold run, liquidationSuccessEffect, s1. fields. reflexivity. }
  assert (C : completes (liquidationSuccessEffect read) s1
              = completes (executeLiquidationAfterApprove read) s1).
  { unfold completes, liquidationSuccessEffect, s1. fields. reflexivity. }
  assert (Sel : selectedBorrower s1 = Some selected) by exact Hsel.
  assert (Or : oraclePrice s1 = Some oracle) by exact Ho.
  assert (Am : liquidateAmount s1 = liquidateAmount s) by reflexivity.
  split; [reflexivity |].
  split; [apply margin_mono; unfold repay; lia |].
  split; [reflexivity |].
  split.
  { intros Hf. rewrite U. unfold run, executeLiquidationAfterApprove.
    rewrite Sel, Or, Am, Hi, E0, Hf. reflexivity. }
  intros fresh Hf. split.
  { intros Hfd. rewrite U, C. unfold run, completes, executeLiquidationAfterApprove.
    rewrite Sel, Or, Am, Hi, E0, Hf. cbn [orb]. unfold_actions. rewrite Hp, Hfd.
    split; reflexivity. }
  intros freshDebt Hfd.
  set (seize := Z.min _ _).
  assert (R2 : run (executeLiquidationAfterApprove read) s1 =
               if seize =? 0
               then (setLiquidateTxStep liq_idle
                       (setErrorMessage (Some "No collateral to seize") s1), [])
               else (setLiquidateTxStep liq_liquidating s1,
                     [mkWrite ADDRESSES.MORPHO
                        (fn_liquidate (lp_borrower selected) (Z.quot (seize * 95) 100) 0)])).
  { unfold run, executeLiquidationAfterApprove.
    rewrite Sel, Or, Am, Hi, E0, Hf. cbn [orb]. unfold_actions. rewrite Hp, Hfd.
    rewrite div_nonzero by lia. rewrite !clamp_is_min.
    change (Z.quot (Z.min requested freshDebt * ORACLE_PRICE_SCALE * 105) (oracle * 100))
      with (Spec.seizeAmount (Z.min requested freshDebt) oracle).
    fold seize. destruct (seize =? 0); reflexivity. }
  rewrite U, R2. split.
  { intros Hz. rewrite Hz. reflexivity. }
  intros Hz. destruct (Z.eqb_spec seize 0) as [| _]; [contradiction |]. fields.
  split; [reflexivity |].
  split.
  { apply Z.quot_le_mono; [lia |]. unfold seize. lia. }
  unfold run, liquidationSuccessEffect. fields. cbn [andb LiquidateTxStep_eqb].
  unfold_actions. fields. repeat split.
Qed.

(** A request to repay 5 UPETH of a debt of 2 UPETH backed by 9,000,000
    UPKRW; the same request when the fresh read shows a debt of
    0.0000005 UPETH, which stalls at the second step; and when the read
    fails. *)
Lemma liquidation_sequence_witness :
  let step1 := run executeLiquidation liquidator in
  let s1 := receiptConfirmed (walletSubmitted "0x01" (fst step1)) in
  snd step1 = [mkWrite ADDRESSES.UPETH
                 (fn_approve ADDRESSES.MORPHO (ether 2 + Z.quot (ether 2) 100))] /\
  snd (run (liquidationSuccessEffect (Resolves borrowerXPosition)) s1)
    = [mkWrite ADDRESSES.MORPHO (fn_liquidate borrowerX (ether 8550000) 0)] /\
  (run (liquidationSuccessEffect (Resolves borrowerXDust)) s1 = (s1, []) /\
   completes (liquidationSuccessEffect (Resolves borrowerXDust)) s1 = false) /\
  run (liquidationSuccessEffect Rejects) s1
    = (setLiquidateTxStep liq_idle
         (setErrorMessage (Some "Failed to fetch position data") s1), []).
Proof.
  assert (W := liquidation_sequence (Resolves borrowerXPosition) liquidator
                 borrowerXListed price (ether 5) (ether 2) "0x01" "0x02").
  feed W. destruct W as (W1 & _ & _ & _ & W).
  specialize (W borrowerXListed). feed W. destruct W as (_ & W).
  specialize (W (ether 2)). feed W. destruct W as (_ & W). feed W.
  destruct W as (W2 & _).
  assert (V := liquidation_sequence (Resolves borrowerXDust) liquidator
                 borrowerXListed price (ether 5) (ether 2) "0x01" "0x02").
  feed V. destruct V as (_ & _ & _ & _ & V).
  specialize (V (mkLiquidatablePosition borrowerX (ether 2) (5 * 10 ^ 11 * 10 ^ 6)
                   (num_div (Number (5 * 10 ^ 11)) num_1e18)
                   (num_div (Number (Spec.hfScaled (ether 2) (5 * 10 ^ 11) price)) num_1e18)
                   (ether 2) num_1_05)).
  feed V. destruct V as (V & _). feed V.
  assert (U := liquidation_sequence Rejects liquidator
                 borrowerXListed price (ether 5) (ether 2) "0x01" "0x02").
  feed U. destruct U as (_ & _ & _ & U & _). feed U.
  cbv zeta. split; [| split; [| split]].
  - vm_compute in W1. vm_compute. exact W1.
  - vm_compute in W2. vm_compute. exact W2.
  - exact V.
  - exact U.
Defined.

(** X19.  [executeLiquidation] has no exception handler: when the listed
    debt, printed by [toString], does not convert to wei (a debt below
    0.000001 UPETH prints in exponent notation), the handler ends by that
    exception, sends nothing and changes nothing. *)
Theorem unconvertible_debt_blocks_liquidation (s : State) (selected : LiquidatablePosition) :
  selectedBorrower s = Some selected ->
  parseUnits (toString (lp_borrowAssets selected)) 18 = Throw ->
  run executeLiquidation s = (s, []) /\
  (isConnected s = true -> BigInt.truthy (oraclePrice s) = true ->
   is_empty (liquidateAmount s) = false -> completes executeLiquidation s = false).
Proof.
  intros Hsel Hd. unfold run, completes, executeLiquidation, BigInt.truthy.
  rewrite Hsel. destruct (oraclePrice s) as [p |].
  - destruct (is_empty (liquidateAmount s)); destruct (isConnected s);
      destruct (p =? 0); cbn [negb orb]; unfold_actions; rewrite ?Hd;
      try destruct (parseUnits (liquidateAmount s) 18);
      split; try reflexivity; intros; discriminate.
  - split; [reflexivity | intros; discriminate].
Qed.

(** A borrower whose debt is 0.0000005 UPETH, printed as [5e-7]. *)
Lemma unconvertible_debt_blocks_liquidation_witness :
  toString (lp_borrowAssets tinyDebtListed) = "5e-7" /\
  run executeLiquidation tinyDebtLiquidator = (tinyDebtLiquidator, []) /\
  completes executeLiquidation tinyDebtLiquidator = false.
Proof.
  assert (W := unconvertible_debt_blocks_liquidation tinyDebtLiquidator tinyDebtListed).
  feed W. destruct W as [W1 W2].
  split; [by_evaluation |]. split; [exact W1 |]. apply W2; by_evaluation.
Defined.

(** X20.  The MAX button of the liquidation panel fills in the listed debt
    with six decimals.  For a debt that is an amount (a non-negative
    number below 1e21) that text always converts to wei: to the debt
    rounded to six decimals. *)
Theorem liquidation_max_converts (s : State) (selected : LiquidatablePosition) (debt : Q) :
  selectedBorrower s = Some selected -> lp_borrowAssets selected = Fin debt ->
  (0 <= debt)%Q -> (debt < ten ^ 21)%Q ->
  let s' := after liquidateMax s in
  liquidateAmount s' = toFixed (Fin debt) 6 /\
  parseUnits (liquidateAmount s') 18
  = Ok (Qfloor (debt * ten ^ 6 + (1 # 2)) * 10 ^ 12).
Proof.
  intros Hs Hd H0 H21. cbv zeta. unfold after, run, liquidateMax.
  rewrite Hs, Hd. unfold_actions. fields.
  split; [reflexivity |].
  exact (toFixed_parseUnits_digits debt 6 H0 H21 ltac:(lia)).
Qed.

(** The selected borrower with a debt of 2 UPETH. *)
Lemma liquidation_max_converts_witness :
  liquidateAmount (after liquidateMax liquidator) = "2.000000" /\
  parseUnits (liquidateAmount (after liquidateMax liquidator)) 18 = Ok (ether 2).
Proof.
  assert (W := liquidation_max_converts liquidator borrowerXListed 2).
  feed W. cbv zeta in W. destruct W as [W1 W2].
  split.
  - rewrite W1. by_evaluation.
  - rewrite W2. by_evaluation.
Defined.


(** *** Figures on display *)

(** X22.  With market totals as the chain reports them (unsigned 128-bit
    integers, no more borrowed than supplied) the utilization is a number
    between 0 and 100; without market data or without supply it is 0. *)
Theorem utilization_is_a_percentage (s : State) :
  (forall m, marketData s = Some m ->
             0 <= totalBorrowAssets m <= totalSupplyAssets m /\ totalSupplyAssets m < 2 ^ 128) ->
  num_leb num_0 (utilization s) = true /\ num_leb (utilization s) (lit 100) = true /\
  (BigInt.truthy (option_map totalSupplyAssets (marketData s)) = false ->
   utilization s = num_0).
Proof.
  intros H. unfold utilization, BigInt.truthy.
  destruct (marketData s) as [m |]; [| repeat split; vm_compute; reflexivity].
  destruct (H m eq_refl) as [[Lo Hi] B]. cbn [option_map].
  destruct (Z.gtb_spec (totalSupplyAssets m) 0) as [P | P].
  2:{ repeat split; vm_compute; reflexivity. }
  destruct (Number_positive (totalSupplyAssets m) ltac:(lia)) as [v [Ev Hv]].
  destruct (Number_between (totalBorrowAssets m) (totalSupplyAssets m) v ltac:(lia) Ev)
    as [u [Eu [Hu0 Hu]]].
  rewrite Ev, Eu. cbn [num_div].
  assert (Cv : Qcompare v 0 = Gt) by (apply Qgt_alt; exact Hv).
  rewrite Cv.
  assert (R : (inject_Z 0 <= u / v <= inject_Z 1)%Q).
  { split.
    - apply Qle_shift_div_l; [exact Hv |]. change (inject_Z 0) with 0%Q. lra.
    - apply Qle_shift_div_r; [exact Hv |]. change (inject_Z 1) with 1%Q. lra. }
  destruct (rnd_between (u / v) 0 1 R ltac:(vm_compute; reflexivity)
              ltac:(vm_compute; reflexivity)) as [x [Ex [Hx0 Hx1]]].
  rewrite Ex. replace (lit 100) with (Fin (inject_Z 100)) by (vm_compute; reflexivity).
  cbn [num_mul].
  change (inject_Z 0) with 0%Q in Hx0. change (inject_Z 1) with 1%Q in Hx1.
  assert (R2 : (inject_Z 0 <= x * inject_Z 100 <= inject_Z 100)%Q).
  { change (inject_Z 0) with 0%Q. change (inject_Z 100) with (100 # 1).
    split; nra. }
  destruct (rnd_between (x * inject_Z 100) 0 100 R2 ltac:(vm_compute; reflexivity)
              ltac:(vm_compute; reflexivity)) as [y [Ey [Hy0 Hy1]]].
  rewrite Ey. rewrite num_0_eq.
  split; [apply Qle_bool_iff; assumption |].
  split; [apply Qle_bool_iff; assumption |].
  intros C. apply negb_false_iff in C. lia.
Qed.

(** A market with 40 UPETH borrowed out of 100 supplied. *)
Lemma utilization_is_a_percentage_witness :
  utilization (session (Some price) (0, 0, 0)) = lit 40 /\
  num_leb num_0 (utilization (session (Some price) (0, 0, 0))) = true /\
  num_leb (utilization (session (Some price) (0, 0, 0))) (lit 100) = true.
Proof.
  assert (W := utilization_is_a_percentage (session (Some price) (0, 0, 0))).
  assert (H : forall m, marketData (session (Some price) (0, 0, 0)) = Some m ->
                        0 <= totalBorrowAssets m <= totalSupplyAssets m
                        /\ totalSupplyAssets m < 2 ^ 128).
  { intros m E. injection E as <-. vm_compute.
    repeat split; first [reflexivity | discriminate]. }
  specialize (W H). destruct W as (W1 & W2 & _).
  split; [by_evaluation |]. split; [exact W1 | exact W2].
Defined.

(** X23.  The balance effect stores, for each token whose read returned a
    non-zero balance, the balance divided by 1e18 and rounded once to a
    number; a balance of zero, like a missing read, leaves the stored
    balance as it was. *)
Theorem balance_effect_stores_rounded_amount
    (upethBalanceData upkrwBalanceData : option Z) (s : State) :
  (forall b, upethBalanceData = Some b -> 0 <= b) ->
  (forall b, upkrwBalanceData = Some b -> 0 <= b) ->
  let s' := after (balanceEffect upethBalanceData upkrwBalanceData) s in
  upethBalance s' =
    match upethBalanceData with
    | Some b => if b =? 0 then upethBalance s else rnd (inject_Z b / inject_Z (10 ^ 18))
    | None => upethBalance s
    end /\
  upkrwBalance s' =
    match upkrwBalanceData with
    | Some b => if b =? 0 then upkrwBalance s else rnd (inject_Z b / inject_Z (10 ^ 18))
    | None => upkrwBalance s
    end.
Proof.
  intros H1 H2. cbv zeta. unfold after, run, balanceEffect.
  destruct upethBalanceData as [b1 |]; destruct upkrwBalanceData as [b2 |];
    try destruct (b1 =? 0); try destruct (b2 =? 0);
    unfold_actions; fields; cbn [negb];
    rewrite ?(Number_formatUnits b1) by (apply H1; reflexivity);
    rewrite ?(Number_formatUnits b2) by (apply H2; reflexivity);
    split; reflexivity.
Qed.

(** A wallet whose UPETH balance is 1.5 and whose UPKRW balance, once
    100,000,000, is read as zero. *)
Lemma balance_effect_stores_rounded_amount_witness :
  upethBalance (after (balanceEffect (Some (15 * 10 ^ 17)) (Some 0))
                  (session (Some price) (0, 0, 0))) = parseFloat "1.5" /\
  upkrwBalance (after (balanceEffect (Some (15 * 10 ^ 17)) (Some 0))
                  (session (Some price) (0, 0, 0))) = lit 100000000.
Proof.
  assert (W := balance_effect_stores_rounded_amount (Some (15 * 10 ^ 17)) (Some 0)
                 (session (Some price) (0, 0, 0))).
  assert (H : forall a b : Z, 0 <= a -> Some a = Some b -> 0 <= b).
  { intros a b Ha E. replace b with a by congruence. exact Ha. }
  assert (H1 : forall b, Some (15 * 10 ^ 17) = Some b -> 0 <= b).
  { intros b. apply H. vm_compute. discriminate. }
  assert (H2 : forall b, Some 0 = Some b -> 0 <= b).
  { intros b. apply H. vm_compute. discriminate. }
  specialize (W H1 H2). cbv zeta in W. destruct W as [W1 W2].
  split.
  - rewrite W1. by_evaluation.
  - rewrite W2. by_evaluation.
Defined.
